(** * SteerMate: the rules-based driver safety scorer

    A shallow embedding of [backend/ml/driver_scoring.py] (class
    [DriverScorer], methods [score_trip] and [_generate_recommendations])
    and the properties of it that the specification states.

    Modelling conventions.
    - Python numbers ([int] and finite [float]) are exact rationals [Q]:
      the rounding error, the infinities and the NaN of binary64 are
      outside the model.  Counts and the final score, which are Python
      [int]s, are [Z].  Where the rounding of binary64 decides a
      property, the lines concerned are embedded again over binary64
      (module [Binary64]).
    - An [int] of the input can be too large for binary64, and Python then
      raises [OverflowError] where it turns it into a float.  The type
      [number] tells an [int] from a [float], and [Numbers.score_trip] is
      the scorer on such numbers: it raises where the source converts
      (lines 90, 91 and 114) and is [score_trip] on the rationals
      otherwise.
    - The three input dicts have a fixed set of keys and are records.  A
      numeric key read with [d.get(k)] is a [field]: the key is absent, or
      it maps to [None], or it maps to a number.  [event_type] and
      [sign_class] are strings when they are there, as the columns of the
      trip store have them.
    - A [dict] built by the code is an association list in insertion
      order, which is the order Python iterates it in.
    - Exceptions are values: a computation that may raise has type
      [result A].
    - Text is [string], the bytes of its UTF-8 encoding.  [int()] reads
      it as CPython 3.11 does: the white space and the decimal digits of
      Unicode, single underscores between digits, at most 4300 digits.
      The message literals are the bytes of the source file.
    - [score_trip] is split at its [return]: [score_trip_locals] computes
      the local variables (lines 89 to 188), [score_trip] builds the result
      from them (lines 190 to 197).

    Around the scorer, the code that feeds it and that it feeds:
    [ml/sign_classes.py], [ml/detector.py], [routers/detection.py] and
    [routers/trips.py].
    - A handler returns an [outcome]: its response, or the [failure] that
      ends it (an [HTTPException], a validation error of a pydantic
      model, an error of a query result).
    - The detector reads the file system, the TensorFlow installation and
      the model through a record [World]; a method returns its value
      together with the detector after the call.  The world also says
      how its NumPy compares a float32 with a Python float: as binary64
      numbers (NumPy 1), or after rounding the Python float to binary32
      (NumPy 2).
    - The database is three tables, each the list of its rows in the
      order in which they are read; a relationship of a trip is the rows
      that carry its id.  The columns are PostgreSQL's: [Db.Integer]
      and [Db.varchar] say what they hold.  What the database answers to
      the rows of an upload beyond that, a key or an error, is an input
      of the handler ([Db.Verdict]). *)

From Stdlib Require Import ZArith QArith Qround Qreduction Qminmax.
From Stdlib Require Import List String Ascii Bool DecimalString.
From Stdlib Require Import Permutation Lia Lqa Morphisms SpecFloat.
From Stdlib Require Import Sorted Qabs Qpower.
From Stdlib Require DecimalZ.
Import ListNotations.

Open Scope string_scope.
Open Scope Z_scope.
Open Scope Q_scope.

(** ** Exceptions *)

Inductive exn : Type :=
| ZeroDivisionError
| OverflowError
| ValueError
| KeyError
| IndexError.

Inductive result (A : Type) : Type :=
| Ok (a : A)
| Raise (e : exn).

Arguments Ok {A} a.
Arguments Raise {A} e.

Definition bind {A B : Type} (m : result A) (k : A -> result B) : result B :=
  match m with
  | Ok a => k a
  | Raise e => Raise e
  end.

(** [try: m  except ValueError: h] *)
Definition except_ValueError {A : Type} (m : result A) (h : result A) : result A :=
  match m with
  | Raise ValueError => h
  | _ => m
  end.

Fixpoint foldM {A S : Type} (step : S -> A -> result S) (l : list A) (s : S) : result S :=
  match l with
  | [] => Ok s
  | x :: r => bind (step s x) (foldM step r)
  end.

(** ** Fields of an input dict *)

Inductive field (A : Type) : Type :=
| Absent
| Null
| Val (a : A).

Arguments Absent {A}.
Arguments Null {A}.
Arguments Val {A} a.

Declare Scope py_scope.
Notation "x <- m ;; k" := (bind m (fun x => k))
  (at level 61, m at next level, right associativity) : py_scope.
Notation "' p <- m ;; k" := (bind m (fun x => let p := x in k))
  (at level 61, p pattern, m at next level, right associativity) : py_scope.
Open Scope py_scope.

Definition Qlt_bool (x y : Q) : bool := negb (Qle_bool y x).

(** ** Python built-ins *)

Module Py.

(** [max(a, b)]: [a] unless [b > a]. *)
Definition max (a b : Q) : Q := if Qlt_bool a b then b else a.

(** [min(a, b)]: [a] unless [b < a]. *)
Definition min (a b : Q) : Q := if Qlt_bool b a then b else a.

(** [a / b] on the values of two numbers of which one is a float, or
    that are [int]s with a quotient that binary64 holds ([true_div] below
    has the other [int]s). *)
Definition div (a b : Q) : result Q :=
  if Qeq_bool b 0 then Raise ZeroDivisionError else Ok (a / b).

(** [round(x)]: the nearest integer, a tie going to the even one. *)
Definition round (x : Q) : Z :=
  let f := Qfloor x in
  let r := x - inject_Z f in
  if Qlt_bool r (1 # 2) then f
  else if Qlt_bool (1 # 2) r then (f + 1)%Z
  else if Z.even f then f else (f + 1)%Z.

(** [round(x, 1)]: the nearest multiple of one tenth, in lowest terms. *)
Definition round1 (x : Q) : Q := Qred (round (x * 10) # 10).

(** [str(n)] and the [{n}] of an f-string, for an [int]. *)
Definition str (n : Z) : string := NilZero.string_of_int (Z.to_int n).

(** [f"{x:.0f}"] *)
Definition format_0f (x : Q) : string := str (round x).

(** ** Strings *)

(** [needle in hay] *)
Fixpoint contains (needle hay : string) : bool :=
  prefix needle hay ||
  match hay with
  | EmptyString => false
  | String _ rest => contains needle rest
  end.

(** [s.split(sep)] for a one-character separator. *)
Fixpoint split_chars (sep : ascii) (s : list ascii) : list (list ascii) :=
  match s with
  | [] => [[]]
  | c :: rest =>
      if Ascii.eqb c sep then [] :: split_chars sep rest
      else match split_chars sep rest with
           | tok :: toks => (c :: tok) :: toks
           | [] => [[c]]
           end
  end.

Definition split (sep : ascii) (s : string) : list string :=
  map string_of_list_ascii (split_chars sep (list_ascii_of_string s)).

(** [l[-1]] *)
Definition last_item {A : Type} (l : list A) : result A :=
  match rev l with
  | x :: _ => Ok x
  | [] => Raise IndexError
  end.

(** ASCII white space, as [str.isspace] has it. *)
Definition is_space (c : ascii) : bool :=
  let n := nat_of_ascii c in
  ((9 <=? n) && (n <=? 13) || (28 <=? n) && (n <=? 32))%nat.

Definition digit_value (c : ascii) : option Z :=
  let n := nat_of_ascii c in
  if ((48 <=? n) && (n <=? 57))%nat then Some (Z.of_nat n - 48)%Z else None.

Fixpoint lstrip (s : list ascii) : list ascii :=
  match s with
  | c :: rest => if is_space c then lstrip rest else s
  | [] => []
  end.

Definition strip (s : list ascii) : list ascii :=
  rev (lstrip (rev (lstrip s))).

(** The digits of an integer literal: one digit at least, and a single
    underscore allowed between two digits.  [after_digit] says that the
    character before was a digit. *)
Fixpoint digits (after_digit : bool) (acc : Z) (s : list ascii) : option Z :=
  match s with
  | [] => if after_digit then Some acc else None
  | c :: rest =>
      match digit_value c with
      | Some d => digits true (10 * acc + d)%Z rest
      | None =>
          if Ascii.eqb c "_" && after_digit then
            match rest with
            | [] => None
            | _ => digits false acc rest
            end
          else None
      end
  end.

(** *** [int(s)] for a [str]

    A text is held as its UTF-8 bytes.  [int] takes every white space
    character of Unicode for a space and every decimal digit of Unicode
    for the ASCII digit of its value, and then reads an ASCII literal:
    spaces around (of which the characters 28 to 31 are none), an optional
    sign, decimal digits with single underscores between them, no more
    than 4300 digits.  Anything else raises [ValueError].  The tables are
    those of CPython 3.11 (Unicode 14.0). *)

Definition byte_value (c : ascii) : Z := Z.of_N (N_of_ascii c).

(** The payload of a continuation byte [10xxxxxx]. *)
Definition continuation (c : ascii) : option Z :=
  let b := byte_value c in
  if ((128 <=? b) && (b <? 192))%Z then Some (b - 128)%Z else None.

(** The code points of a text; [None] when the bytes are no UTF-8. *)
Fixpoint code_points (s : list ascii) : option (list Z) :=
  match s with
  | [] => Some []
  | c0 :: rest =>
      let b0 := byte_value c0 in
      if (b0 <? 128)%Z then option_map (cons b0) (code_points rest)
      else if ((194 <=? b0) && (b0 <? 224))%Z then
        match rest with
        | c1 :: rest1 =>
            match continuation c1 with
            | Some b1 =>
                option_map (cons ((b0 - 192) * 64 + b1)%Z) (code_points rest1)
            | None => None
            end
        | _ => None
        end
      else if ((224 <=? b0) && (b0 <? 240))%Z then
        match rest with
        | c1 :: c2 :: rest2 =>
            match continuation c1, continuation c2 with
            | Some b1, Some b2 =>
                let cp := (((b0 - 224) * 64 + b1) * 64 + b2)%Z in
                if ((2048 <=? cp) && negb ((55296 <=? cp) && (cp <=? 57343)))%Z
                then option_map (cons cp) (code_points rest2)
                else None
            | _, _ => None
            end
        | _ => None
        end
      else if ((240 <=? b0) && (b0 <? 245))%Z then
        match rest with
        | c1 :: c2 :: c3 :: rest3 =>
            match continuation c1, continuation c2, continuation c3 with
            | Some b1, Some b2, Some b3 =>
                let cp := ((((b0 - 240) * 64 + b1) * 64 + b2) * 64 + b3)%Z in
                if ((65536 <=? cp) && (cp <=? 1114111))%Z
                then option_map (cons cp) (code_points rest3)
                else None
            | _, _, _ => None
            end
        | _ => None
        end
      else None
  end.

(** The white space characters beyond ASCII. *)
Definition UNICODE_SPACES : list Z :=
  [
   133; 160; 5760; 8192; 8193; 8194; 8195; 8196; 8197; 8198; 8199;
   8200; 8201; 8202; 8232; 8233; 8239; 8287; 12288
  ]%Z.

(** The digit zero of every run of decimal digits; the nine code points
    after it are the digits 1 to 9. *)
Definition DECIMAL_ZEROS : list Z :=
  [
   48; 1632; 1776; 1984; 2406; 2534; 2662; 2790; 2918; 3046; 3174;
   3302; 3430; 3558; 3664; 3792; 3872; 4160; 4240; 6112; 6160; 6470;
   6608; 6784; 6800; 6992; 7088; 7232; 7248; 42528; 43216; 43264;
   43472; 43504; 43600; 44016; 65296; 66720; 68912; 69734; 69872;
   69942; 70096; 70384; 70736; 70864; 71248; 71360; 71472; 71904;
   72016; 72784; 73040; 73120; 92768; 92864; 93008; 120782; 120792;
   120802; 120812; 120822; 123200; 123632; 125264; 130032
  ]%Z.

Definition to_decimal (cp : Z) : option Z :=
  match find (fun zero => ((zero <=? cp) && (cp <? zero + 10))%Z) DECIMAL_ZEROS with
  | Some zero => Some (cp - zero)%Z
  | None => None
  end.

(** The ASCII character that [int] reads for a character: itself below
    127, a space for white space, the digit for a decimal digit. *)
Definition to_ascii (cp : Z) : option ascii :=
  if (cp <? 127)%Z then Some (ascii_of_N (Z.to_N cp))
  else if existsb (Z.eqb cp) UNICODE_SPACES then Some " "%char
  else
    match to_decimal cp with
    | Some d => Some (ascii_of_N (Z.to_N (48 + d)))
    | None => None
    end.

Fixpoint transform (cps : list Z) : option (list ascii) :=
  match cps with
  | [] => Some []
  | cp :: rest =>
      match to_ascii cp, transform rest with
      | Some c, Some out => Some (c :: out)
      | _, _ => None
      end
  end.

(** The spaces that the literal may have around it. *)
Definition is_literal_space (c : ascii) : bool :=
  let n := nat_of_ascii c in
  ((9 <=? n) && (n <=? 13) || (n =? 32))%nat.

Fixpoint skip_spaces (s : list ascii) : list ascii :=
  match s with
  | c :: rest => if is_literal_space c then skip_spaces rest else s
  | [] => []
  end.

Definition trim (s : list ascii) : list ascii :=
  rev (skip_spaces (rev (skip_spaces s))).

(** [sys.int_info.default_max_str_digits] *)
Definition MAX_STR_DIGITS : nat := 4300.

Definition count_digits (s : list ascii) : nat :=
  List.length
    (filter
       (fun c => match digit_value c with Some _ => true | None => false end)
       s).

Definition int (s : string) : result Z :=
  let literal :=
    match code_points (list_ascii_of_string s) with
    | Some cps =>
        match transform cps with
        | Some text =>
            let body := trim text in
            if (MAX_STR_DIGITS <? count_digits body)%nat then None
            else
              match body with
              | "+"%char :: rest => digits false 0 rest
              | "-"%char :: rest => option_map Z.opp (digits false 0 rest)
              | rest => digits false 0 rest
              end
        | None => None
        end
    | None => None
    end in
  match literal with
  | Some n => Ok n
  | None => Raise ValueError
  end.

(** [d.get(k) or 0] on an input dict *)
Definition get_or_0 (f : field Q) : Q :=
  match f with
  | Val x => if Qeq_bool x 0 then 0 else x
  | _ => 0
  end.

(** [d.get(k, default)] on an input dict: [None] is a stored [None]. *)
Definition get_default {A : Type} (f : field A) (default : A) : option A :=
  match f with
  | Absent => Some default
  | Null => None
  | Val x => Some x
  end.

(** [sorted(items, key=lambda x: x[1], reverse=True)]: stable, the greatest
    value first. *)
Fixpoint insert_desc (x : string * Z) (l : list (string * Z)) : list (string * Z) :=
  match l with
  | [] => [x]
  | y :: rest =>
      if (snd y <=? snd x)%Z then x :: l else y :: insert_desc x rest
  end.

Definition sorted_desc (l : list (string * Z)) : list (string * Z) :=
  fold_right insert_desc [] l.

End Py.

(** ** Dicts, in insertion order *)

Definition dict (V : Type) : Type := list (string * V).

Module Dict.

Fixpoint lookup {V : Type} (d : dict V) (k : string) : option V :=
  match d with
  | [] => None
  | (k', v) :: rest => if String.eqb k' k then Some v else lookup rest k
  end.

(** [d.get(k, default)] *)
Definition get {V : Type} (d : dict V) (k : string) (default : V) : V :=
  match lookup d k with
  | Some v => v
  | None => default
  end.

(** [d[k]] *)
Definition index {V : Type} (d : dict V) (k : string) : result V :=
  match lookup d k with
  | Some v => Ok v
  | None => Raise KeyError
  end.

(** [d[k] = v]: an existing key keeps its place, a new one goes last. *)
Fixpoint set {V : Type} (d : dict V) (k : string) (v : V) : dict V :=
  match d with
  | [] => [(k, v)]
  | (k', v') :: rest =>
      if String.eqb k' k then (k', v) :: rest else (k', v') :: set rest k v
  end.

(** [d.items()] *)
Definition items {V : Type} (d : dict V) : list (string * V) := d.

(** [{k: f(v) for k, v in d.items()}] *)
Definition map_values {V W : Type} (f : V -> W) (d : dict V) : dict W :=
  map (fun kv => (fst kv, f (snd kv))) d.

End Dict.

(** * The scorer *)

(** ** Input and output records *)

(** [trip_data], of which the scorer reads two keys. *)
Record TripData : Type := {
  distance_m : field Q;
  duration_seconds : field Q
}.

(** A [TripEvent] dict.  [event_type] is a string when the key is there
    ([None] here is the absent key). *)
Record Event : Type := {
  event_type : option string;
  speed_m_s : field Q
}.

(** A [SignDetection] dict.  [sign_class] is a string when the key is
    there. *)
Record Detection : Type := {
  sign_class : option string;
  confidence : field Q
}.

Record SafetyScore : Type := {
  score : Z;
  risk_level : string;
  grade : string;
  issues : list string;
  recommendations : list string;
  breakdown : dict Q
}.

(** ** Class [DriverScorer] *)

Module DriverScorer.

Definition EVENT_PENALTIES : dict Q :=
  [("hard_brake", 3.0); ("harsh_accel", 2.0); ("overspeed", 4.0);
   ("unsafe_curve", 3.5)].

Definition OVERSPEED_PENALTY_PER_KMH : Q := 0.5.

Definition RISK_THRESHOLDS : dict Z :=
  [("low", 80); ("medium", 60); ("high", 0)]%Z.

Definition GRADE_THRESHOLDS : dict Z :=
  [("A", 90); ("B", 80); ("C", 70); ("D", 60); ("F", 0)]%Z.

(** ** Recommendation texts *)

(** hard braking, more than 5 per 100 km *)
Definition MSG_FOLLOWING_DISTANCE : string :=
  "ðŸš— Maintain a larger following distance to avoid hard braking. Try to anticipate stops 3-4 seconds ahead.".

(** hard braking, more than 2 per 100 km *)
Definition MSG_LOOK_AHEAD : string :=
  "ðŸ’¡ Look further ahead to anticipate traffic slowdowns and brake more gradually.".

(** harsh acceleration, more than 3 per 100 km *)
Definition MSG_SMOOTH_ACCELERATION : string :=
  "âš¡ Smooth acceleration saves fuel and reduces wear. Try to take 5+ seconds to reach cruising speed.".

(** more than 20 km/h over the limit *)
Definition MSG_DANGEROUS_SPEED : string :=
  "ðŸš¨ Significantly exceeding speed limits is dangerous. Use cruise control to maintain safe speeds.".

(** overspeed otherwise *)
Definition MSG_WATCH_SPEED : string :=
  "âš ï¸ Watch your speed after passing speed limit signs. It takes time to adjust - start slowing early.".

(** unsafe cornering *)
Definition MSG_SLOW_BEFORE_CURVES : string :=
  "ðŸ”„ Slow down before entering curves, not during. Reduce speed to a comfortable level before the turn.".

(** nothing to recommend *)
Definition MSG_EXCELLENT : string :=
  "ðŸŒŸ Excellent driving! Keep up the safe habits. Your smooth driving style is both safe and fuel-efficient.".

(** ** [score_trip], lines 89 to 188: the local variables *)

(** The local variables of [score_trip] when it reaches its [return]. *)
Record Locals : Type := {
  loc_distance_km : Q;
  loc_duration_min : Q;
  loc_event_counts : dict Z;
  loc_max_overspeed_kmh : Q;
  loc_breakdown : dict Q;
  loc_issues : list string;
  loc_final_score : Q;
  loc_risk_level : string;
  loc_grade : string;
  loc_recommendations : list string
}.

(** The body of [for event in events]. *)
Definition count_event (st : dict Z * Q) (event : Event) : dict Z * Q :=
  let '(event_counts, max_overspeed_kmh) := st in
  let event_type :=
    match event_type event with Some s => s | None => "unknown" end in
  let event_counts :=
    Dict.set event_counts event_type (Dict.get event_counts event_type 0 + 1)%Z in
  if String.eqb event_type "overspeed" then
    let speed_ms := Py.get_or_0 (speed_m_s event) in
    let speed_kmh := speed_ms * 3.6 in
    let overspeed_amount := Py.max 0 (speed_kmh - 50) in
    (event_counts, Py.max max_overspeed_kmh overspeed_amount)
  else (event_counts, max_overspeed_kmh).

Definition count_events (events : list Event) : dict Z * Q :=
  fold_left count_event events ([], 0.0).

(** The issue text of one event type, if it has one. *)
Definition issue_of (event_type : string) (count : Z) : list string :=
  if String.eqb event_type "hard_brake" then
    ["Hard braking: " ++ Py.str count ++ " times"]
  else if String.eqb event_type "harsh_accel" then
    ["Harsh acceleration: " ++ Py.str count ++ " times"]
  else if String.eqb event_type "overspeed" then
    ["Over speed limit: " ++ Py.str count ++ " times"]
  else if String.eqb event_type "unsafe_curve" then
    ["Unsafe cornering: " ++ Py.str count ++ " times"]
  else [].

(** The body of [for event_type, count in event_counts.items()]. *)
Definition deduct_event (distance_km : Q) (st : Q * list string)
    (item : string * Z) : result (Q * list string) :=
  let '(event_deduction, issues) := st in
  let '(event_type, count) := item in
  let penalty := Dict.get EVENT_PENALTIES event_type 2.0 in
  per_km <- Py.div (inject_Z count) distance_km ;;
  let normalized_count := per_km * 100 in
  let deduction := normalized_count * penalty in
  let event_deduction := event_deduction + deduction in
  let issues :=
    if (0 <? count)%Z then (issues ++ issue_of event_type count)%list
    else issues in
  Ok (event_deduction, issues).

(** The body of [for detection in sign_detections]. *)
Definition scan_detection (detected_limits : list Z) (detection : Detection)
    : result (list Z) :=
  let sign_class :=
    match sign_class detection with Some s => s | None => "" end in
  let confidence := Py.get_default (confidence detection) 0 in
  if Py.contains "speed_limit_" sign_class then
    except_ValueError
      (token <- Py.last_item (Py.split "_" sign_class) ;;
       limit <- Py.int token ;;
       Ok (detected_limits ++ [limit])%list)
      (Ok detected_limits)
  else Ok detected_limits.

(** The first level, from the greatest threshold down, that the score
    reaches. *)
Fixpoint first_reached (final_score : Q) (levels : list (string * Z))
    (default : string) : string :=
  match levels with
  | [] => default
  | (level, threshold) :: rest =>
      if Qle_bool (inject_Z threshold) final_score then level
      else first_reached final_score rest default
  end.

(** [_generate_recommendations(event_counts, max_overspeed_kmh, distance_km)] *)
Definition _generate_recommendations (event_counts : dict Z)
    (max_overspeed_kmh : Q) (distance_km : Q) : result (list string) :=
  let recommendations : list string := [] in
  let hard_brakes := Dict.get event_counts "hard_brake" 0%Z in
  recommendations <-
    (if (0 <? hard_brakes)%Z then
       per_km <- Py.div (inject_Z hard_brakes) distance_km ;;
       let rate := per_km * 100 in
       if Qlt_bool 5 rate then
         Ok (recommendations ++ [MSG_FOLLOWING_DISTANCE])%list
       else if Qlt_bool 2 rate then
         Ok (recommendations ++ [MSG_LOOK_AHEAD])%list
       else Ok recommendations
     else Ok recommendations) ;;
  let harsh_accels := Dict.get event_counts "harsh_accel" 0%Z in
  recommendations <-
    (if (0 <? harsh_accels)%Z then
       per_km <- Py.div (inject_Z harsh_accels) distance_km ;;
       let rate := per_km * 100 in
       if Qlt_bool 3 rate then
         Ok (recommendations ++ [MSG_SMOOTH_ACCELERATION])%list
       else Ok recommendations
     else Ok recommendations) ;;
  let overspeeds := Dict.get event_counts "overspeed" 0%Z in
  let recommendations :=
    if (0 <? overspeeds)%Z || Qlt_bool 5 max_overspeed_kmh then
      if Qlt_bool 20 max_overspeed_kmh then
        (recommendations ++ [MSG_DANGEROUS_SPEED])%list
      else (recommendations ++ [MSG_WATCH_SPEED])%list
    else recommendations in
  let unsafe_curves := Dict.get event_counts "unsafe_curve" 0%Z in
  let recommendations :=
    if (0 <? unsafe_curves)%Z then
      (recommendations ++ [MSG_SLOW_BEFORE_CURVES])%list
    else recommendations in
  let recommendations :=
    match recommendations with
    | [] => (recommendations ++ [MSG_EXCELLENT])%list
    | _ => recommendations
    end in
  Ok (firstn 3 recommendations).

Definition score_trip_locals (trip_data : TripData) (events : list Event)
    (sign_detections : list Detection) : result Locals :=
  km <- Py.div (Py.get_or_0 (distance_m trip_data)) 1000 ;;
  let distance_km := Py.max km 1.0 in
  mins <- Py.div (Py.get_or_0 (duration_seconds trip_data)) 60 ;;
  let duration_min := Py.max mins 1.0 in
  let base_score := 100.0 in
  let breakdown : dict Q :=
    [("base", 100.0); ("events", 0.0); ("overspeed", 0.0);
     ("sign_compliance", 0.0)] in
  let issues : list string := [] in
  let '(event_counts, max_overspeed_kmh) := count_events events in
  let event_deduction := 0.0 in
  ' (event_deduction, issues) <-
     foldM (deduct_event distance_km) (Dict.items event_counts)
       (event_deduction, issues) ;;
  let breakdown := Dict.set breakdown "events" (- Py.min event_deduction 40) in
  let overspeed_deduction := max_overspeed_kmh * OVERSPEED_PENALTY_PER_KMH in
  let breakdown :=
    Dict.set breakdown "overspeed" (- Py.min overspeed_deduction 20) in
  let issues :=
    if Qlt_bool 10 max_overspeed_kmh then
      (issues ++ [("Max speed exceeded limit by "
                   ++ Py.format_0f max_overspeed_kmh ++ " km/h")%string])%list
    else issues in
  let sign_compliance_bonus := 0.0 in
  detected_limits <- foldM scan_detection sign_detections [] ;;
  let breakdown :=
    match detected_limits with
    | [] => breakdown
    | _ =>
        let sign_compliance_bonus := 5.0 in
        Dict.set breakdown "sign_compliance" sign_compliance_bonus
    end in
  b_events <- Dict.index breakdown "events" ;;
  b_overspeed <- Dict.index breakdown "overspeed" ;;
  b_sign_compliance <- Dict.index breakdown "sign_compliance" ;;
  let final_score := base_score + b_events + b_overspeed + b_sign_compliance in
  let final_score := Py.max 0 (Py.min 100 final_score) in
  let risk_level :=
    first_reached final_score (Py.sorted_desc (Dict.items RISK_THRESHOLDS))
      "high" in
  let grade :=
    first_reached final_score (Py.sorted_desc (Dict.items GRADE_THRESHOLDS))
      "F" in
  recommendations <-
    _generate_recommendations event_counts max_overspeed_kmh distance_km ;;
  Ok {| loc_distance_km := distance_km;
        loc_duration_min := duration_min;
        loc_event_counts := event_counts;
        loc_max_overspeed_kmh := max_overspeed_kmh;
        loc_breakdown := breakdown;
        loc_issues := issues;
        loc_final_score := final_score;
        loc_risk_level := risk_level;
        loc_grade := grade;
        loc_recommendations := recommendations |}.

(** ** [score_trip], lines 190 to 197: the value returned *)

Definition score_trip (trip_data : TripData) (events : list Event)
    (sign_detections : list Detection) : result SafetyScore :=
  loc <- score_trip_locals trip_data events sign_detections ;;
  Ok {| score := Py.round (loc_final_score loc);
        risk_level := loc_risk_level loc;
        grade := loc_grade loc;
        issues := loc_issues loc;
        recommendations := loc_recommendations loc;
        breakdown := Dict.map_values Py.round1 (loc_breakdown loc) |}.

End DriverScorer.

Import DriverScorer.

(** * The loops in closed form

    What each loop of [score_trip] computes, as a function of its input.
    The lemmas below prove that the code computes these. *)

(** The key an event is counted under. *)
Definition event_key (event : Event) : string :=
  match event_type event with Some s => s | None => "unknown" end.

(** [event_counts] after the keys [keys] have been counted into [d]. *)
Definition tally (keys : list string) (d : dict Z) : dict Z :=
  fold_left (fun d k => Dict.set d k (Dict.get d k 0 + 1)%Z) keys d.

(** How far over the assumed limit of 50 km/h an event is. *)
Definition overspeed_amount (event : Event) : Q :=
  Py.max 0 (Py.get_or_0 (speed_m_s event) * 3.6 - 50).

Definition is_overspeed (event : Event) : bool :=
  String.eqb (event_key event) "overspeed".

(** [max_overspeed_kmh] after the events [events], from the value [m]. *)
Definition running_max (events : list Event) (m : Q) : Q :=
  fold_left
    (fun m e => if is_overspeed e then Py.max m (overspeed_amount e) else m)
    events m.

(** The deduction of one entry of [event_counts]. *)
Definition deduction (distance_km : Q) (item : string * Z) : Q :=
  inject_Z (snd item) / distance_km * 100
  * Dict.get EVENT_PENALTIES (fst item) 2.0.

(** [event_deduction] after the entries [counts], from the value [d0]. *)
Definition deductions (distance_km : Q) (counts : dict Z) (d0 : Q) : Q :=
  fold_left (fun acc item => acc + deduction distance_km item) counts d0.

(** The issues of the entries [counts]. *)
Definition count_issues (counts : dict Z) : list string :=
  flat_map
    (fun item => if (0 <? snd item)%Z then issue_of (fst item) (snd item)
                 else [])
    counts.

(** The limit read from a detection, when its class holds [speed_limit_]
    and ends in an integer. *)
Definition limit_of (detection : Detection) : option Z :=
  let sign_class :=
    match sign_class detection with Some s => s | None => "" end in
  if Py.contains "speed_limit_" sign_class then
    match Py.last_item (Py.split "_" sign_class) with
    | Ok token =>
        match Py.int token with Ok limit => Some limit | Raise _ => None end
    | Raise _ => None
    end
  else None.

(** [detected_limits] after the detections. *)
Definition limits_of (sign_detections : list Detection) : list Z :=
  flat_map
    (fun d => match limit_of d with Some n => [n] | None => [] end)
    sign_detections.

(** The distance the counts are normalised by. *)
Definition distance_km_of (trip_data : TripData) : Q :=
  Py.max (Py.get_or_0 (distance_m trip_data) / 1000) 1.0.

(** The three contributions, before they are rounded for the result. *)
Definition events_part (trip_data : TripData) (events : list Event) : Q :=
  - Py.min
      (deductions (distance_km_of trip_data)
         (tally (map event_key events) []) 0.0)
      40.

Definition overspeed_part (events : list Event) : Q :=
  - Py.min (running_max events 0.0 * OVERSPEED_PENALTY_PER_KMH) 20.

Definition sign_part (sign_detections : list Detection) : Q :=
  match limits_of sign_detections with [] => 0.0 | _ => 5.0 end.

(** Clamping into [[0, 100]], as line 171 writes it. *)
Definition clamp (x : Q) : Q := Py.max 0 (Py.min 100 x).

(** The score that the specification derives from a breakdown. *)
Definition score_of_breakdown (b : dict Q) : Z :=
  Py.round
    (clamp (100 + Dict.get b "events" 0 + Dict.get b "overspeed" 0
            + Dict.get b "sign_compliance" 0)).

(** The rules of the recommendations, as the specification words them. *)

Definition rate (count : Z) (distance_km : Q) : Q :=
  inject_Z count / distance_km * 100.

Definition rule_hard_brake (counts : dict Z) (distance_km : Q) : option string :=
  let r := rate (Dict.get counts "hard_brake" 0%Z) distance_km in
  if Qlt_bool 5 r then Some MSG_FOLLOWING_DISTANCE
  else if Qlt_bool 2 r then Some MSG_LOOK_AHEAD
  else None.

Definition rule_harsh_accel (counts : dict Z) (distance_km : Q) : option string :=
  if Qlt_bool 3 (rate (Dict.get counts "harsh_accel" 0%Z) distance_km)
  then Some MSG_SMOOTH_ACCELERATION else None.

Definition rule_overspeed (counts : dict Z) (max_overspeed_kmh : Q) : option string :=
  if (0 <? Dict.get counts "overspeed" 0)%Z || Qlt_bool 5 max_overspeed_kmh then
    if Qlt_bool 20 max_overspeed_kmh then Some MSG_DANGEROUS_SPEED
    else Some MSG_WATCH_SPEED
  else None.

Definition rule_unsafe_curve (counts : dict Z) : option string :=
  if (0 <? Dict.get counts "unsafe_curve" 0)%Z then Some MSG_SLOW_BEFORE_CURVES
  else None.

Definition message (rule : option string) : list string :=
  match rule with Some m => [m] | None => [] end.

(** The messages generated, in the order of the rules. *)
Definition generated (counts : dict Z) (max_overspeed_kmh distance_km : Q)
    : list string :=
  (message (rule_hard_brake counts distance_km)
   ++ message (rule_harsh_accel counts distance_km)
   ++ message (rule_overspeed counts max_overspeed_kmh)
   ++ message (rule_unsafe_curve counts))%list.

Definition recommendations_spec (counts : dict Z)
    (max_overspeed_kmh distance_km : Q) : list string :=
  match generated counts max_overspeed_kmh distance_km with
  | [] => [MSG_EXCELLENT]
  | messages => firstn 3 messages
  end.

(** The local variables of [score_trip] as functions of its input. *)
Definition locals_of (trip_data : TripData) (events : list Event)
    (sign_detections : list Detection) : Locals :=
  let distance_km := distance_km_of trip_data in
  let event_counts := tally (map event_key events) [] in
  let max_overspeed_kmh := running_max events 0.0 in
  let breakdown : dict Q :=
    [("base", 100.0); ("events", events_part trip_data events);
     ("overspeed", overspeed_part events);
     ("sign_compliance", sign_part sign_detections)] in
  let final_score :=
    clamp (100.0 + events_part trip_data events + overspeed_part events
           + sign_part sign_detections) in
  {| loc_distance_km := distance_km;
     loc_duration_min :=
       Py.max (Py.get_or_0 (duration_seconds trip_data) / 60) 1.0;
     loc_event_counts := event_counts;
     loc_max_overspeed_kmh := max_overspeed_kmh;
     loc_breakdown := breakdown;
     loc_issues :=
       (count_issues event_counts
        ++ (if Qlt_bool 10 max_overspeed_kmh then
              [("Max speed exceeded limit by "
                ++ Py.format_0f max_overspeed_kmh ++ " km/h")%string]
            else []))%list;
     loc_final_score := final_score;
     loc_risk_level :=
       first_reached final_score (Py.sorted_desc (Dict.items RISK_THRESHOLDS))
         "high";
     loc_grade :=
       first_reached final_score (Py.sorted_desc (Dict.items GRADE_THRESHOLDS))
         "F";
     loc_recommendations :=
       recommendations_spec event_counts max_overspeed_kmh distance_km |}.

(** The value [score_trip] returns, from its local variables. *)
Definition result_of (loc : Locals) : SafetyScore :=
  {| score := Py.round (loc_final_score loc);
     risk_level := loc_risk_level loc;
     grade := loc_grade loc;
     issues := loc_issues loc;
     recommendations := loc_recommendations loc;
     breakdown := Dict.map_values Py.round1 (loc_breakdown loc) |}.

(** The events deduction as a sum over the events, one term each. *)
Definition unit_deductions (distance_km : Q) (keys : list string) : Q :=
  fold_right (fun k acc => deduction distance_km (k, 1%Z) + acc) 0 keys.

(** How many times a key occurs, as the Python [int] it is counted in. *)
Definition occurrences (keys : list string) (k : string) : Z :=
  Z.of_nat (count_occ string_dec keys k).

(** The greatest overspeed amount of the overspeed events, and 0 when
    there is none: the specification's reading of [max_overspeed_kmh]. *)
Definition max_overspeed_spec (events : list Event) : Q :=
  fold_right Qmax 0
    (map
       (fun e =>
          Qmax 0
            (match speed_m_s e with Val v => v | _ => 0 end * 3.6 - 50))
       (filter (fun e => String.eqb (event_key e) "overspeed") events)).

(** [final_score] after line 171. *)
Definition final_score_of (trip_data : TripData) (events : list Event)
    (sign_detections : list Detection) : Q :=
  clamp (100.0 + events_part trip_data events + overspeed_part events
         + sign_part sign_detections).

(** A sign class that the scorer reads a speed limit from. *)
Definition speed_limit_class (detection : Detection) : bool :=
  match limit_of detection with Some _ => true | None => false end.

(** A sign class that holds [speed_limit_] and whose last token [int]
    rejects. *)
Definition malformed_limit (detection : Detection) : bool :=
  let sign_class :=
    match sign_class detection with Some s => s | None => "" end in
  Py.contains "speed_limit_" sign_class
  && match Py.last_item (Py.split "_" sign_class) with
     | Ok token =>
         match Py.int token with Raise ValueError => true | _ => false end
     | Raise _ => false
     end.

(** An absent or [None] number, written out as 0. *)
Definition or_zero (f : field Q) : field Q :=
  match f with Val v => Val v | _ => Val 0 end.

Definition zero_filled_trip (trip_data : TripData) : TripData :=
  {| distance_m := or_zero (distance_m trip_data);
     duration_seconds := or_zero (duration_seconds trip_data) |}.

Definition zero_filled_event (event : Event) : Event :=
  {| event_type := event_type event;
     speed_m_s := or_zero (speed_m_s event) |}.

(** An event type that [EVENT_PENALTIES] has no entry for. *)
Definition unrecognized (event_type : string) : bool :=
  match Dict.lookup EVENT_PENALTIES event_type with
  | Some _ => false
  | None => true
  end.

(** * The scorer on [int] and [float]

    Above, a number of the input is the rational that it is.  Python has
    two kinds of numbers and turns an [int] into a float where it meets
    one: in [x / 1000] and [x / 60] (lines 90 and 91, where two [int]s are
    divided into a float) and in [speed_ms * 3.6] (line 114).  For an
    [int] that is too large for binary64 this raises [OverflowError], and
    nothing catches it.  The operations on floats raise nothing: beyond
    binary64 they give [inf], which is outside the model.  Below, the
    scorer with its inputs as Python has them: it raises where one of the
    three conversions does, and is [score_trip] on the values of the
    numbers where none does. *)

Inductive number : Type :=
| Int (n : Z)
| Float (x : Q).

Definition value_of (x : number) : Q :=
  match x with
  | Int n => inject_Z n
  | Float x => x
  end.

(** The least magnitude that is rounded to no binary64 number:
    [2^1024 - 2^970], half a unit in the last place above the greatest
    one. *)
Definition FLOAT_OVERFLOW : Q := inject_Z (2 ^ 1024 - 2 ^ 970).

Definition too_large (x : Q) : bool := Qle_bool FLOAT_OVERFLOW (Qabs x).

(** [x / d] for an [int] literal [d]. *)
Definition true_div (x : number) (d : Z) : result Q :=
  match x with
  | Int n =>
      if too_large (inject_Z n / inject_Z d) then Raise OverflowError
      else Ok (inject_Z n / inject_Z d)
  | Float x => Ok (x / inject_Z d)
  end.

(** [x * y] for a float [y]. *)
Definition times_float (x : number) (y : Q) : result Q :=
  match x with
  | Int n =>
      if too_large (inject_Z n) then Raise OverflowError
      else Ok (inject_Z n * y)
  | Float x => Ok (x * y)
  end.

Module Numbers.

(** [trip_data] and an event, with the keys that [score_trip] reads. *)
Record TripDict : Type := {
  distance_m : field number;
  duration_seconds : field number
}.

Record EventDict : Type := {
  event_type : option string;
  speed_m_s : field number
}.

(** [d.get(k) or 0] *)
Definition get_or_0 (f : field number) : number :=
  match f with
  | Val x => if Qeq_bool (value_of x) 0 then Int 0 else x
  | _ => Int 0
  end.

Definition event_key (event : EventDict) : string :=
  match event_type event with Some s => s | None => "unknown" end.

(** Lines 112 to 114 for one event. *)
Definition convert_speed (done : unit) (event : EventDict) : result unit :=
  if String.eqb (event_key event) "overspeed" then
    speed_kmh <- times_float (get_or_0 (speed_m_s event)) 3.6 ;;
    Ok tt
  else Ok tt.

Definition values (f : field number) : field Q :=
  match f with
  | Absent => Absent
  | Null => Null
  | Val x => Val (value_of x)
  end.

Definition trip_values (trip_data : TripDict) : TripData :=
  Build_TripData (values (distance_m trip_data))
    (values (duration_seconds trip_data)).

Definition event_values (event : EventDict) : Event :=
  Build_Event (event_type event) (values (speed_m_s event)).

Definition score_trip (trip_data : TripDict) (events : list EventDict)
    (sign_detections : list Detection) : result SafetyScore :=
  distance <- true_div (get_or_0 (distance_m trip_data)) 1000 ;;
  duration <- true_div (get_or_0 (duration_seconds trip_data)) 60 ;;
  converted <- foldM convert_speed events tt ;;
  DriverScorer.score_trip (trip_values trip_data) (map event_values events)
    sign_detections.

(** No [int] of the input is too large where it is converted. *)
Definition quotient_fits (x : number) (d : Z) : bool :=
  match x with
  | Int n => negb (too_large (inject_Z n / inject_Z d))
  | Float _ => true
  end.

Definition speed_fits (event : EventDict) : bool :=
  if String.eqb (event_key event) "overspeed" then
    match get_or_0 (speed_m_s event) with
    | Int n => negb (too_large (inject_Z n))
    | Float _ => true
    end
  else true.

Definition in_float_range (trip_data : TripDict) (events : list EventDict) : bool :=
  quotient_fits (get_or_0 (distance_m trip_data)) 1000
  && quotient_fits (get_or_0 (duration_seconds trip_data)) 60
  && forallb speed_fits events.

(** An absent or [None] number, written out as 0. *)
Definition or_zero (f : field number) : field number :=
  match f with Val v => Val v | _ => Val (Int 0) end.

Definition zero_filled_trip (trip_data : TripDict) : TripDict :=
  {| distance_m := or_zero (distance_m trip_data);
     duration_seconds := or_zero (duration_seconds trip_data) |}.

Definition zero_filled_event (event : EventDict) : EventDict :=
  {| event_type := event_type event;
     speed_m_s := or_zero (speed_m_s event) |}.

End Numbers.

(** The text of the positive reinforcement message after its emoji. *)
Definition EXCELLENT_TEXT : string :=
  " Excellent driving! Keep up the safe habits. Your smooth driving style is both safe and fuel-efficient.".

(** The emoji that the message is meant to start with, U+1F31F. *)
Definition GLOWING_STAR : string :=
  string_of_list_ascii (map ascii_of_nat [240; 159; 140; 159]%nat).

(** * Inputs of the scenarios *)

(** An event dict that has only its [event_type]. *)
Definition event (type : string) : Event :=
  {| event_type := Some type; speed_m_s := Absent |}.

(** An overspeed event at a speed in m/s. *)
Definition overspeed_at (speed : Q) : Event :=
  {| event_type := Some "overspeed"; speed_m_s := Val speed |}.

Definition detection (class : string) (conf : Q) : Detection :=
  {| sign_class := Some class; confidence := Val conf |}.

(** [{"distance_m": m}] *)
Definition trip_of_distance (m : Q) : TripData :=
  {| distance_m := Val m; duration_seconds := Absent |}.

(** * The events deduction in binary64

    Python's [float] is IEEE 754 binary64.  To delimit what the rational
    model above leaves out, the lines of [score_trip] that lead from the
    event counts to the grade are embedded a second time, over the
    Standard Library's specification of binary64 arithmetic (rounding to
    nearest, ties to even), for a trip without overspeed event and
    without detection. *)

Module Binary64.

Definition prec : Z := 53.
Definition emax : Z := 1024.

(** The float nearest to [m * 2 ^ e]. *)
Definition of_scaled (m e : Z) : spec_float := binary_normalize prec emax m e false.

(** [float(n)] *)
Definition of_int (n : Z) : spec_float := of_scaled n 0.

Definition add : spec_float -> spec_float -> spec_float := SFadd prec emax.
Definition mul : spec_float -> spec_float -> spec_float := SFmul prec emax.
Definition div : spec_float -> spec_float -> spec_float := SFdiv prec emax.
Definition neg : spec_float -> spec_float := SFopp.
Definition lt : spec_float -> spec_float -> bool := SFltb.
Definition le : spec_float -> spec_float -> bool := SFleb.

(** [max(a, b)] and [min(a, b)] *)
Definition max (a b : spec_float) : spec_float := if lt a b then b else a.
Definition min (a b : spec_float) : spec_float := if lt b a then b else a.

(** The float that a decimal literal of the source denotes. *)
Definition of_literal (q : Q) : spec_float :=
  div (of_int (Qnum q)) (of_int (Zpos (Qden q))).

(** [EVENT_PENALTIES.get(event_type, 2.0)] *)
Definition penalty (event_type : string) : spec_float :=
  of_literal (Dict.get EVENT_PENALTIES event_type 2.0).

(** Lines 120 to 126. *)
Definition event_deduction (distance_km : spec_float) (event_counts : dict Z)
    : spec_float :=
  fold_left
    (fun event_deduction item =>
       let normalized_count :=
         mul (div (of_int (snd item)) distance_km) (of_int 100) in
       let deduction := mul normalized_count (penalty (fst item)) in
       add event_deduction deduction)
    (Dict.items event_counts) (of_int 0).

(** Lines 90, 139, 170 and 171: the final score of a trip with the given
    events, none of them an overspeed, and no detection. *)
Definition final_score (distance_m : spec_float) (events : list Event)
    : spec_float :=
  let distance_km := max (div distance_m (of_int 1000)) (of_int 1) in
  let event_counts := tally (map event_key events) [] in
  let b_events := neg (min (event_deduction distance_km event_counts) (of_int 40)) in
  let b_overspeed := neg (of_int 0) in
  let b_sign_compliance := of_int 0 in
  let final_score :=
    add (add (add (of_int 100) b_events) b_overspeed) b_sign_compliance in
  max (of_int 0) (min (of_int 100) final_score).

(** Lines 181 to 185. *)
Fixpoint first_reached (final_score : spec_float) (levels : list (string * Z))
    (default : string) : string :=
  match levels with
  | [] => default
  | (level, threshold) :: rest =>
      if le (of_int threshold) final_score then level
      else first_reached final_score rest default
  end.

Definition grade (distance_m : spec_float) (events : list Event) : string :=
  first_reached (final_score distance_m events)
    (Py.sorted_desc (Dict.items GRADE_THRESHOLDS)) "F".

End Binary64.

(** The float 334999.9999999997, that is 0x1.4725ffffffffbp+18. *)
Definition distance_335km_less : spec_float :=
  Binary64.of_scaled 5755256176639995 (-34).

Definition events_curves_first : list Event :=
  (repeat (event "unsafe_curve") 5 ++ repeat (event "harsh_accel") 2
   ++ repeat (event "swerve") 6)%list.

Definition events_swerves_second : list Event :=
  (repeat (event "unsafe_curve") 5 ++ repeat (event "swerve") 6
   ++ repeat (event "harsh_accel") 2)%list.

(** * The sign classes of [ml/sign_classes.py] *)

Module SignClasses.

(** The 43 classes of the GTSRB data set, by class id. *)
Definition GTSRB_CLASSES : list (Z * string) :=
  [
   (0, "speed_limit_20"); (1, "speed_limit_30"); (2, "speed_limit_50");
   (3, "speed_limit_60"); (4, "speed_limit_70"); (5, "speed_limit_80");
   (6, "end_speed_limit_80"); (7, "speed_limit_100");
   (8, "speed_limit_120"); (9, "no_passing");
   (10, "no_passing_vehicles_over_3.5t");
   (11, "right_of_way_next_intersection"); (12, "priority_road");
   (13, "yield"); (14, "stop"); (15, "no_vehicles");
   (16, "vehicles_over_3.5t_prohibited"); (17, "no_entry");
   (18, "general_caution"); (19, "dangerous_curve_left");
   (20, "dangerous_curve_right"); (21, "double_curve"); (22, "bumpy_road");
   (23, "slippery_road"); (24, "road_narrows_right"); (25, "road_work");
   (26, "traffic_signals"); (27, "pedestrians"); (28, "children_crossing");
   (29, "bicycles_crossing"); (30, "beware_ice_snow");
   (31, "wild_animals_crossing"); (32, "end_all_limits");
   (33, "turn_right_ahead"); (34, "turn_left_ahead"); (35, "ahead_only");
   (36, "go_straight_or_right"); (37, "go_straight_or_left");
   (38, "keep_right"); (39, "keep_left"); (40, "roundabout_mandatory");
   (41, "end_no_passing"); (42, "end_no_passing_vehicles_over_3.5t")
  ]%Z.

(** The speed limit classes and their limit in km/h, [None] where a limit
    ends. *)
Definition SPEED_LIMIT_CLASSES : list (Z * option Z) :=
  [
   (0, Some 20); (1, Some 30); (2, Some 50); (3, Some 60); (4, Some 70);
   (5, Some 80); (6, None); (7, Some 100); (8, Some 120); (32, None)
  ]%Z.

(** [class_id in SPEED_LIMIT_CLASSES] *)
Definition is_speed_limit_sign (class_id : Z) : bool :=
  existsb (fun entry => (fst entry =? class_id)%Z) SPEED_LIMIT_CLASSES.

End SignClasses.

(** * The rest of [ml/sign_classes.py] *)

(** A dict with [int] keys, in insertion order. *)
Fixpoint lookup_int {V : Type} (d : list (Z * V)) (k : Z) : option V :=
  match d with
  | [] => None
  | (k', v) :: rest => if (k' =? k)%Z then Some v else lookup_int rest k
  end.

Module SignClassesMore.

Import SignClasses.

(** Warning signs that should trigger alerts. *)
Definition WARNING_CLASSES : list (Z * string) :=
  [
   (13, "yield"); (14, "stop"); (17, "no_entry"); (18, "general_caution");
   (19, "dangerous_curve_left"); (20, "dangerous_curve_right");
   (21, "double_curve"); (22, "bumpy_road"); (23, "slippery_road");
   (25, "road_work"); (26, "traffic_signals"); (27, "pedestrians");
   (28, "children_crossing"); (29, "bicycles_crossing");
   (30, "beware_ice_snow"); (31, "wild_animals_crossing")
  ]%Z.

(** [SPEED_LIMIT_CLASSES.get(class_id)]: [None] for a class that is not
    listed and for one that is listed with [None]. *)
Definition get_speed_limit_value (class_id : Z) : option Z :=
  match lookup_int SPEED_LIMIT_CLASSES class_id with
  | Some limit => limit
  | None => None
  end.

(** [GTSRB_CLASSES.get(class_id, f"unknown_{class_id}")] *)
Definition get_class_name (class_id : Z) : string :=
  match lookup_int GTSRB_CLASSES class_id with
  | Some name => name
  | None => "unknown_" ++ Py.str class_id
  end.

(** [class_id in WARNING_CLASSES] *)
Definition is_warning_sign (class_id : Z) : bool :=
  match lookup_int WARNING_CLASSES class_id with
  | Some _ => true
  | None => false
  end.

End SignClassesMore.

(** * Responses and failures of the HTTP handlers *)

(** What ends a handler without a response of its own: an [HTTPException]
    that it raises, a validation error of a request or response model,
    the answer 422 of FastAPI to a request whose parameters it cannot
    read ([RequestValidationError], with the parameters that failed), an
    error of the query result or of the database ([DBAPIError] stands for
    the errors of the database that have no constructor of their own), an
    exception of the scorer. *)
Inductive failure : Type :=
| HTTPException (status_code : Z) (detail : string)
| ValidationError (field_name : string)
| RequestValidationError (fields : list string)
| MultipleResultsFound
| NoResultFound
| IntegrityError
| DBAPIError
| Uncaught (e : exn).

Inductive outcome (A : Type) : Type :=
| Return (a : A)
| Fail (f : failure).

Arguments Return {A} a.
Arguments Fail {A} f.

Definition and_then {A B : Type} (m : outcome A) (k : A -> outcome B) : outcome B :=
  match m with
  | Return a => k a
  | Fail f => Fail f
  end.

Fixpoint for_each {A B : Type} (f : A -> outcome B) (l : list A) : outcome (list B) :=
  match l with
  | [] => Return []
  | x :: rest =>
      and_then (f x) (fun y =>
      and_then (for_each f rest) (fun ys => Return (y :: ys)))
  end.

(** An exception of the scorer that no handler catches. *)
Definition uncaught {A : Type} (m : result A) : outcome A :=
  match m with
  | Ok a => Return a
  | Raise e => Fail (Uncaught e)
  end.

(** * [routers/detection.py]: the sign classes *)

Module SignClassApi.

Import SignClasses SignClassesMore.

(** [schemas.detection.SignClassInfo]; [class_id] is validated to lie
    between 0 and 42. *)
Record SignClassInfo : Type := {
  class_id : Z;
  name : string;
  category : string;
  speed_limit_kmh : option Z
}.

Definition new_SignClassInfo (class_id : Z) (name category : string)
    (speed_limit_kmh : option Z) : outcome SignClassInfo :=
  if ((0 <=? class_id) && (class_id <=? 42))%Z then
    Return {| class_id := class_id; name := name; category := category;
              speed_limit_kmh := speed_limit_kmh |}
  else Fail (ValidationError "class_id").

(** The category of a class, as both handlers determine it (lines 41 to
    48 and 68 to 75). *)
Definition category_of (class_id : Z) : string :=
  if is_speed_limit_sign class_id then "speed_limit"
  else if is_warning_sign class_id then "warning"
  else if existsb (Z.eqb class_id) [9; 10; 15; 16; 17]%Z then "regulatory"
  else "informational".

(** [GET /detection/classes] *)
Definition list_sign_classes : outcome (list SignClassInfo) :=
  for_each
    (fun item =>
       let '(class_id, name) := item in
       new_SignClassInfo class_id name (category_of class_id)
         (get_speed_limit_value class_id))
    GTSRB_CLASSES.

(** [GET /detection/classes/{class_id}] *)
Definition get_sign_class (class_id : Z) : outcome SignClassInfo :=
  match lookup_int GTSRB_CLASSES class_id with
  | None =>
      Fail (HTTPException 404 ("Class " ++ Py.str class_id ++ " not found"))
  | Some _ =>
      let name := get_class_name class_id in
      new_SignClassInfo class_id name (category_of class_id)
        (get_speed_limit_value class_id)
  end.

(** An entry of [GET /detection/speed-limits]. *)
Record SpeedLimitEntry : Type := {
  entry_name : string;
  speed_kmh : Z
}.

(** [GET /detection/speed-limits]: the classes listed with a limit. *)
Definition get_speed_limit_classes : list (Z * SpeedLimitEntry) :=
  flat_map
    (fun item =>
       match snd item with
       | Some speed =>
           [(fst item,
             {| entry_name := get_class_name (fst item); speed_kmh := speed |})]
       | None => []
       end)
    SPEED_LIMIT_CLASSES.

End SignClassApi.

(** A decimal digit or a minus sign. *)
Definition decimal_char (c : ascii) : bool :=
  existsb (Ascii.eqb c) (list_ascii_of_string "-0123456789").

(** * binary32

    The rounding of a number to the nearest binary32 number, ties to the
    even one; [None] where the magnitude is beyond the format, which
    gives an infinity. *)

Module Binary32.

(** [floor(log2 x)] for a positive [x]. *)
Definition floor_log2 (x : Q) : Z :=
  let k := (Z.log2 (Qnum x) - Z.log2 (Z.pos (Qden x)))%Z in
  if Qle_bool (Qpower 2 k) x then k else (k - 1)%Z.

(** The exponent of the unit in the last place of [x]: 24 bits of
    precision, and no unit below [2^-149]. *)
Definition ulp_exponent (x : Q) : Z := Z.max (floor_log2 x - 23) (-149).

Definition round_positive (x : Q) : option Q :=
  let e := ulp_exponent x in
  let nearest := inject_Z (Py.round (x / Qpower 2 e)) * Qpower 2 e in
  if Qle_bool (Qpower 2 128) nearest then None else Some nearest.

Definition round (x : Q) : option Q :=
  if Qeq_bool x 0 then Some 0
  else if Qlt_bool x 0 then option_map Qopp (round_positive (- x))
  else round_positive x.

End Binary32.

(** * [ml/detector.py] *)

Module Detector.

Import SignClasses SignClassesMore.

(** A [tf.lite.Interpreter], known by the model file it was made from. *)
Record Interpreter : Type := {
  interpreter_model_path : string
}.

(** What the detector asks of its surroundings: the file system, the
    TensorFlow installation and the model.  [None] and [false] stand for
    an exception of the call. *)
Record World : Type := {
  (** directory of [detector.py] *)
  module_dir : string;
  (** [os.path.exists] *)
  os_path_exists : string -> bool;
  (** [import tensorflow as tf] succeeds *)
  import_tensorflow : bool;
  (** [tf.lite.Interpreter(model_path=...)] *)
  tf_lite_Interpreter : string -> option Interpreter;
  (** [interpreter.allocate_tensors()] *)
  allocate_tensors : Interpreter -> bool;
  (** [open(path, 'r')] and [f.readlines()] *)
  readlines : string -> option (list string);
  (** lines 97 to 116 of [detect]: the image is decoded and resized, the
      model is invoked and the first row of its output is read; the
      values of the row, which are binary32 numbers, are given as the
      numbers they are *)
  first_output_row : Interpreter -> list Byte.byte -> option (list Q);
  (** NumPy 2 or later: a Python float that meets a binary32 number is
      rounded to binary32; before, the two meet as binary64 numbers *)
  weak_scalars : bool
}.

Definition MODEL_DIR (w : World) : string := module_dir w ++ "/models".
Definition TFLITE_MODEL_PATH (w : World) : string :=
  MODEL_DIR w ++ "/traffic_signs.tflite".
Definition LABELS_PATH (w : World) : string := MODEL_DIR w ++ "/labels.txt".

Definition DEFAULT_CONFIDENCE_THRESHOLD : Q := 0.5.

Record SignDetector : Type := {
  model_path : string;
  interpreter : option Interpreter;
  labels : list string;
  _loaded : bool
}.

(** [SignDetector(model_path)]; [model_path or str(TFLITE_MODEL_PATH)]
    takes the default for [None] and for the empty string. *)
Definition __init__ (w : World) (model_path : option string) : SignDetector :=
  {| model_path :=
       match model_path with
       | Some (String c rest) => String c rest
       | _ => TFLITE_MODEL_PATH w
       end;
     interpreter := None;
     labels := [];
     _loaded := false |}.

(** [line.strip()] *)
Definition strip_line (line : string) : string :=
  string_of_list_ascii (Py.strip (list_ascii_of_string line)).

(** [load]: the answer and the detector after the call.  An exception
    inside the [try] leaves what was assigned before it. *)
Definition load (w : World) (self : SignDetector) : bool * SignDetector :=
  if _loaded self then (true, self)
  else if negb (os_path_exists w (model_path self)) then (false, self)
  else if negb (import_tensorflow w) then (false, self)
  else
    match tf_lite_Interpreter w (model_path self) with
    | None => (false, self)
    | Some made =>
        let self :=
          {| model_path := model_path self; interpreter := Some made;
             labels := labels self; _loaded := _loaded self |} in
        if negb (allocate_tensors w made) then (false, self)
        else if os_path_exists w (LABELS_PATH w) then
          match readlines w (LABELS_PATH w) with
          | None => (false, self)
          | Some lines =>
              (true,
               {| model_path := model_path self;
                  interpreter := interpreter self;
                  labels := map strip_line lines; _loaded := true |})
          end
        else
          (true,
           {| model_path := model_path self; interpreter := interpreter self;
              labels := labels self; _loaded := true |})
    end.

(** A dict of [detect]. *)
Record RawDetection : Type := {
  class_id : Z;
  class_name : string;
  confidence : Q
}.

Fixpoint enumerate {A : Type} (start : nat) (l : list A) : list (nat * A) :=
  match l with
  | [] => []
  | x :: rest => (start, x) :: enumerate (S start) rest
  end.

(** [confidence >= confidence_threshold] for a binary32 [confidence] of
    the output and the Python float [confidence_threshold].  With NumPy 2
    the threshold is rounded to binary32 first, where a threshold beyond
    the format is an infinity: minus infinity is reached by every number,
    infinity by none.  Before NumPy 2 the two numbers are compared as
    they are. *)
Definition reaches (w : World) (confidence confidence_threshold : Q) : bool :=
  if weak_scalars w then
    match Binary32.round confidence_threshold with
    | Some rounded => Qle_bool rounded confidence
    | None => Qlt_bool confidence_threshold 0
    end
  else Qle_bool confidence_threshold confidence.

(** [self.labels[class_id] if class_id < len(self.labels) else
    f"class_{class_id}"] *)
Definition label (labels : list string) (class_id : nat) : string :=
  if (class_id <? List.length labels)%nat then nth class_id labels ""
  else "class_" ++ Py.str (Z.of_nat class_id).

(** The loop of lines 119 to 126. *)
Definition process (w : World) (labels : list string)
    (confidence_threshold : Q) (output : list Q) : list RawDetection :=
  flat_map
    (fun item =>
       let '(class_id, confidence) := item in
       if reaches w confidence confidence_threshold then
         [{| class_id := Z.of_nat class_id;
             class_name := label labels class_id;
             confidence := confidence |}]
       else [])
    (enumerate 0 output).

(** [detections.sort(key=lambda x: x["confidence"], reverse=True)]: stable,
    the greatest confidence first. *)
Fixpoint insert_desc (x : RawDetection) (l : list RawDetection) : list RawDetection :=
  match l with
  | [] => [x]
  | y :: rest =>
      if Qle_bool (confidence y) (confidence x) then x :: l
      else y :: insert_desc x rest
  end.

Definition sort_desc (l : list RawDetection) : list RawDetection :=
  fold_right insert_desc [] l.

(** [detect]: the detections and the detector after the call. *)
Definition detect (w : World) (self : SignDetector) (image_bytes : list Byte.byte)
    (confidence_threshold : Q) : list RawDetection * SignDetector :=
  let '(ready, self) := if _loaded self then (true, self) else load w self in
  if negb ready then ([], self)
  else
    match interpreter self with
    | None => ([], self)
    | Some loaded =>
        match first_output_row w loaded image_bytes with
        | None => ([], self)
        | Some output =>
            (sort_desc (process w (labels self) confidence_threshold output),
             self)
        end
    end.

Definition is_available (w : World) (self : SignDetector) : bool :=
  _loaded self || os_path_exists w (model_path self).

(** [get_detector]: the detector and the module's [_detector] after the
    call, which is that same detector. *)
Definition get_detector (w : World) (_detector : option SignDetector)
    : SignDetector * option SignDetector :=
  match _detector with
  | None => let made := __init__ w None in (made, Some made)
  | Some made => (made, Some made)
  end.

End Detector.

(** * [routers/detection.py]: detection in an image *)

Module DetectApi.

Import SignClasses SignClassesMore.

(** [schemas.detection.DetectionResult]; [confidence] is validated to lie
    between 0 and 1. *)
Record DetectionResult : Type := {
  class_id : Z;
  class_name : string;
  confidence : Q;
  bbox : option (list Q)
}.

Definition new_DetectionResult (class_id : Z) (class_name : string)
    (confidence : Q) (bbox : option (list Q)) : outcome DetectionResult :=
  if Qle_bool 0 confidence && Qle_bool confidence 1 then
    Return {| class_id := class_id; class_name := class_name;
              confidence := confidence; bbox := bbox |}
  else Fail (ValidationError "confidence").

Record DetectionResponse : Type := {
  detections : list DetectionResult;
  speed_limit : option Z;
  processing_time_ms : Q
}.

(** The loop of lines 156 to 161. *)
Fixpoint find_speed_limit (detections : list DetectionResult) : option Z :=
  match detections with
  | [] => None
  | d :: rest =>
      match get_speed_limit_value (class_id d) with
      | Some limit => Some limit
      | None => find_speed_limit rest
      end
  end.

(** [not image.content_type or not
    image.content_type.startswith("image/")] *)
Definition not_an_image (content_type : option string) : bool :=
  match content_type with
  | None => true
  | Some "" => true
  | Some type => negb (prefix "image/" type)
  end.

(** [Query(0.5, ge=0.0, le=1.0)]: the query parameter, before the handler
    runs. *)
Definition query_confidence_threshold (given : option Q) : outcome Q :=
  match given with
  | None => Return 0.5
  | Some value =>
      if Qle_bool 0 value && Qle_bool value 1 then Return value
      else Fail (ValidationError "confidence_threshold")
  end.

(** [POST /detection/detect]: the response and the module's [_detector]
    after the call.  [start_time] and [end_time] are the two readings of
    [time.time()]. *)
Definition detect_signs (w : Detector.World)
    (_detector : option Detector.SignDetector)
    (content_type : option string) (image_bytes : list Byte.byte)
    (confidence_threshold : option Q) (start_time end_time : Q)
    : outcome DetectionResponse * option Detector.SignDetector :=
  match query_confidence_threshold confidence_threshold with
  | Fail f => (Fail f, _detector)
  | Return confidence_threshold =>
      if not_an_image content_type then
        (Fail (HTTPException 400 "File must be an image"), _detector)
      else
        let '(detector, _detector) := Detector.get_detector w _detector in
        if negb (Detector.is_available w detector) then
          (Fail (HTTPException 503 "Sign detection model not available"),
           _detector)
        else
          let '(raw_detections, detector) :=
            Detector.detect w detector image_bytes confidence_threshold in
          let made :=
            and_then
              (for_each
                 (fun d =>
                    new_DetectionResult (Detector.class_id d)
                      (Detector.class_name d) (Detector.confidence d) None)
                 raw_detections)
              (fun detections =>
                 Return {| detections := detections;
                           speed_limit := find_speed_limit detections;
                           processing_time_ms :=
                             (end_time - start_time) * 1000 |}) in
          (made, Some detector)
  end.





(** [schemas.detection.ModelInfo] *)
Record ModelInfo : Type := {
  name : string;
  version : string;
  input_size : list Z;
  num_classes : Z;
  available : bool
}.

(** [GET /detection/model/info] *)
Definition get_model_info (w : Detector.World)
    (_detector : option Detector.SignDetector)
    : ModelInfo * option Detector.SignDetector :=
  let '(detector, _detector) := Detector.get_detector w _detector in
  ({| name := "GTSRB Traffic Sign Classifier"; version := "1.0.0";
      input_size := [224; 224; 3]%Z; num_classes := 43;
      available := Detector.is_available w detector |}, _detector).

End DetectApi.

(** The detector holds an interpreter once it is loaded. *)
Definition holds_interpreter (self : Detector.SignDetector) : Prop :=
  Detector._loaded self = true -> Detector.interpreter self <> None.

(** The order of the detections: the greater confidence first, and of two
    equal confidences the lower class first. *)
Definition ranks_before (a b : Detector.RawDetection) : Prop :=
  Detector.confidence b < Detector.confidence a
  \/ (Detector.confidence a == Detector.confidence b
      /\ (Detector.class_id a < Detector.class_id b)%Z).

(** A world for the scenarios: the model file is there, TensorFlow is
    installed or not, there is no file of labels, the model gives the
    same output row for every image, and NumPy is NumPy 2. *)
Definition world_of (tensorflow : bool) (row : list Q) : Detector.World :=
  {| Detector.module_dir := "/app/ml";
     Detector.os_path_exists :=
       fun path => String.eqb path "/app/ml/models/traffic_signs.tflite";
     Detector.import_tensorflow := tensorflow;
     Detector.tf_lite_Interpreter :=
       fun path => Some {| Detector.interpreter_model_path := path |};
     Detector.allocate_tensors := fun _ => true;
     Detector.readlines := fun _ => None;
     Detector.first_output_row := fun _ _ => Some row;
     Detector.weak_scalars := true |}.

(** * [models/trip.py]: the tables *)

(** A point in time. *)
Definition datetime : Type := Z.

(** A row of [trips]. *)
Module Trip.

Record row : Type := {
  id : Z;
  user_id : Z;
  start_time : option datetime;
  end_time : option datetime;
  duration_seconds : option Z;
  distance_m : option Q;
  avg_speed_m_s : option Q;
  max_speed_m_s : option Q;
  unsafe_events : option Z;
  created_at : datetime
}.

End Trip.

(** A row of [trip_events]. *)
Module TripEvent.

Record row : Type := {
  id : Z;
  trip_id : Z;
  event_type : string;
  timestamp : option datetime;
  lat : option Q;
  lon : option Q;
  speed_m_s : option Q;
  accel_m_s2 : option Q
}.

End TripEvent.

(** A row of [sign_detections]. *)
Module SignDetection.

Record row : Type := {
  id : Z;
  trip_id : Z;
  ts : option datetime;
  sign_class : string;
  confidence : option Q;
  bbox : option (dict Q)
}.

End SignDetection.

(** The three tables, each in the order in which its rows are read. *)
Module Db.

Record Database : Type := {
  trips : list Trip.row;
  trip_events : list TripEvent.row;
  sign_detections : list SignDetection.row
}.

(** [Integer], the [integer] of PostgreSQL ([config.py], line 9): a number
    of 32 bits. *)
Definition Integer (n : Z) : bool := ((- 2 ^ 31 <=? n) && (n <? 2 ^ 31))%Z.

Definition nullable_Integer (n : option Z) : bool :=
  match n with
  | Some n => Integer n
  | None => true
  end.

(** [String(n)], a [character varying(n)]: what the column stores of a
    text, [None] when it refuses it.  A text of at most [n] characters is
    stored as it is.  Of a longer one the first [n] characters are stored
    when all the others are spaces, and it is refused otherwise.  A text
    with the character NUL is refused. *)
Definition varchar (n : nat) (text : string) : option string :=
  match Py.code_points (list_ascii_of_string text) with
  | Some characters =>
      let excess := skipn n characters in
      if existsb (Z.eqb 0) characters then None
      else if forallb (Z.eqb 32) excess then
        Some (substring 0 (String.length text - List.length excess) text)
      else None
  | None => None
  end.

(** What the database answers to the session of a request that adds
    rows; the session comes from [database.py], with the defaults of
    [sessionmaker].  [flush] is the answer to the first [flush], which
    inserts the trip: the value that the sequence of the key gave to the
    row, or the error of the database.  [commit] is the error of the
    [commit], which inserts the other rows, if it has one.  [event_key]
    and [sign_key] give the keys of the other new rows, in the order of
    [db.add]. *)
Record Verdict : Type := {
  flush : outcome Z;
  commit : option failure;
  event_key : nat -> Z;
  sign_key : nat -> Z
}.


End Db.

(** * [schemas/trip.py]: the upload *)

Module TripEventCreate.

Record t : Type := {
  event_type : string;
  timestamp : option datetime;
  lat : option Q;
  lon : option Q;
  speed_m_s : option Q;
  accel_m_s2 : option Q
}.

End TripEventCreate.

Module SignDetectionCreate.

Record t : Type := {
  ts : option datetime;
  sign_class : string;
  confidence : option Q;
  bbox : option (dict Q)
}.

End SignDetectionCreate.

Module TripUpload.

Record t : Type := {
  start_time : datetime;
  end_time : datetime;
  duration_seconds : option Z;
  distance_m : option Q;
  avg_speed_m_s : option Q;
  max_speed_m_s : option Q;
  events : list TripEventCreate.t;
  sign_detections : list SignDetectionCreate.t
}.

End TripUpload.

(** * [ml/driver_scoring.py]: [score_trip_data] *)

(** The dict of [score_trip_data] has the six fields of the result. *)
Definition score_trip_data (trip_data : TripData) (events : list Event)
    (sign_detections : list Detection) : result SafetyScore :=
  result <- score_trip trip_data events sign_detections ;;
  Ok {| score := score result;
        risk_level := risk_level result;
        grade := grade result;
        issues := issues result;
        recommendations := recommendations result;
        breakdown := breakdown result |}.

(** * [routers/trips.py] *)

Module Trips.

(** A trip with its two relationships loaded ([selectinload]). *)
Record LoadedTrip : Type := {
  row : Trip.row;
  events : list TripEvent.row;
  sign_detections : list SignDetection.row
}.

Definition load (db : Db.Database) (trip : Trip.row) : LoadedTrip :=
  {| row := trip;
     events :=
       filter (fun e => (TripEvent.trip_id e =? Trip.id trip)%Z)
         (Db.trip_events db);
     sign_detections :=
       filter (fun d => (SignDetection.trip_id d =? Trip.id trip)%Z)
         (Db.sign_detections db) |}.

(** [select(Trip).options(selectinload(...), selectinload(...))
    .where(...)] *)
Definition select (db : Db.Database) (criterion : Trip.row -> bool) : list LoadedTrip :=
  map (load db) (filter criterion (Db.trips db)).

Definition scalar_one_or_none {A : Type} (rows : list A) : outcome (option A) :=
  match rows with
  | [] => Return None
  | [found] => Return (Some found)
  | _ => Fail MultipleResultsFound
  end.

Definition scalar_one {A : Type} (rows : list A) : outcome A :=
  match rows with
  | [] => Fail NoResultFound
  | [found] => Return found
  | _ => Fail MultipleResultsFound
  end.

(** The loop of lines 42 to 52: a row for each event, as [trip_events]
    stores it; [None] when the column [event_type] refuses a text.
    [position] counts the rows added before. *)
Fixpoint new_events (trip_id : Z) (key : nat -> Z) (position : nat)
    (events : list TripEventCreate.t) : option (list TripEvent.row) :=
  match events with
  | [] => Some []
  | event_data :: rest =>
      match Db.varchar 50 (TripEventCreate.event_type event_data),
            new_events trip_id key (S position) rest with
      | Some event_type, Some rows =>
          Some ({| TripEvent.id := key position;
                   TripEvent.trip_id := trip_id;
                   TripEvent.event_type := event_type;
                   TripEvent.timestamp := TripEventCreate.timestamp event_data;
                   TripEvent.lat := TripEventCreate.lat event_data;
                   TripEvent.lon := TripEventCreate.lon event_data;
                   TripEvent.speed_m_s := TripEventCreate.speed_m_s event_data;
                   TripEvent.accel_m_s2 :=
                     TripEventCreate.accel_m_s2 event_data |} :: rows)
      | _, _ => None
      end
  end.

(** The loop of lines 55 to 63, with the column [sign_class]. *)
Fixpoint new_signs (trip_id : Z) (key : nat -> Z) (position : nat)
    (signs : list SignDetectionCreate.t) : option (list SignDetection.row) :=
  match signs with
  | [] => Some []
  | sign_data :: rest =>
      match Db.varchar 100 (SignDetectionCreate.sign_class sign_data),
            new_signs trip_id key (S position) rest with
      | Some sign_class, Some rows =>
          Some ({| SignDetection.id := key position;
                   SignDetection.trip_id := trip_id;
                   SignDetection.ts := SignDetectionCreate.ts sign_data;
                   SignDetection.sign_class := sign_class;
                   SignDetection.confidence :=
                     SignDetectionCreate.confidence sign_data;
                   SignDetection.bbox := SignDetectionCreate.bbox sign_data |}
                :: rows)
      | _, _ => None
      end
  end.

(** [POST /trips/upload], for the user [current_user_id] at the time
    [now], with the answers [verdict] of the database: the response and
    the tables after the request.  The flush (line 39) fails on a number
    that [Integer] does not hold, or as the database says; the commit
    (line 65) fails on a text that its column refuses, or as the database
    says.  The error leaves the handler; [get_db] rolls the session back
    ([utils/dependencies.py], lines 16 to 23), and the tables are as they
    were. *)
Definition upload_trip (db : Db.Database) (verdict : Db.Verdict)
    (current_user_id : Z) (trip_data : TripUpload.t) (now : datetime)
    : outcome LoadedTrip * Db.Database :=
  let unsafe_events_count := Z.of_nat (List.length (TripUpload.events trip_data)) in
  if negb (Db.Integer current_user_id
           && Db.nullable_Integer (TripUpload.duration_seconds trip_data)
           && Db.Integer unsafe_events_count)
  then (Fail DBAPIError, db)
  else
    match Db.flush verdict with
    | Fail error => (Fail error, db)
    | Return new_trip_id =>
        let new_trip :=
          {| Trip.id := new_trip_id;
             Trip.user_id := current_user_id;
             Trip.start_time := Some (TripUpload.start_time trip_data);
             Trip.end_time := Some (TripUpload.end_time trip_data);
             Trip.duration_seconds := TripUpload.duration_seconds trip_data;
             Trip.distance_m := TripUpload.distance_m trip_data;
             Trip.avg_speed_m_s := TripUpload.avg_speed_m_s trip_data;
             Trip.max_speed_m_s := TripUpload.max_speed_m_s trip_data;
             Trip.unsafe_events := Some unsafe_events_count;
             Trip.created_at := now |} in
        match new_events (Trip.id new_trip) (Db.event_key verdict) 0
                (TripUpload.events trip_data),
              new_signs (Trip.id new_trip) (Db.sign_key verdict) 0
                (TripUpload.sign_detections trip_data) with
        | Some events, Some signs =>
            match Db.commit verdict with
            | Some error => (Fail error, db)
            | None =>
                let committed :=
                  {| Db.trips := (Db.trips db ++ [new_trip])%list;
                     Db.trip_events := (Db.trip_events db ++ events)%list;
                     Db.sign_detections :=
                       (Db.sign_detections db ++ signs)%list |} in
                (scalar_one
                   (select committed
                      (fun trip => (Trip.id trip =? Trip.id new_trip)%Z)),
                 committed)
            end
        | _, _ => (Fail DBAPIError, db)
        end
    end.


(** The [summary] of a report. *)
Record Summary : Type := {
  total_events : Z;
  events_by_type : dict Z;
  signs_detected : Z;
  duration_minutes : Q;
  distance_km : Q
}.

(** [schemas.trip.TripReport]; [safety_score] is validated to lie between
    0 and 100. *)
Module TripReport.

Record t : Type := {
  trip : LoadedTrip;
  summary : Summary;
  recommendations : list string;
  safety_score : Z;
  risk_level : string;
  grade : string;
  issues : list string;
  score_breakdown : dict Q
}.

Definition new (trip : LoadedTrip) (summary : Summary)
    (recommendations : list string) (safety_score : Z)
    (risk_level grade : string) (issues : list string)
    (score_breakdown : dict Q) : outcome t :=
  if ((0 <=? safety_score) && (safety_score <=? 100))%Z then
    Return {| trip := trip; summary := summary;
              recommendations := recommendations;
              safety_score := safety_score; risk_level := risk_level;
              grade := grade; issues := issues;
              score_breakdown := score_breakdown |}
  else Fail (ValidationError "safety_score").

End TripReport.

(** A nullable column as the value of a dict. *)
Definition nullable {A : Type} (column : option A) : field A :=
  match column with
  | Some value => Val value
  | None => Null
  end.

(** [x or 0] *)
Definition or_0 (column : option Q) : Q :=
  match column with
  | Some value => if Qeq_bool value 0 then 0 else value
  | None => 0
  end.

(** [round(x, 2)] *)
Definition round2 (x : Q) : Q := Qred (Py.round (x * 100) # 100).

(** Lines 137 to 139. *)
Definition count_types (events : list TripEvent.row) : dict Z :=
  fold_left
    (fun event_types event =>
       Dict.set event_types (TripEvent.event_type event)
         (Dict.get event_types (TripEvent.event_type event) 0 + 1)%Z)
    events [].

(** Lines 141 to 147. *)
Definition summary_of (trip : LoadedTrip) : Summary :=
  {| total_events := Z.of_nat (List.length (events trip));
     events_by_type := count_types (events trip);
     signs_detected := Z.of_nat (List.length (sign_detections trip));
     duration_minutes :=
       Py.round1
         (or_0 (option_map inject_Z (Trip.duration_seconds (row trip))) / 60);
     distance_km := round2 (or_0 (Trip.distance_m (row trip)) / 1000) |}.

(** Lines 153 to 177: the rows as the dicts of the scorer, which reads
    these keys of them. *)
Definition trip_data_of (trip : LoadedTrip) : TripData :=
  {| distance_m := nullable (Trip.distance_m (row trip));
     duration_seconds :=
       nullable (option_map inject_Z (Trip.duration_seconds (row trip))) |}.

Definition events_data_of (trip : LoadedTrip) : list Event :=
  map
    (fun e =>
       {| event_type := Some (TripEvent.event_type e);
          speed_m_s := nullable (TripEvent.speed_m_s e) |})
    (events trip).

Definition detections_data_of (trip : LoadedTrip) : list Detection :=
  map
    (fun d =>
       {| sign_class := Some (SignDetection.sign_class d);
          confidence := nullable (SignDetection.confidence d) |})
    (sign_detections trip).

(** [GET /trips/{trip_id}/report] *)
Definition get_trip_report (db : Db.Database) (current_user_id trip_id : Z)
    : outcome TripReport.t :=
  and_then
    (scalar_one_or_none
       (select db
          (fun trip =>
             (Trip.id trip =? trip_id)%Z
             && (Trip.user_id trip =? current_user_id)%Z)))
    (fun trip =>
       match trip with
       | None => Fail (HTTPException 404 "Trip not found")
       | Some trip =>
           let summary := summary_of trip in
           and_then
             (uncaught
                (score_trip_data (trip_data_of trip) (events_data_of trip)
                   (detections_data_of trip)))
             (fun scoring_result =>
                TripReport.new trip summary
                  (recommendations scoring_result)
                  (score scoring_result)
                  (risk_level scoring_result)
                  (grade scoring_result)
                  (issues scoring_result)
                  (breakdown scoring_result))
       end).


End Trips.






(** The number of characters of a text. *)
Definition characters (text : string) : option nat :=
  option_map (@List.length Z) (Py.code_points (list_ascii_of_string text)).

(** Tables for the scenarios: a trip of user 7 with two hard brakes, an
    overspeed event and a sign. *)
Definition tables_of_one_trip : Db.Database :=
  {| Db.trips :=
       [{| Trip.id := 1; Trip.user_id := 7;
           Trip.start_time := Some 0%Z; Trip.end_time := Some 900%Z;
           Trip.duration_seconds := Some 900%Z;
           Trip.distance_m := Some 12000;
           Trip.avg_speed_m_s := Some 13; Trip.max_speed_m_s := Some 21;
           Trip.unsafe_events := Some 3%Z; Trip.created_at := 1000%Z |}];
     Db.trip_events :=
       [{| TripEvent.id := 1; TripEvent.trip_id := 1;
           TripEvent.event_type := "hard_brake";
           TripEvent.timestamp := None; TripEvent.lat := None;
           TripEvent.lon := None; TripEvent.speed_m_s := Some 12;
           TripEvent.accel_m_s2 := None |};
        {| TripEvent.id := 2; TripEvent.trip_id := 1;
           TripEvent.event_type := "overspeed";
           TripEvent.timestamp := None; TripEvent.lat := None;
           TripEvent.lon := None; TripEvent.speed_m_s := Some 21;
           TripEvent.accel_m_s2 := None |};
        {| TripEvent.id := 3; TripEvent.trip_id := 1;
           TripEvent.event_type := "hard_brake";
           TripEvent.timestamp := None; TripEvent.lat := None;
           TripEvent.lon := None; TripEvent.speed_m_s := None;
           TripEvent.accel_m_s2 := None |}];
     Db.sign_detections :=
       [{| SignDetection.id := 1; SignDetection.trip_id := 1;
           SignDetection.ts := None;
           SignDetection.sign_class := "speed_limit_50";
           SignDetection.confidence := Some 0.9;
           SignDetection.bbox := None |}] |}.


(** An upload with an event type of 51 characters. *)
Definition upload_of_long_type : TripUpload.t :=
  {| TripUpload.start_time := 2000%Z; TripUpload.end_time := 2600%Z;
     TripUpload.duration_seconds := Some 600%Z;
     TripUpload.distance_m := Some 8000;
     TripUpload.avg_speed_m_s := None; TripUpload.max_speed_m_s := None;
     TripUpload.events :=
       [{| TripEventCreate.event_type :=
             string_of_list_ascii (repeat "a"%char 51);
           TripEventCreate.timestamp := None; TripEventCreate.lat := None;
           TripEventCreate.lon := None; TripEventCreate.speed_m_s := None;
           TripEventCreate.accel_m_s2 := None |}];
     TripUpload.sign_detections := [] |}.

(** Answers of the database for the scenarios: it takes the rows and
    gives the trip the key [key]. *)
Definition verdict_of_key (key : Z) : Db.Verdict :=
  {| Db.flush := Return key;
     Db.commit := None;
     Db.event_key := fun position => 4 + Z.of_nat position;
     Db.sign_key := fun position => 2 + Z.of_nat position |}%Z.

(** * Lemmas on the built-ins *)

(** ** Comparisons, [max], [min] and clamping *)

Lemma Qlt_bool_true (x y : Q) : Qlt_bool x y = true <-> x < y.
Proof.
  unfold Qlt_bool. rewrite negb_true_iff.
  destruct (Qle_bool y x) eqn:E.
  - apply Qle_bool_iff in E. split; [discriminate | intros; lra].
  - split; [intros _ | reflexivity].
    apply Qnot_le_lt. intros H. apply Qle_bool_iff in H. congruence.
Qed.

Lemma Qlt_bool_false (x y : Q) : Qlt_bool x y = false <-> y <= x.
Proof.
  unfold Qlt_bool. rewrite negb_false_iff. apply Qle_bool_iff.
Qed.

#[export] Instance Qlt_bool_Proper : Proper (Qeq ==> Qeq ==> eq) Qlt_bool.
Proof. intros x x' Hx y y' Hy. unfold Qlt_bool. now rewrite Hx, Hy. Qed.

Lemma Qlt_bool_spec (x y : Q) : reflect (x < y) (Qlt_bool x y).
Proof.
  destruct (Qlt_bool x y) eqn:E; constructor.
  - now apply Qlt_bool_true.
  - apply Qlt_bool_false in E. lra.
Qed.

Lemma max_cases (a b : Q) :
  (a < b /\ Py.max a b = b) \/ (b <= a /\ Py.max a b = a).
Proof.
  unfold Py.max. destruct (Qlt_bool_spec a b); [left | right]; split; auto; lra.
Qed.

Lemma min_cases (a b : Q) :
  (b < a /\ Py.min a b = b) \/ (a <= b /\ Py.min a b = a).
Proof.
  unfold Py.min. destruct (Qlt_bool_spec b a); [left | right]; split; auto; lra.
Qed.

#[export] Instance max_Proper : Proper (Qeq ==> Qeq ==> Qeq) Py.max.
Proof.
  intros a a' Ha b b' Hb. unfold Py.max. rewrite Ha, Hb.
  destruct (Qlt_bool a' b'); assumption.
Qed.

#[export] Instance min_Proper : Proper (Qeq ==> Qeq ==> Qeq) Py.min.
Proof.
  intros a a' Ha b b' Hb. unfold Py.min. rewrite Ha, Hb.
  destruct (Qlt_bool b' a'); assumption.
Qed.

Lemma max_is_Qmax (a b : Q) : Py.max a b == Qmax a b.
Proof.
  destruct (max_cases a b) as [[H ->] | [H ->]].
  - symmetry. apply Q.max_r. lra.
  - symmetry. apply Q.max_l. lra.
Qed.

Lemma max_le_compat (a a' b b' : Q) :
  a <= a' -> b <= b' -> Py.max a b <= Py.max a' b'.
Proof.
  intros.
  destruct (max_cases a b) as [[? ->] | [? ->]];
  destruct (max_cases a' b') as [[? ->] | [? ->]]; lra.
Qed.

Lemma min_le_compat (a a' b b' : Q) :
  a <= a' -> b <= b' -> Py.min a b <= Py.min a' b'.
Proof.
  intros.
  destruct (min_cases a b) as [[? ->] | [? ->]];
  destruct (min_cases a' b') as [[? ->] | [? ->]]; lra.
Qed.

Lemma clamp_bounds (x : Q) : 0 <= clamp x <= 100.
Proof.
  unfold clamp.
  destruct (min_cases 100 x) as [[? ->] | [? ->]].
  - destruct (max_cases 0 x) as [[? ->] | [? ->]]; lra.
  - destruct (max_cases 0 100) as [[? ->] | [? ->]]; lra.
Qed.

Lemma clamp_le_compat (x y : Q) : x <= y -> clamp x <= clamp y.
Proof.
  intros. unfold clamp. apply max_le_compat; [lra|].
  apply min_le_compat; lra.
Qed.

#[export] Instance clamp_Proper : Proper (Qeq ==> Qeq) clamp.
Proof.
  intros x y H. unfold clamp.
  apply max_Proper; [reflexivity|]. apply min_Proper; [reflexivity | exact H].
Qed.

(** ** Rounding *)

#[export] Instance round_Proper : Proper (Qeq ==> eq) Py.round.
Proof.
  intros x y H. unfold Py.round. cbv zeta.
  rewrite (Qfloor_comp _ _ H).
  assert (E : x - inject_Z (Qfloor y) == y - inject_Z (Qfloor y)) by (rewrite H; reflexivity).
  rewrite (Qlt_bool_Proper _ _ E _ _ (Qeq_refl _)).
  rewrite (Qlt_bool_Proper _ _ (Qeq_refl (1 # 2)) _ _ E).
  reflexivity.
Qed.

Lemma round_floor (x : Q) : (Qfloor x <= Py.round x <= Qfloor x + 1)%Z.
Proof.
  unfold Py.round.
  destruct (Qlt_bool _ _); [lia|].
  destruct (Qlt_bool _ _); [lia|].
  destruct (Z.even _); lia.
Qed.

Lemma round_inject_Z (n : Z) : Py.round (inject_Z n) = n.
Proof.
  unfold Py.round. rewrite Qfloor_Z.
  destruct (Qlt_bool_spec (inject_Z n - inject_Z n) (1 # 2)) as [|H]; [reflexivity|].
  exfalso. apply H. lra.
Qed.

Lemma round_le_compat (x y : Q) : x <= y -> (Py.round x <= Py.round y)%Z.
Proof.
  intros Hxy.
  pose proof (Qfloor_resp_le _ _ Hxy) as Hf.
  destruct (Z.eq_dec (Qfloor x) (Qfloor y)) as [E | NE].
  - unfold Py.round. rewrite E.
    set (f := Qfloor y).
    destruct (Qlt_bool_spec (x - inject_Z f) (1 # 2));
    destruct (Qlt_bool_spec (y - inject_Z f) (1 # 2)); try lia; try lra.
    + destruct (Qlt_bool _ _); [lia|]. destruct (Z.even f); lia.
    + destruct (Qlt_bool_spec (1 # 2) (x - inject_Z f));
      destruct (Qlt_bool_spec (1 # 2) (y - inject_Z f)); try lia; try lra.
      destruct (Z.even f); lia.
  - pose proof (round_floor x). pose proof (round_floor y). lia.
Qed.

Lemma round_clamp_bounds (x : Q) : (0 <= Py.round (clamp x) <= 100)%Z.
Proof.
  destruct (clamp_bounds x) as [H0 H100].
  split.
  - rewrite <- (round_inject_Z 0). apply round_le_compat. exact H0.
  - rewrite <- (round_inject_Z 100). apply round_le_compat. exact H100.
Qed.

(** * Lemmas on the scorer *)

(** ** Division and the distance floor *)

Lemma div_ok (a b : Q) : ~ b == 0 -> Py.div a b = Ok (a / b).
Proof.
  intros H. unfold Py.div.
  destruct (Qeq_bool b 0) eqn:E; [|reflexivity].
  apply Qeq_bool_iff in E. contradiction.
Qed.

Lemma distance_km_ge_1 (t : TripData) : 1 <= distance_km_of t.
Proof.
  unfold distance_km_of.
  destruct (max_cases (Py.get_or_0 (distance_m t) / 1000) 1.0)
    as [[? ->] | [? ->]]; lra.
Qed.

(** ** The loops *)

Lemma count_events_from (es : list Event) (d : dict Z) (m : Q) :
  fold_left count_event es (d, m)
  = (tally (map event_key es) d, running_max es m).
Proof.
  revert d m. induction es as [|e es IH]; intros d m; [reflexivity|].
  cbn [fold_left map]. unfold tally, running_max in *. cbn [fold_left].
  rewrite <- IH. f_equal.
  unfold count_event, is_overspeed, event_key, overspeed_amount.
  destruct (String.eqb _ "overspeed"); reflexivity.
Qed.

Lemma count_events_eq (es : list Event) :
  count_events es = (tally (map event_key es) [], running_max es 0.0).
Proof. apply count_events_from. Qed.

Lemma deductions_issues (dkm : Q) (counts : dict Z) (d0 : Q) (is0 : list string) :
  ~ dkm == 0 ->
  foldM (deduct_event dkm) (Dict.items counts) (d0, is0)
  = Ok (deductions dkm counts d0, (is0 ++ count_issues counts)%list).
Proof.
  intros Hd. unfold Dict.items. revert d0 is0.
  induction counts as [|[k c] counts IH]; intros d0 is0.
  - cbn. now rewrite app_nil_r.
  - cbn [foldM]. unfold deduct_event at 1.
    rewrite (div_ok _ _ Hd). cbn [bind].
    rewrite IH. unfold deductions, count_issues. cbn [fold_left flat_map fst snd].
    unfold deduction at 2. cbn [fst snd].
    destruct (0 <? c)%Z; now rewrite <- ?app_assoc.
Qed.

Lemma split_chars_nonempty (sep : ascii) (s : list ascii) :
  Py.split_chars sep s <> [].
Proof.
  destruct s as [|c s]; cbn; [discriminate|].
  destruct (Ascii.eqb c sep); [discriminate|].
  destruct (Py.split_chars sep s); discriminate.
Qed.

Lemma last_item_ok {A : Type} (l : list A) :
  l <> [] -> exists x, Py.last_item l = Ok x.
Proof.
  intros H. unfold Py.last_item.
  destruct (rev l) as [|x r] eqn:E; [|eauto].
  apply (f_equal (@rev A)) in E. rewrite rev_involutive in E. contradiction.
Qed.

Lemma split_last_ok (sep : ascii) (s : string) :
  exists tok, Py.last_item (Py.split sep s) = Ok tok.
Proof.
  apply last_item_ok. unfold Py.split. intros H.
  apply map_eq_nil in H. now apply split_chars_nonempty in H.
Qed.

Lemma int_raises (s : string) (e : exn) : Py.int s = Raise e -> e = ValueError.
Proof.
  unfold Py.int. cbv zeta.
  destruct (match Py.code_points _ with Some _ => _ | None => _ end);
    [discriminate | congruence].
Qed.

Lemma scan_detection_eq (acc : list Z) (d : Detection) :
  scan_detection acc d
  = Ok (acc ++ match limit_of d with Some n => [n] | None => [] end)%list.
Proof.
  unfold scan_detection, limit_of. cbv zeta.
  destruct (Py.contains _ _); [|now rewrite app_nil_r].
  destruct (split_last_ok "_" (match sign_class d with Some s => s | None => "" end))
    as [tok ->].
  cbn [bind]. destruct (Py.int tok) as [n | e] eqn:E; cbn [bind except_ValueError].
  - reflexivity.
  - apply int_raises in E. subst e. now rewrite app_nil_r.
Qed.

Lemma scan_detections_eq (ds : list Detection) (acc : list Z) :
  foldM scan_detection ds acc = Ok (acc ++ limits_of ds)%list.
Proof.
  revert acc. induction ds as [|d ds IH]; intros acc; cbn [foldM limits_of flat_map].
  - now rewrite app_nil_r.
  - rewrite scan_detection_eq. cbn [bind]. rewrite IH.
    unfold limits_of. now rewrite app_assoc.
Qed.

(** ** The recommendations *)

Lemma rate_nonpos (c : Z) (dkm : Q) : 0 < dkm -> (c <= 0)%Z -> rate c dkm <= 0.
Proof.
  intros Hd Hc. unfold rate.
  assert (inject_Z c <= 0) by (change 0 with (inject_Z 0); now rewrite <- Zle_Qle).
  assert (inject_Z c / dkm <= 0).
  { apply Qle_shift_div_r; [assumption | lra]. }
  lra.
Qed.

Lemma generate_recommendations_eq (counts : dict Z) (mo dkm : Q) :
  0 < dkm ->
  _generate_recommendations counts mo dkm
  = Ok (recommendations_spec counts mo dkm).
Proof.
  intros Hd.
  assert (Hd' : ~ dkm == 0) by lra.
  unfold _generate_recommendations, recommendations_spec, generated,
    rule_hard_brake, rule_harsh_accel, rule_overspeed, rule_unsafe_curve.
  cbv zeta.
  set (hb := Dict.get counts "hard_brake" 0%Z).
  set (ha := Dict.get counts "harsh_accel" 0%Z).
  set (os := Dict.get counts "overspeed" 0%Z).
  set (uc := Dict.get counts "unsafe_curve" 0%Z).
  rewrite !(div_ok _ _ Hd'). cbn [bind]. unfold rate.
  pose proof (rate_nonpos hb dkm Hd) as Rhb.
  pose proof (rate_nonpos ha dkm Hd) as Rha.
  unfold rate in Rhb, Rha.
  set (rhb := inject_Z hb / dkm * 100) in *.
  set (rha := inject_Z ha / dkm * 100) in *.
  assert (Hhb : (0 <? hb)%Z = false ->
                Qlt_bool 5 rhb = false /\ Qlt_bool 2 rhb = false).
  { intros H. apply Z.ltb_ge in H. specialize (Rhb H).
    split; apply Qlt_bool_false; lra. }
  assert (Hha : (0 <? ha)%Z = false -> Qlt_bool 3 rha = false).
  { intros H. apply Z.ltb_ge in H. specialize (Rha H).
    apply Qlt_bool_false; lra. }
  clearbody rhb rha. clear Rhb Rha.
  destruct (0 <? hb)%Z.
  - destruct (0 <? ha)%Z.
    + cbn [bind].
      destruct (Qlt_bool 5 rhb); [|destruct (Qlt_bool 2 rhb)];
      cbn [bind]; destruct (Qlt_bool 3 rha); cbn [bind];
      destruct ((0 <? os)%Z || Qlt_bool 5 mo); try destruct (Qlt_bool 20 mo);
      destruct (0 <? uc)%Z; reflexivity.
    + rewrite (Hha eq_refl). cbn [bind].
      destruct (Qlt_bool 5 rhb); [|destruct (Qlt_bool 2 rhb)];
      cbn [bind];
      destruct ((0 <? os)%Z || Qlt_bool 5 mo); try destruct (Qlt_bool 20 mo);
      destruct (0 <? uc)%Z; reflexivity.
  - destruct (Hhb eq_refl) as [-> ->]. cbn [bind].
    destruct (0 <? ha)%Z.
    + cbn [bind]. destruct (Qlt_bool 3 rha); cbn [bind];
      destruct ((0 <? os)%Z || Qlt_bool 5 mo); try destruct (Qlt_bool 20 mo);
      destruct (0 <? uc)%Z; reflexivity.
    + rewrite (Hha eq_refl). cbn [bind].
      destruct ((0 <? os)%Z || Qlt_bool 5 mo); try destruct (Qlt_bool 20 mo);
      destruct (0 <? uc)%Z; reflexivity.
Qed.

(** ** [score_trip] in closed form *)

Lemma score_trip_locals_eq (t : TripData) (es : list Event) (ds : list Detection) :
  score_trip_locals t es ds = Ok (locals_of t es ds).
Proof.
  pose proof (distance_km_ge_1 t) as Hd.
  unfold score_trip_locals.
  rewrite (div_ok _ 1000) by lra. cbn [bind].
  rewrite (div_ok _ 60) by lra. cbn [bind]. cbv zeta.
  rewrite count_events_eq.
  fold (distance_km_of t).
  rewrite deductions_issues by lra. cbn [bind].
  rewrite scan_detections_eq. cbn [bind app].
  rewrite generate_recommendations_eq by lra.
  unfold locals_of, sign_part, events_part, overspeed_part, clamp, Dict.index.
  cbv zeta.
  destruct (limits_of ds); destruct (Qlt_bool 10 (running_max es 0.0));
    cbn [app Dict.set Dict.lookup String.eqb Ascii.eqb Bool.eqb bind];
    rewrite ?app_nil_r; reflexivity.
Qed.

Lemma score_trip_eq (t : TripData) (es : list Event) (ds : list Detection) :
  score_trip t es ds = Ok (result_of (locals_of t es ds)).
Proof.
  unfold score_trip. rewrite score_trip_locals_eq. reflexivity.
Qed.

(** ** Rounding to one decimal *)

#[export] Instance round1_Proper : Proper (Qeq ==> eq) Py.round1.
Proof.
  intros x y H. unfold Py.round1.
  assert (E : x * 10 == y * 10) by (rewrite H; reflexivity).
  now rewrite (round_Proper _ _ E).
Qed.

Lemma round1_value (x : Q) : Py.round1 x == inject_Z (Py.round (x * 10)) / 10.
Proof.
  unfold Py.round1. rewrite Qred_correct.
  unfold Qeq, Qdiv, Qmult, Qinv, inject_Z. cbn. lia.
Qed.

Lemma round1_times_10 (x : Q) : Py.round1 x * 10 == inject_Z (Py.round (x * 10)).
Proof. rewrite round1_value. field. Qed.

Lemma round1_between (lo hi : Z) (x : Q) :
  inject_Z lo <= x * 10 <= inject_Z hi ->
  inject_Z lo <= Py.round1 x * 10 <= inject_Z hi.
Proof.
  intros [Hlo Hhi]. rewrite round1_times_10. split.
  - rewrite <- Zle_Qle. rewrite <- (round_inject_Z lo). now apply round_le_compat.
  - rewrite <- Zle_Qle. rewrite <- (round_inject_Z hi). now apply round_le_compat.
Qed.

(** ** Sums of deductions *)

Lemma penalty_pos (k : string) : 0 < Dict.get EVENT_PENALTIES k 2.0.
Proof.
  unfold Dict.get, EVENT_PENALTIES. cbn [Dict.lookup].
  repeat (destruct (String.eqb _ k); [reflexivity|]). reflexivity.
Qed.

Lemma deduction_nonneg (dkm : Q) (k : string) (c : Z) :
  0 < dkm -> (0 <= c)%Z -> 0 <= deduction dkm (k, c).
Proof.
  intros Hd Hc. unfold deduction. cbn [fst snd].
  pose proof (penalty_pos k) as Hp.
  assert (H0 : 0 <= inject_Z c)
    by (change 0 with (inject_Z 0); now rewrite <- Zle_Qle).
  assert (0 <= inject_Z c / dkm) by (apply Qle_shift_div_l; lra).
  nra.
Qed.

Lemma deduction_succ (dkm : Q) (k : string) (c : Z) :
  ~ dkm == 0 ->
  deduction dkm (k, (c + 1)%Z) == deduction dkm (k, c) + deduction dkm (k, 1%Z).
Proof.
  intros Hd. unfold deduction. cbn [fst snd]. rewrite inject_Z_plus. field. exact Hd.
Qed.

Lemma deductions_from (dkm : Q) (d : dict Z) (d0 : Q) :
  deductions dkm d d0 == d0 + deductions dkm d 0.
Proof.
  unfold deductions. revert d0. induction d as [|item d IH]; intros d0; cbn [fold_left].
  - lra.
  - rewrite IH. rewrite (IH (0 + _)). lra.
Qed.

Lemma deductions_cons (dkm : Q) (item : string * Z) (d : dict Z) (d0 : Q) :
  deductions dkm (item :: d) d0 == d0 + deduction dkm item + deductions dkm d 0.
Proof.
  unfold deductions at 1. cbn [fold_left]. fold (deductions dkm d (d0 + deduction dkm item)).
  apply deductions_from.
Qed.

Lemma deductions_set_incr (dkm : Q) (d : dict Z) (k : string) (d0 : Q) :
  ~ dkm == 0 ->
  deductions dkm (Dict.set d k (Dict.get d k 0 + 1)%Z) d0
  == deductions dkm d d0 + deduction dkm (k, 1%Z).
Proof.
  intros Hd. revert d0. induction d as [|[k' v'] d IH]; intros d0.
  - cbn. unfold deductions. cbn [fold_left]. reflexivity.
  - unfold Dict.get in *. cbn [Dict.set Dict.lookup].
    destruct (String.eqb k' k) eqn:E.
    + apply String.eqb_eq in E. subst k'.
      rewrite !deductions_cons, deduction_succ by exact Hd. lra.
    + rewrite !deductions_cons, IH, deductions_from. lra.
Qed.

Lemma unit_deductions_cons (dkm : Q) (k : string) (keys : list string) :
  unit_deductions dkm (k :: keys)
  = deduction dkm (k, 1%Z) + unit_deductions dkm keys.
Proof. reflexivity. Qed.

Lemma deductions_tally (dkm : Q) (keys : list string) (d : dict Z) (d0 : Q) :
  ~ dkm == 0 ->
  deductions dkm (tally keys d) d0
  == deductions dkm d d0 + unit_deductions dkm keys.
Proof.
  intros Hd. revert d. induction keys as [|k keys IH]; intros d.
  - unfold tally, unit_deductions. cbn [fold_left fold_right]. lra.
  - unfold tally. cbn [fold_left]. fold (tally keys (Dict.set d k (Dict.get d k 0 + 1)%Z)).
    rewrite IH, deductions_set_incr, unit_deductions_cons by exact Hd. lra.
Qed.

Lemma unit_deductions_nonneg (dkm : Q) (keys : list string) :
  0 < dkm -> 0 <= unit_deductions dkm keys.
Proof.
  intros Hd. induction keys as [|k keys IH];
    [unfold unit_deductions; cbn [fold_right]; lra|].
  rewrite unit_deductions_cons.
  pose proof (deduction_nonneg dkm k 1 Hd ltac:(lia)). lra.
Qed.

Lemma event_deduction_nonneg (t : TripData) (es : list Event) :
  0 <= deductions (distance_km_of t) (tally (map event_key es) []) 0.0.
Proof.
  pose proof (distance_km_ge_1 t).
  rewrite deductions_tally by lra.
  pose proof (unit_deductions_nonneg (distance_km_of t) (map event_key es)).
  unfold deductions at 1. cbn [fold_left]. lra.
Qed.

Lemma running_max_ge (es : list Event) (m : Q) : m <= running_max es m.
Proof.
  unfold running_max. revert m. induction es as [|e es IH]; intros m; cbn [fold_left].
  - lra.
  - destruct (is_overspeed e); [|apply IH].
    eapply Qle_trans; [|apply IH].
    destruct (max_cases m (overspeed_amount e)) as [[? ->] | [? ->]]; lra.
Qed.

(** ** The three contributions *)

Lemma events_part_bounds (t : TripData) (es : list Event) :
  -40 <= events_part t es <= 0.
Proof.
  unfold events_part. pose proof (event_deduction_nonneg t es) as H.
  destruct (min_cases (deductions (distance_km_of t) (tally (map event_key es) []) 0.0) 40)
    as [[? ->] | [? ->]]; lra.
Qed.

Lemma overspeed_part_bounds (es : list Event) : -20 <= overspeed_part es <= 0.
Proof.
  unfold overspeed_part, OVERSPEED_PENALTY_PER_KMH.
  pose proof (running_max_ge es 0.0) as H.
  destruct (min_cases (running_max es 0.0 * 0.5) 20) as [[? ->] | [? ->]]; lra.
Qed.

Lemma sign_part_cases (ds : list Detection) :
  sign_part ds = 0.0 \/ sign_part ds = 5.0.
Proof. unfold sign_part. destruct (limits_of ds); auto. Qed.

(** ** Dicts *)

Lemma lookup_set {V : Type} (d : dict V) (k k' : string) (v : V) :
  Dict.lookup (Dict.set d k v) k'
  = if String.eqb k k' then Some v else Dict.lookup d k'.
Proof.
  induction d as [|[k0 v0] d IH]; cbn [Dict.set Dict.lookup].
  - reflexivity.
  - destruct (String.eqb k0 k) eqn:E0.
    + apply String.eqb_eq in E0. subst k0. cbn [Dict.lookup].
      destruct (String.eqb k k'); reflexivity.
    + cbn [Dict.lookup]. rewrite IH.
      destruct (String.eqb k0 k') eqn:E1; [|reflexivity].
      apply String.eqb_eq in E1. subst k0. now rewrite String.eqb_sym, E0.
Qed.

Lemma keys_set {V : Type} (d : dict V) (k : string) (v : V) :
  map fst (Dict.set d k v)
  = match Dict.lookup d k with
    | Some _ => map fst d
    | None => (map fst d ++ [k])%list
    end.
Proof.
  induction d as [|[k0 v0] d IH]; cbn [Dict.set Dict.lookup map fst app].
  - reflexivity.
  - destruct (String.eqb k0 k); cbn [map fst]; [reflexivity|].
    rewrite IH. destruct (Dict.lookup d k); reflexivity.
Qed.

Lemma lookup_None_keys {V : Type} (d : dict V) (k : string) :
  Dict.lookup d k = None <-> ~ In k (map fst d).
Proof.
  induction d as [|[k0 v0] d IH]; cbn [Dict.lookup map fst In].
  - tauto.
  - destruct (String.eqb_spec k0 k) as [-> | NE].
    + split; [discriminate | tauto].
    + rewrite IH. tauto.
Qed.

Lemma keys_set_NoDup {V : Type} (d : dict V) (k : string) (v : V) :
  NoDup (map fst d) -> NoDup (map fst (Dict.set d k v)).
Proof.
  intros H. rewrite keys_set.
  destruct (Dict.lookup d k) eqn:E; [exact H|].
  apply lookup_None_keys in E.
  apply NoDup_app; [exact H | repeat constructor; intros [] | ].
  intros x Hx [<- | []]. contradiction.
Qed.

Lemma lookup_In {V : Type} (d : dict V) (k : string) (v : V) :
  NoDup (map fst d) -> (In (k, v) d <-> Dict.lookup d k = Some v).
Proof.
  induction d as [|[k0 v0] d IH]; cbn [Dict.lookup map fst In]; intros H.
  - split; [tauto | discriminate].
  - inversion H as [|? ? Hnot Hd]; subst.
    destruct (String.eqb_spec k0 k) as [-> | NE].
    + split.
      * intros [E | Hin]; [congruence|].
        exfalso. apply Hnot. apply (in_map fst) in Hin. exact Hin.
      * intros E. left. congruence.
    + rewrite <- (IH Hd). split; [intros [E | Hin]; [congruence | exact Hin] | tauto].
Qed.

Lemma keys_NoDup_items {V : Type} (d : dict V) : NoDup (map fst d) -> NoDup d.
Proof. apply NoDup_map_inv. Qed.

(** ** Counting *)

Lemma tally_cons (k : string) (keys : list string) (d : dict Z) :
  tally (k :: keys) d = tally keys (Dict.set d k (Dict.get d k 0 + 1)%Z).
Proof. reflexivity. Qed.

Lemma tally_snoc (keys : list string) (k : string) (d : dict Z) :
  tally (keys ++ [k]) d
  = Dict.set (tally keys d) k (Dict.get (tally keys d) k 0 + 1)%Z.
Proof. unfold tally. now rewrite fold_left_app. Qed.

Lemma tally_NoDup (keys : list string) (d : dict Z) :
  NoDup (map fst d) -> NoDup (map fst (tally keys d)).
Proof.
  revert d. induction keys as [|k keys IH]; intros d H; [exact H|].
  rewrite tally_cons. apply IH. now apply keys_set_NoDup.
Qed.

Lemma occurrences_cons (k k' : string) (keys : list string) :
  occurrences (k :: keys) k'
  = ((if String.eqb k k' then 1 else 0) + occurrences keys k')%Z.
Proof.
  unfold occurrences. cbn [count_occ].
  destruct (string_dec k k') as [-> | NE].
  - rewrite String.eqb_refl. lia.
  - apply String.eqb_neq in NE. rewrite NE. lia.
Qed.

Lemma occurrences_nonneg (keys : list string) (k : string) :
  (0 <= occurrences keys k)%Z.
Proof. unfold occurrences. lia. Qed.

(** The entry of a key after counting: what it was plus the occurrences. *)
Lemma lookup_tally (keys : list string) (d : dict Z) (k : string) :
  Dict.lookup (tally keys d) k
  = match Dict.lookup d k with
    | Some v => Some (v + occurrences keys k)%Z
    | None =>
        if (occurrences keys k =? 0)%Z then None
        else Some (occurrences keys k)
    end.
Proof.
  revert d. induction keys as [|k0 keys IH]; intros d.
  - cbn [tally fold_left]. unfold occurrences. cbn.
    destruct (Dict.lookup d k); [f_equal; lia | reflexivity].
  - rewrite tally_cons, IH, lookup_set, occurrences_cons.
    pose proof (occurrences_nonneg keys k).
    destruct (String.eqb_spec k0 k) as [-> | NE].
    + unfold Dict.get. destruct (Dict.lookup d k).
      * f_equal. lia.
      * replace (1 + occurrences keys k =? 0)%Z with false by (symmetry; lia).
        f_equal; lia.
    + destruct (Dict.lookup d k); [f_equal; lia | reflexivity].
Qed.

Lemma get_tally (keys : list string) (k : string) :
  Dict.get (tally keys []) k 0%Z = occurrences keys k.
Proof.
  unfold Dict.get. rewrite lookup_tally. cbn [Dict.lookup].
  destruct (occurrences keys k =? 0)%Z eqn:E; [lia | reflexivity].
Qed.

Lemma occurrences_Permutation (keys keys' : list string) (k : string) :
  Permutation keys keys' -> occurrences keys k = occurrences keys' k.
Proof.
  intros H. unfold occurrences. f_equal.
  now apply (Permutation_count_occ string_dec).
Qed.

(** Counting the same keys in another order gives the same entries, in
    another order. *)
Lemma tally_Permutation (keys keys' : list string) :
  Permutation keys keys' -> Permutation (tally keys []) (tally keys' []).
Proof.
  intros H.
  assert (N : forall l, NoDup (map fst (tally l []))).
  { intros l. apply tally_NoDup. constructor. }
  apply NoDup_Permutation; try (apply keys_NoDup_items, N).
  intros [k v]. rewrite !lookup_In by apply N.
  rewrite !lookup_tally. cbn [Dict.lookup].
  now rewrite (occurrences_Permutation _ _ k H).
Qed.

(** ** Order does not matter to the sums *)

Lemma deductions_Permutation (dkm : Q) (d d' : dict Z) :
  Permutation d d' -> deductions dkm d 0 == deductions dkm d' 0.
Proof.
  induction 1 as [| x l l' _ IH | x y l | l l' l'' _ IH1 _ IH2].
  - reflexivity.
  - rewrite !deductions_cons, IH. reflexivity.
  - rewrite !deductions_cons. lra.
  - now rewrite IH1.
Qed.

(** ** The running maximum *)

Lemma get_or_0_value (f : field Q) :
  Py.get_or_0 f == match f with Val v => v | _ => 0 end.
Proof.
  destruct f as [| |v]; cbn; try reflexivity.
  destruct (Qeq_bool v 0) eqn:E; [|reflexivity].
  apply Qeq_bool_iff in E. now rewrite E.
Qed.

Lemma overspeed_amount_value (e : Event) :
  overspeed_amount e
  == Qmax 0 (match speed_m_s e with Val v => v | _ => 0 end * 3.6 - 50).
Proof.
  unfold overspeed_amount. rewrite max_is_Qmax.
  apply Q.max_compat; [reflexivity|]. now rewrite get_or_0_value.
Qed.

Lemma max_overspeed_spec_cons (e : Event) (es : list Event) :
  max_overspeed_spec (e :: es)
  = if is_overspeed e then
      Qmax (Qmax 0 (match speed_m_s e with Val v => v | _ => 0 end * 3.6 - 50))
        (max_overspeed_spec es)
    else max_overspeed_spec es.
Proof.
  unfold max_overspeed_spec, is_overspeed. cbn [filter].
  destruct (String.eqb (event_key e) "overspeed"); reflexivity.
Qed.

Lemma max_overspeed_spec_nonneg (es : list Event) : 0 <= max_overspeed_spec es.
Proof.
  induction es as [|e es IH]; [unfold max_overspeed_spec; cbn; lra|].
  rewrite max_overspeed_spec_cons. destruct (is_overspeed e); [|exact IH].
  eapply Qle_trans; [exact IH | apply Q.le_max_r].
Qed.

Lemma running_max_spec (es : list Event) (m : Q) :
  0 <= m -> running_max es m == Qmax m (max_overspeed_spec es).
Proof.
  revert m. induction es as [|e es IH]; intros m Hm.
  - unfold running_max, max_overspeed_spec. cbn [fold_left filter map fold_right].
    symmetry. now apply Q.max_l.
  - rewrite max_overspeed_spec_cons. unfold running_max. cbn [fold_left].
    fold (running_max es (Py.max m (overspeed_amount e))) (running_max es m).
    destruct (is_overspeed e); [|now apply IH].
    rewrite IH.
    + rewrite max_is_Qmax, overspeed_amount_value. symmetry. apply Q.max_assoc.
    + destruct (max_cases m (overspeed_amount e)) as [[? ->] | [? ->]]; lra.
Qed.

Lemma running_max_0 (es : list Event) :
  running_max es 0.0 == max_overspeed_spec es.
Proof.
  rewrite running_max_spec by lra. apply Q.max_r.
  pose proof (max_overspeed_spec_nonneg es). lra.
Qed.

Lemma max_overspeed_spec_Permutation (es es' : list Event) :
  Permutation es es' -> max_overspeed_spec es == max_overspeed_spec es'.
Proof.
  induction 1 as [| x l l' _ IH | x y l | l l' l'' _ IH1 _ IH2].
  - reflexivity.
  - rewrite !max_overspeed_spec_cons. destruct (is_overspeed x); [|exact IH].
    now rewrite IH.
  - rewrite !max_overspeed_spec_cons.
    destruct (is_overspeed x), (is_overspeed y); try reflexivity.
    generalize (Qmax 0 (match speed_m_s x with Val v => v | _ => 0 end * 3.6 - 50)),
      (Qmax 0 (match speed_m_s y with Val v => v | _ => 0 end * 3.6 - 50)),
      (max_overspeed_spec l).
    intros a b c. rewrite !Q.max_assoc.
    apply Q.max_compat; [apply Q.max_comm | reflexivity].
  - now rewrite IH1.
Qed.

Lemma running_max_skip (es : list Event) (e : Event) (m : Q) :
  is_overspeed e = false -> running_max (es ++ [e]) m = running_max es m.
Proof.
  intros H. unfold running_max. rewrite fold_left_app. cbn [fold_left].
  now rewrite H.
Qed.

(** ** Order and growth of the events *)

#[export] Instance first_reached_Proper :
  Proper (Qeq ==> eq ==> eq ==> eq) first_reached.
Proof.
  intros x y H levels ? <- default ? <-.
  induction levels as [|[level threshold] levels IH]; cbn [first_reached].
  - reflexivity.
  - now rewrite (Qleb_comp _ _ (Qeq_refl _) _ _ H), IH.
Qed.

Lemma events_part_Permutation (t : TripData) (es es' : list Event) :
  Permutation es es' -> events_part t es == events_part t es'.
Proof.
  intros H. unfold events_part.
  apply Qopp_comp, min_Proper; [|reflexivity].
  rewrite (deductions_from _ _ 0.0), (deductions_from _ (tally (map event_key es') []) 0.0).
  apply Qplus_comp; [reflexivity|].
  apply deductions_Permutation, tally_Permutation. now apply Permutation_map.
Qed.

Lemma overspeed_part_Permutation (es es' : list Event) :
  Permutation es es' -> overspeed_part es == overspeed_part es'.
Proof.
  intros H. unfold overspeed_part.
  apply Qopp_comp, min_Proper; [|reflexivity].
  apply Qmult_comp; [|reflexivity].
  rewrite !running_max_0. now apply max_overspeed_spec_Permutation.
Qed.

(** One more event, of any type, never lowers the events deduction. *)
Lemma events_part_snoc (t : TripData) (es : list Event) (e : Event) :
  events_part t (es ++ [e]) <= events_part t es.
Proof.
  pose proof (distance_km_ge_1 t) as Hd.
  unfold events_part. rewrite map_app. cbn [map]. rewrite tally_snoc.
  apply Qopp_le_compat, min_le_compat; [|lra].
  rewrite deductions_set_incr by lra.
  pose proof (deduction_nonneg (distance_km_of t) (event_key e) 1 ltac:(lra) ltac:(lia)).
  lra.
Qed.

Lemma overspeed_part_snoc (es : list Event) (e : Event) :
  is_overspeed e = false -> overspeed_part (es ++ [e]) = overspeed_part es.
Proof. intros H. unfold overspeed_part. now rewrite running_max_skip. Qed.

Lemma recommendations_spec_Proper (counts counts' : dict Z) (mo mo' dkm : Q) :
  (forall k, Dict.get counts k 0%Z = Dict.get counts' k 0%Z) ->
  mo == mo' ->
  recommendations_spec counts mo dkm = recommendations_spec counts' mo' dkm.
Proof.
  intros Hc Hm.
  unfold recommendations_spec, generated, rule_hard_brake, rule_harsh_accel,
    rule_overspeed, rule_unsafe_curve.
  rewrite !Hc.
  now rewrite (Qlt_bool_Proper _ _ (Qeq_refl 5) _ _ Hm),
    (Qlt_bool_Proper _ _ (Qeq_refl 20) _ _ Hm).
Qed.

Lemma final_score_Permutation (t : TripData) (es es' : list Event) (ds : list Detection) :
  Permutation es es' -> final_score_of t es ds == final_score_of t es' ds.
Proof.
  intros H. unfold final_score_of. apply clamp_Proper.
  now rewrite (events_part_Permutation t _ _ H), (overspeed_part_Permutation _ _ H).
Qed.

Lemma score_of_locals (t : TripData) (es : list Event) (ds : list Detection) :
  score (result_of (locals_of t es ds)) = Py.round (final_score_of t es ds).
Proof. reflexivity. Qed.

Lemma result_of_locals (t : TripData) (es : list Event) (ds : list Detection) :
  result_of (locals_of t es ds)
  = {| score := Py.round (final_score_of t es ds);
       risk_level :=
         first_reached (final_score_of t es ds)
           (Py.sorted_desc (Dict.items RISK_THRESHOLDS)) "high";
       grade :=
         first_reached (final_score_of t es ds)
           (Py.sorted_desc (Dict.items GRADE_THRESHOLDS)) "F";
       issues :=
         (count_issues (tally (map event_key es) [])
          ++ (if Qlt_bool 10 (running_max es 0.0) then
                [("Max speed exceeded limit by "
                  ++ Py.format_0f (running_max es 0.0) ++ " km/h")%string]
              else []))%list;
       recommendations :=
         recommendations_spec (tally (map event_key es) [])
           (running_max es 0.0) (distance_km_of t);
       breakdown :=
         [("base", Py.round1 100.0);
          ("events", Py.round1 (events_part t es));
          ("overspeed", Py.round1 (overspeed_part es));
          ("sign_compliance", Py.round1 (sign_part ds))] |}.
Proof.
  unfold result_of, locals_of, final_score_of, Dict.map_values.
  cbn [map fst snd loc_final_score loc_risk_level loc_grade loc_issues
       loc_recommendations loc_breakdown].
  reflexivity.
Qed.

(** ** Detections *)

Lemma limits_of_app (ds ds' : list Detection) :
  limits_of (ds ++ ds') = (limits_of ds ++ limits_of ds')%list.
Proof. unfold limits_of. apply flat_map_app. Qed.

Lemma limits_of_filter (ds : list Detection) :
  limits_of ds = limits_of (filter speed_limit_class ds).
Proof.
  unfold limits_of, speed_limit_class.
  induction ds as [|d ds IH]; cbn [flat_map filter]; [reflexivity|].
  destruct (limit_of d) eqn:E; cbn [flat_map app]; [rewrite E|]; now rewrite IH.
Qed.

Lemma limit_of_class (d d' : Detection) :
  sign_class d = sign_class d' -> limit_of d = limit_of d'.
Proof. intros H. unfold limit_of. now rewrite H. Qed.

Lemma limits_of_classes (ds ds' : list Detection) :
  map sign_class ds = map sign_class ds' -> limits_of ds = limits_of ds'.
Proof.
  revert ds'. induction ds as [|d ds IH]; intros [|d' ds'] H;
    try discriminate; [reflexivity|].
  cbn [map] in H. injection H as Hd Hds.
  unfold limits_of. cbn [flat_map].
  rewrite (limit_of_class d d' Hd). f_equal. now apply IH.
Qed.

Lemma malformed_limit_None (d : Detection) :
  malformed_limit d = true -> limit_of d = None.
Proof.
  unfold malformed_limit, limit_of. cbv zeta.
  destruct (Py.contains _ _); [|reflexivity]. cbn [andb].
  destruct (Py.last_item _); [|reflexivity].
  destruct (Py.int _); [discriminate | reflexivity].
Qed.

(** The detections reach the result through [limits_of] alone. *)
Lemma score_trip_limits (t : TripData) (es : list Event) (ds ds' : list Detection) :
  limits_of ds = limits_of ds' -> score_trip t es ds = score_trip t es ds'.
Proof.
  intros H. rewrite !score_trip_eq, !result_of_locals.
  unfold final_score_of, sign_part. now rewrite H.
Qed.

(** ** Absent and [None] numbers *)

Lemma get_or_0_or_zero (f : field Q) : Py.get_or_0 (or_zero f) = Py.get_or_0 f.
Proof. destruct f; reflexivity. Qed.

Lemma running_max_zero_filled (es : list Event) (m : Q) :
  running_max (map zero_filled_event es) m = running_max es m.
Proof.
  unfold running_max. revert m.
  induction es as [|e es IH]; intros m; cbn [map fold_left]; [reflexivity|].
  rewrite IH. unfold is_overspeed, overspeed_amount, event_key, zero_filled_event.
  cbn [event_type speed_m_s]. now rewrite get_or_0_or_zero.
Qed.

Lemma event_key_zero_filled (es : list Event) :
  map event_key (map zero_filled_event es) = map event_key es.
Proof. rewrite map_map. apply map_ext. reflexivity. Qed.

Lemma locals_zero_filled (t : TripData) (es : list Event) (ds : list Detection) :
  locals_of (zero_filled_trip t) (map zero_filled_event es) ds = locals_of t es ds.
Proof.
  unfold locals_of, events_part, overspeed_part, distance_km_of, zero_filled_trip.
  cbn [distance_m duration_seconds].
  now rewrite !get_or_0_or_zero, !event_key_zero_filled, !running_max_zero_filled.
Qed.

Lemma unrecognized_penalty (k : string) :
  unrecognized k = true -> Dict.get EVENT_PENALTIES k 2.0 = 2.0.
Proof.
  unfold unrecognized, Dict.get. destruct (Dict.lookup _ _); [discriminate | reflexivity].
Qed.

Lemma unrecognized_no_issue (k : string) (c : Z) :
  unrecognized k = true -> issue_of k c = [].
Proof.
  unfold unrecognized, issue_of, EVENT_PENALTIES. cbn [Dict.lookup].
  rewrite !(String.eqb_sym k).
  repeat (destruct (String.eqb _ k); [discriminate|]). reflexivity.
Qed.

(** * Lemmas on [int] and [float] *)

(** [int] on text that is more than ASCII digits: the unit separator is
    no white space for it, the fullwidth digits are digits, a no-break
    space is white space, one underscore may stand between two digits;
    and what the scorer makes of two such classes. *)
Example int_of_unicode_text :
  Py.int ("60" ++ String (ascii_of_nat 31) "") = Raise ValueError
  /\ Py.int (string_of_list_ascii
               (map ascii_of_nat [239; 188; 150; 239; 188; 144]%nat))
     = Ok 60%Z
  /\ Py.int (" 6_0" ++ string_of_list_ascii (map ascii_of_nat [194; 160]%nat))
     = Ok 60%Z
  /\ Py.int "6__0" = Raise ValueError
  /\ limits_of [detection ("speed_limit_60" ++ String (ascii_of_nat 31) "") 0.9]
     = []
  /\ limits_of
       [detection
          ("speed_limit_"
           ++ string_of_list_ascii
                (map ascii_of_nat [239; 188; 150; 239; 188; 144]%nat)) 0.9]
     = [60%Z].
Proof. vm_compute. repeat split; reflexivity. Qed.

Lemma convert_speed_eq (events : list Numbers.EventDict) :
  foldM Numbers.convert_speed events tt
  = if forallb Numbers.speed_fits events then Ok tt else Raise OverflowError.
Proof.
  induction events as [|e events IH]; [reflexivity|].
  cbn [foldM forallb]. unfold Numbers.convert_speed at 1, Numbers.speed_fits at 1.
  destruct (String.eqb (Numbers.event_key e) "overspeed").
  - unfold times_float.
    destruct (Numbers.get_or_0 (Numbers.speed_m_s e)) as [n|x].
    + destruct (too_large (inject_Z n)); cbn [bind negb andb]; [reflexivity|].
      exact IH.
    + cbn [bind andb]. exact IH.
  - cbn [bind andb]. exact IH.
Qed.

Lemma numbers_score_trip_eq (trip : Numbers.TripDict)
    (events : list Numbers.EventDict) (ds : list Detection) :
  Numbers.score_trip trip events ds
  = if Numbers.in_float_range trip events then
      score_trip (Numbers.trip_values trip) (map Numbers.event_values events) ds
    else Raise OverflowError.
Proof.
  unfold Numbers.score_trip, Numbers.in_float_range, true_div,
    Numbers.quotient_fits.
  destruct (Numbers.get_or_0 (Numbers.distance_m trip)) as [n|x].
  - destruct (too_large (inject_Z n / inject_Z 1000)); cbn [bind negb andb];
      [reflexivity|].
    destruct (Numbers.get_or_0 (Numbers.duration_seconds trip)) as [m|y].
    + destruct (too_large (inject_Z m / inject_Z 60)); cbn [bind negb andb];
        [reflexivity|].
      rewrite convert_speed_eq. now destruct (forallb _ events).
    + cbn [bind andb]. rewrite convert_speed_eq. now destruct (forallb _ events).
  - cbn [bind andb].
    destruct (Numbers.get_or_0 (Numbers.duration_seconds trip)) as [m|y].
    + destruct (too_large (inject_Z m / inject_Z 60)); cbn [bind negb andb];
        [reflexivity|].
      rewrite convert_speed_eq. now destruct (forallb _ events).
    + cbn [bind andb]. rewrite convert_speed_eq. now destruct (forallb _ events).
Qed.

Lemma get_or_0_or_zero_number (f : field number) :
  Numbers.get_or_0 (Numbers.or_zero f) = Numbers.get_or_0 f.
Proof. destruct f; reflexivity. Qed.

Lemma values_or_zero (f : field number) :
  Numbers.values (Numbers.or_zero f) = or_zero (Numbers.values f).
Proof. destruct f; reflexivity. Qed.

Lemma in_float_range_zero_filled (trip : Numbers.TripDict)
    (events : list Numbers.EventDict) :
  Numbers.in_float_range (Numbers.zero_filled_trip trip)
    (map Numbers.zero_filled_event events)
  = Numbers.in_float_range trip events.
Proof.
  unfold Numbers.in_float_range, Numbers.zero_filled_trip.
  cbn [Numbers.distance_m Numbers.duration_seconds].
  rewrite !get_or_0_or_zero_number. f_equal.
  induction events as [|e events IH]; [reflexivity|].
  cbn [map forallb]. rewrite IH. f_equal.
  unfold Numbers.speed_fits, Numbers.zero_filled_event, Numbers.event_key.
  cbn [Numbers.event_type Numbers.speed_m_s].
  now rewrite get_or_0_or_zero_number.
Qed.

Lemma values_zero_filled (trip : Numbers.TripDict)
    (events : list Numbers.EventDict) :
  Numbers.trip_values (Numbers.zero_filled_trip trip)
  = zero_filled_trip (Numbers.trip_values trip)
  /\ map Numbers.event_values (map Numbers.zero_filled_event events)
     = map zero_filled_event (map Numbers.event_values events).
Proof.
  split.
  - unfold Numbers.trip_values, Numbers.zero_filled_trip, zero_filled_trip.
    cbn [Numbers.distance_m Numbers.duration_seconds distance_m duration_seconds].
    now rewrite !values_or_zero.
  - rewrite !map_map. apply map_ext. intros e.
    unfold Numbers.event_values, Numbers.zero_filled_event, zero_filled_event.
    cbn [Numbers.event_type Numbers.speed_m_s event_type speed_m_s].
    now rewrite values_or_zero.
Qed.

Lemma event_values_key (e : Numbers.EventDict) :
  event_key (Numbers.event_values e) = Numbers.event_key e.
Proof. reflexivity. Qed.

Lemma count_issues_set_unrecognized (d : dict Z) (k : string) (v : Z) :
  unrecognized k = true -> count_issues (Dict.set d k v) = count_issues d.
Proof.
  intros Hk. unfold count_issues.
  induction d as [|[k0 v0] d IH]; cbn [Dict.set flat_map fst snd].
  - rewrite (unrecognized_no_issue k v Hk). now destruct (0 <? v)%Z.
  - destruct (String.eqb_spec k0 k) as [-> | NE]; cbn [flat_map fst snd].
    + rewrite !(unrecognized_no_issue k _ Hk).
      now destruct (0 <? v)%Z, (0 <? v0)%Z.
    + now rewrite IH.
Qed.

Lemma unrecognized_key_not_overspeed (e : Event) :
  unrecognized (event_key e) = true -> is_overspeed e = false.
Proof.
  unfold is_overspeed, unrecognized, EVENT_PENALTIES. cbn [Dict.lookup].
  destruct (String.eqb "hard_brake" _); [discriminate|].
  destruct (String.eqb "harsh_accel" _); [discriminate|].
  rewrite (String.eqb_sym (event_key e)).
  destruct (String.eqb "overspeed" _); [discriminate | reflexivity].
Qed.

(** One more event of a type without a penalty of its own: the events
    contribution goes down by the default rate, 2.0 for each 100 km, as far
    as the cap allows, and the issues stay. *)
Lemma unrecognized_event_snoc (t : TripData) (es : list Event) (e : Event)
    (ds : list Detection) :
  unrecognized (event_key e) = true ->
  events_part t (es ++ [e])
  == Qmax (events_part t es - 2.0 * 100 / distance_km_of t) (-(40))
  /\ loc_issues (locals_of t (es ++ [e]) ds) = loc_issues (locals_of t es ds).
Proof.
  intros Hk. pose proof (distance_km_ge_1 t) as Hd. split.
  - unfold events_part. rewrite map_app. cbn [map]. rewrite tally_snoc.
    set (D := deductions (distance_km_of t) (tally (map event_key es) []) 0.0).
    assert (HD : 0 <= D).
    { unfold D. rewrite deductions_tally by lra.
      pose proof (unit_deductions_nonneg (distance_km_of t) (map event_key es)
                    ltac:(lra)).
      unfold deductions. cbn [fold_left]. lra. }
    assert (E : deductions (distance_km_of t)
                  (Dict.set (tally (map event_key es) []) (event_key e)
                     (Dict.get (tally (map event_key es) []) (event_key e) 0 + 1)%Z)
                  0.0
                == D + 2.0 * 100 / distance_km_of t).
    { rewrite deductions_set_incr by lra. unfold deduction. cbn [fst snd].
      rewrite (unrecognized_penalty _ Hk). fold D.
      change (inject_Z 1) with 1. field. lra. }
    assert (Hpos : 0 < 2.0 * 100 / distance_km_of t).
    { apply Qlt_shift_div_l; lra. }
    set (delta := 2.0 * 100 / distance_km_of t) in *.
    assert (E' : Py.min
                   (deductions (distance_km_of t)
                      (Dict.set (tally (map event_key es) []) (event_key e)
                         (Dict.get (tally (map event_key es) []) (event_key e) 0
                          + 1)%Z) 0.0) 40
                 == Py.min (D + delta) 40)
      by (apply min_Proper; [exact E | reflexivity]).
    rewrite E'.
    destruct (min_cases (D + delta) 40) as [[H1 ->] | [H1 ->]],
             (min_cases D 40) as [[H2 ->] | [H2 ->]].
    + symmetry. rewrite Q.max_r; lra.
    + symmetry. rewrite Q.max_r; lra.
    + lra.
    + symmetry. rewrite Q.max_l; lra.
  - unfold locals_of. cbn [loc_issues]. rewrite map_app. cbn [map].
    rewrite tally_snoc, (count_issues_set_unrecognized _ _ _ Hk).
    now rewrite (running_max_skip es e 0.0 (unrecognized_key_not_overspeed e Hk)).
Qed.

Lemma breakdown_events (t : TripData) (es : list Event) (ds : list Detection) :
  Dict.lookup (loc_breakdown (locals_of t es ds)) "events"
  = Some (events_part t es).
Proof. reflexivity. Qed.

Lemma unrecognized_speed_fits (e : Numbers.EventDict) :
  unrecognized (Numbers.event_key e) = true -> Numbers.speed_fits e = true.
Proof.
  intros Hk. unfold Numbers.speed_fits.
  pose proof (unrecognized_key_not_overspeed (Numbers.event_values e) Hk) as H.
  unfold is_overspeed in H. rewrite event_values_key in H. now rewrite H.
Qed.

Lemma in_float_range_snoc (trip : Numbers.TripDict)
    (events : list Numbers.EventDict) (e : Numbers.EventDict) :
  Numbers.in_float_range trip events = true ->
  Numbers.speed_fits e = true ->
  Numbers.in_float_range trip (events ++ [e]) = true.
Proof.
  unfold Numbers.in_float_range. intros H He.
  apply andb_prop in H as [H1 H2]. rewrite H1, forallb_app, H2.
  cbn [forallb]. now rewrite He.
Qed.

(** * The claims *)

(** ** C1: the score and the breakdown *)

(** C1, as stated, fails: the returned breakdown is rounded to one decimal
    after the score was computed.  For 79 km and one harsh acceleration the
    events contribution is -200/79 = -2.53..., hence the score 97; the
    returned breakdown has -2.5, from which the formula of the claim gives
    round(97.5) = 98. *)
Lemma score_differs_from_returned_breakdown :
  exists s,
    score_trip (trip_of_distance 79000) [event "harsh_accel"] [] = Ok s
    /\ score s = 97%Z
    /\ Dict.lookup (breakdown s) "events" = Some (-5 # 2)
    /\ score_of_breakdown (breakdown s) = 98%Z
    /\ score s <> score_of_breakdown (breakdown s).
Proof.
  eexists. split; [vm_compute; reflexivity|].
  cbn [score breakdown].
  assert (E : score_of_breakdown
                [("base", 100); ("events", -5 # 2); ("overspeed", 0);
                 ("sign_compliance", 0)] = 98%Z) by (vm_compute; reflexivity).
  rewrite E. repeat split. discriminate.
Qed.

(** C1, amended.  For every input the score is between 0 and 100 and is
    the rounding, to the nearest integer, of the clamping into [0, 100] of
    100 + events + overspeed + sign_compliance, these being the
    contributions before the returned breakdown rounds them to one
    decimal. *)
Theorem score_from_unrounded_breakdown
    (t : TripData) (es : list Event) (ds : list Detection) :
  exists loc s,
    score_trip_locals t es ds = Ok loc
    /\ score_trip t es ds = Ok s
    /\ (0 <= score s <= 100)%Z
    /\ score s = score_of_breakdown (loc_breakdown loc)
    /\ breakdown s = Dict.map_values Py.round1 (loc_breakdown loc).
Proof.
  exists (locals_of t es ds), (result_of (locals_of t es ds)).
  split; [apply score_trip_locals_eq|]. split; [apply score_trip_eq|].
  split; [apply round_clamp_bounds|]. split; [|reflexivity].
  unfold score_of_breakdown, result_of, locals_of.
  cbn [score loc_final_score loc_breakdown].
  apply round_Proper, clamp_Proper.
  unfold Dict.get. cbn [Dict.lookup String.eqb Ascii.eqb Bool.eqb]. lra.
Qed.

(** ** C2: no exception *)

(** C2, as stated, fails: an [int] that is too large for a float makes
    line 91 raise [OverflowError]. *)
Lemma score_trip_raises_overflow :
  Numbers.score_trip
    {| Numbers.distance_m := Val (Float 12000);
       Numbers.duration_seconds := Val (Int (10 ^ 400)) |}
    [{| Numbers.event_type := Some "hard_brake"; Numbers.speed_m_s := Absent |}]
    []
  = Raise OverflowError.
Proof. vm_compute. reflexivity. Qed.

(** C2, amended.  [score_trip] raises [OverflowError] when an [int] of the
    input is too large where it is turned into a float (the distance over
    1000, the duration over 60, the speed of an overspeed event), and
    nothing else; for every other input it returns a [SafetyScore].  Then
    an absent or [None] [distance_m], [duration_seconds] or [speed_m_s]
    counts as 0; a detection whose class holds [speed_limit_] and ends in
    a token that [int] rejects is ignored; and one more event of a type
    without a penalty of its own is returned too, with the events
    contribution lowered by the default rate of 2.0 for each 100 km, as
    far as the cap of 40 allows, and with the same issues. *)
Theorem score_trip_total (trip : Numbers.TripDict)
    (events : list Numbers.EventDict) (ds : list Detection) :
  (Numbers.in_float_range trip events = false ->
   Numbers.score_trip trip events ds = Raise OverflowError)
  /\ (Numbers.in_float_range trip events = true ->
      exists loc,
        score_trip_locals (Numbers.trip_values trip)
          (map Numbers.event_values events) ds = Ok loc
        /\ Numbers.score_trip trip events ds = Ok (result_of loc)
        /\ Numbers.score_trip (Numbers.zero_filled_trip trip)
             (map Numbers.zero_filled_event events) ds = Ok (result_of loc)
        /\ (forall ds1 d ds2,
              ds = (ds1 ++ d :: ds2)%list -> malformed_limit d = true ->
              Numbers.score_trip trip events (ds1 ++ ds2) = Ok (result_of loc))
        /\ (forall e,
              unrecognized (Numbers.event_key e) = true ->
              exists loc' b b',
                score_trip_locals (Numbers.trip_values trip)
                  (map Numbers.event_values (events ++ [e])) ds = Ok loc'
                /\ Numbers.score_trip trip (events ++ [e]) ds
                   = Ok (result_of loc')
                /\ Dict.lookup (loc_breakdown loc) "events" = Some b
                /\ Dict.lookup (loc_breakdown loc') "events" = Some b'
                /\ b' == Qmax (b - 2.0 * 100 / loc_distance_km loc) (-(40))
                /\ loc_issues loc' = loc_issues loc)).
Proof.
  split; intros Hr.
  { now rewrite numbers_score_trip_eq, Hr. }
  set (t := Numbers.trip_values trip).
  set (es := map Numbers.event_values events).
  exists (locals_of t es ds).
  split; [apply score_trip_locals_eq|].
  split; [now rewrite numbers_score_trip_eq, Hr, score_trip_eq|].
  split.
  { rewrite numbers_score_trip_eq, in_float_range_zero_filled, Hr.
    destruct (values_zero_filled trip events) as [-> ->].
    now rewrite score_trip_eq, locals_zero_filled. }
  split.
  { intros ds1 d ds2 -> Hd. rewrite numbers_score_trip_eq, Hr.
    rewrite <- (score_trip_eq t es). apply score_trip_limits.
    rewrite !limits_of_app. f_equal.
    change (d :: ds2) with ([d] ++ ds2)%list. rewrite limits_of_app.
    unfold limits_of at 2. cbn [flat_map].
    now rewrite (malformed_limit_None d Hd). }
  intros e Hk.
  exists (locals_of t (es ++ [Numbers.event_values e]) ds),
    (events_part t es), (events_part t (es ++ [Numbers.event_values e])).
  unfold es. rewrite map_app. cbn [map]. fold es.
  split; [apply score_trip_locals_eq|].
  split.
  { rewrite numbers_score_trip_eq,
      (in_float_range_snoc trip events e Hr (unrecognized_speed_fits e Hk)).
    rewrite map_app. cbn [map]. fold es t. apply score_trip_eq. }
  split; [apply breakdown_events|]. split; [apply breakdown_events|].
  apply (unrecognized_event_snoc t es (Numbers.event_values e) ds).
  now rewrite event_values_key.
Qed.

Lemma score_trip_total_witness :
  exists loc,
    Numbers.score_trip
      {| Numbers.distance_m := Val (Float 10000);
         Numbers.duration_seconds := Val (Int 600) |}
      [{| Numbers.event_type := Some "swerve"; Numbers.speed_m_s := Null |}]
      [detection "speed_limit_sixty" 0.9]
    = Ok (result_of loc)
    /\ score (result_of loc) = 80%Z
    /\ Numbers.score_trip
         {| Numbers.distance_m := Val (Float 10000);
            Numbers.duration_seconds := Val (Int 600) |}
         [{| Numbers.event_type := Some "swerve"; Numbers.speed_m_s := Null |}]
         ([] ++ [])
       = Ok (result_of loc).
Proof.
  destruct (proj2 (score_trip_total
                     {| Numbers.distance_m := Val (Float 10000);
                        Numbers.duration_seconds := Val (Int 600) |}
                     [{| Numbers.event_type := Some "swerve";
                         Numbers.speed_m_s := Null |}]
                     [detection "speed_limit_sixty" 0.9]) eq_refl)
    as (loc & Hloc & Hs & _ & Hmal & _).
  exists loc. split; [exact Hs|]. split.
  - vm_compute in Hloc. injection Hloc as <-. reflexivity.
  - exact (Hmal [] (detection "speed_limit_sixty" 0.9) [] eq_refl eq_refl).
Defined.

(** ** C3: the caps of the breakdown *)

(** C3. For every input the returned breakdown has an events contribution
    between -40 and 0, an overspeed contribution between -20 and 0, and a
    sign compliance contribution that is 0 or 5, and nothing else. *)
Theorem breakdown_caps (t : TripData) (es : list Event) (ds : list Detection) :
  exists s e o c,
    score_trip t es ds = Ok s
    /\ Dict.lookup (breakdown s) "events" = Some e
    /\ Dict.lookup (breakdown s) "overspeed" = Some o
    /\ Dict.lookup (breakdown s) "sign_compliance" = Some c
    /\ -40 <= e <= 0
    /\ -20 <= o <= 0
    /\ (c = 0 \/ c = 5).
Proof.
  rewrite score_trip_eq.
  exists (result_of (locals_of t es ds)),
    (Py.round1 (events_part t es)), (Py.round1 (overspeed_part es)),
    (Py.round1 (sign_part ds)).
  split; [reflexivity|]. do 3 (split; [reflexivity|]).
  split; [|split].
  - pose proof (events_part_bounds t es).
    pose proof (round1_between (-400) 0 (events_part t es)) as H1.
    change (inject_Z (-400)) with (-400 # 1) in H1.
    change (inject_Z 0) with (0 # 1) in H1. lra.
  - pose proof (overspeed_part_bounds es).
    pose proof (round1_between (-200) 0 (overspeed_part es)) as H1.
    change (inject_Z (-200)) with (-200 # 1) in H1.
    change (inject_Z 0) with (0 # 1) in H1. lra.
  - destruct (sign_part_cases ds) as [-> | ->]; [left | right]; reflexivity.
Qed.

(** ** C4: nothing recorded, nothing deducted *)

(** C4, as stated, fails for a duration that is an [int] too large for a
    float: line 91 raises [OverflowError]. *)
Lemma empty_trip_raises_overflow :
  Numbers.score_trip
    {| Numbers.distance_m := Absent;
       Numbers.duration_seconds := Val (Int (10 ^ 400)) |} [] []
  = Raise OverflowError.
Proof. vm_compute. reflexivity. Qed.

(** C4, amended.  For every trip summary, absent and [None] fields
    included, whose distance and duration are no [int] too large for a
    float, [score_trip(trip, [], [])] returns score 100, risk level low,
    grade A, no issue, and one recommendation, which ends in the text of
    the positive reinforcement message. *)
Theorem empty_trip_is_perfect (trip : Numbers.TripDict) :
  Numbers.in_float_range trip [] = true ->
  exists s mark,
    Numbers.score_trip trip [] [] = Ok s
    /\ score s = 100%Z
    /\ risk_level s = "low"
    /\ grade s = "A"
    /\ issues s = []
    /\ recommendations s = [mark ++ EXCELLENT_TEXT].
Proof.
  intros Hr. rewrite numbers_score_trip_eq, Hr, score_trip_eq.
  eexists. exists (substring 0 8 MSG_EXCELLENT). split; [reflexivity|].
  unfold result_of, locals_of. cbn [score risk_level grade issues recommendations
    loc_final_score loc_risk_level loc_grade loc_issues loc_recommendations map].
  repeat split; reflexivity.
Qed.

Lemma empty_trip_is_perfect_witness :
  exists s mark,
    Numbers.score_trip
      {| Numbers.distance_m := Val (Float 5000);
         Numbers.duration_seconds := Null |} [] [] = Ok s
    /\ score s = 100%Z
    /\ risk_level s = "low"
    /\ grade s = "A"
    /\ issues s = []
    /\ recommendations s = [mark ++ EXCELLENT_TEXT].
Proof.
  apply (empty_trip_is_perfect
           {| Numbers.distance_m := Val (Float 5000);
              Numbers.duration_seconds := Null |}).
  reflexivity.
Defined.

(** The message of the source starts with eight bytes that are the UTF-8
    of the four characters which the bytes of the emoji U+1F31F are in
    the code page 1252: the emoji of the message is stored encoded
    twice. *)
Remark excellent_message_mark :
  MSG_EXCELLENT
  = string_of_list_ascii
      (map ascii_of_nat [195; 176; 197; 184; 197; 146; 197; 184]%nat)
    ++ EXCELLENT_TEXT
  /\ MSG_EXCELLENT <> GLOWING_STAR ++ EXCELLENT_TEXT.
Proof. split; [reflexivity | discriminate]. Qed.

(** ** C5: six hard brakes in ten kilometres *)

(** C5. For the trip [{distance_m: 10000}] with six [hard_brake] events and
    no detection, the raw events deduction is 180 and is capped: the
    breakdown has events = -40, the score is 60, the grade D, the risk
    level medium, the issues hold "Hard braking: 6 times" and the
    recommendations hold the message on the following distance. *)
Theorem scenario_six_hard_brakes :
  exists loc s,
    score_trip_locals (trip_of_distance 10000) (repeat (event "hard_brake") 6) []
      = Ok loc
    /\ score_trip (trip_of_distance 10000) (repeat (event "hard_brake") 6) []
      = Ok s
    /\ deductions (loc_distance_km loc) (loc_event_counts loc) 0.0 == 180
    /\ Dict.lookup (breakdown s) "events" = Some (-40)
    /\ score s = 60%Z
    /\ grade s = "D"
    /\ risk_level s = "medium"
    /\ In "Hard braking: 6 times" (issues s)
    /\ In MSG_FOLLOWING_DISTANCE (recommendations s).
Proof.
  do 2 eexists. split; [vm_compute; reflexivity|].
  split; [vm_compute; reflexivity|].
  cbn [loc_distance_km loc_event_counts breakdown score grade risk_level issues
       recommendations].
  repeat split; try reflexivity; left; reflexivity.
Qed.

(** ** C6: the overspeed severity *)

(** C6, as stated, fails for the returned breakdown, which is rounded to
    one decimal: at 14.125 m/s the excess is 0.85 km/h and the deduction
    0.425, and the breakdown returned has overspeed = -0.4. *)
Lemma returned_overspeed_is_rounded :
  exists loc s,
    score_trip_locals (trip_of_distance 10000) [overspeed_at 14.125] [] = Ok loc
    /\ score_trip (trip_of_distance 10000) [overspeed_at 14.125] [] = Ok s
    /\ loc_max_overspeed_kmh loc == 0.85
    /\ Dict.lookup (breakdown s) "overspeed" = Some (- (2 # 5))
    /\ ~ - (2 # 5) == - Qmin (loc_max_overspeed_kmh loc * 0.5) 20.
Proof.
  do 2 eexists. split; [vm_compute; reflexivity|].
  split; [vm_compute; reflexivity|].
  cbn [loc_max_overspeed_kmh breakdown].
  split; [reflexivity|]. split; [reflexivity|]. vm_compute. discriminate.
Qed.

(** C6, amended.  For every input [max_overspeed_kmh] is the maximum, over
    the events of type overspeed, of max(0, speed_m_s * 3.6 - 50), and 0
    when there is none; the overspeed contribution is
    -min(max_overspeed_kmh * 0.5, 20) before the returned breakdown rounds
    it to one decimal.  For the trip [{distance_m: 10000}] with one
    overspeed event at 25 m/s the returned breakdown has overspeed = -20
    and the issues hold "Max speed exceeded limit by 40 km/h". *)
Theorem overspeed_severity :
  (forall (t : TripData) (es : list Event) (ds : list Detection),
      exists loc s o,
        score_trip_locals t es ds = Ok loc
        /\ score_trip t es ds = Ok s
        /\ loc_max_overspeed_kmh loc == max_overspeed_spec es
        /\ Dict.lookup (loc_breakdown loc) "overspeed" = Some o
        /\ o == - Qmin (loc_max_overspeed_kmh loc * 0.5) 20
        /\ Dict.lookup (breakdown s) "overspeed" = Some (Py.round1 o))
  /\ (exists s,
        score_trip (trip_of_distance 10000) [overspeed_at 25] [] = Ok s
        /\ Dict.lookup (breakdown s) "overspeed" = Some (-20)
        /\ In "Max speed exceeded limit by 40 km/h" (issues s)).
Proof.
  split.
  - intros t es ds.
    exists (locals_of t es ds), (result_of (locals_of t es ds)), (overspeed_part es).
    split; [apply score_trip_locals_eq|]. split; [apply score_trip_eq|].
    split; [apply running_max_0|]. split; [reflexivity|]. split; [|reflexivity].
    unfold overspeed_part, locals_of, OVERSPEED_PENALTY_PER_KMH.
    cbn [loc_max_overspeed_kmh].
    apply Qopp_comp.
    destruct (min_cases (running_max es 0.0 * 0.5) 20) as [[? ->] | [? ->]].
    + symmetry. apply Q.min_r. lra.
    + symmetry. apply Q.min_l. lra.
  - eexists. split; [vm_compute; reflexivity|].
    cbn [breakdown issues]. split; [reflexivity|]. right. left. reflexivity.
Qed.

(** ** C7: one more hard brake *)

(** C7. With the trip summary and the detections fixed, appending one more
    [hard_brake] event to the events never increases the score. *)
Theorem one_more_hard_brake
    (t : TripData) (es : list Event) (ds : list Detection) (hb : Event) :
  event_type hb = Some "hard_brake" ->
  exists s s',
    score_trip t es ds = Ok s
    /\ score_trip t (es ++ [hb]) ds = Ok s'
    /\ (score s' <= score s)%Z.
Proof.
  intros Hhb.
  assert (Hno : is_overspeed hb = false)
    by (unfold is_overspeed, event_key; now rewrite Hhb).
  assert (Hle : final_score_of t (es ++ [hb]) ds <= final_score_of t es ds).
  { unfold final_score_of. apply clamp_le_compat.
    rewrite (overspeed_part_snoc es hb Hno).
    pose proof (events_part_snoc t es hb). lra. }
  exists (result_of (locals_of t es ds)),
    (result_of (locals_of t (es ++ [hb]) ds)).
  rewrite !score_trip_eq, !score_of_locals.
  repeat split. now apply round_le_compat.
Qed.

Lemma one_more_hard_brake_witness :
  exists s s',
    score_trip (trip_of_distance 10000) [event "overspeed"] [] = Ok s
    /\ score_trip (trip_of_distance 10000)
         ([event "overspeed"] ++ [event "hard_brake"]) [] = Ok s'
    /\ (score s' <= score s)%Z.
Proof.
  exact (one_more_hard_brake (trip_of_distance 10000)
           [event "overspeed"] [] (event "hard_brake") eq_refl).
Defined.

(** ** C8: the order of the events *)

(** C8, as stated, fails: the issues are listed in the order in which the
    event types first occur. *)
Lemma issues_follow_first_occurrence :
  Permutation [event "hard_brake"; event "harsh_accel"]
    [event "harsh_accel"; event "hard_brake"]
  /\ score_trip (trip_of_distance 10000)
       [event "hard_brake"; event "harsh_accel"] []
     <> score_trip (trip_of_distance 10000)
          [event "harsh_accel"; event "hard_brake"] [].
Proof.
  split; [apply perm_swap|]. vm_compute. discriminate.
Qed.

(** C8, amended.  For every input and every permutation of the events, the
    trip summary and the detections unchanged, [score_trip] returns the same
    recommendations and the same issues in a possibly different order, and,
    the deductions being summed exactly as they are here, the same score,
    risk level, grade and breakdown.  (What binary64 makes of the sum is in
    [binary64_grade_follows_order] below.) *)
Theorem events_order_irrelevant
    (t : TripData) (es es' : list Event) (ds : list Detection) :
  Permutation es es' ->
  exists s s',
    score_trip t es ds = Ok s
    /\ score_trip t es' ds = Ok s'
    /\ score s = score s'
    /\ risk_level s = risk_level s'
    /\ grade s = grade s'
    /\ recommendations s = recommendations s'
    /\ breakdown s = breakdown s'
    /\ Permutation (issues s) (issues s').
Proof.
  intros H.
  exists (result_of (locals_of t es ds)), (result_of (locals_of t es' ds)).
  rewrite !score_trip_eq.
  pose proof (final_score_Permutation t es es' ds H) as Hf.
  pose proof (Permutation_map event_key H) as Hk.
  assert (Hm : running_max es 0.0 == running_max es' 0.0)
    by (rewrite !running_max_0; now apply max_overspeed_spec_Permutation).
  do 2 (split; [reflexivity|]).
  rewrite !result_of_locals.
  cbn [score risk_level grade recommendations breakdown issues].
  split; [now rewrite Hf|]. split; [now rewrite Hf|]. split; [now rewrite Hf|].
  split; [|split].
  - apply recommendations_spec_Proper; [|exact Hm].
    intros k. rewrite !get_tally. now apply occurrences_Permutation.
  - now rewrite (round1_Proper _ _ (events_part_Permutation t _ _ H)),
      (round1_Proper _ _ (overspeed_part_Permutation _ _ H)).
  - apply Permutation_app.
    + apply Permutation_flat_map. now apply tally_Permutation.
    + rewrite (Qlt_bool_Proper _ _ (Qeq_refl 10) _ _ Hm).
      unfold Py.format_0f. now rewrite (round_Proper _ _ Hm).
Qed.

Lemma events_order_irrelevant_witness :
  exists s s',
    score_trip (trip_of_distance 10000)
      [event "hard_brake"; event "harsh_accel"] [] = Ok s
    /\ score_trip (trip_of_distance 10000)
      [event "harsh_accel"; event "hard_brake"] [] = Ok s'
    /\ score s = score s'
    /\ risk_level s = risk_level s'
    /\ grade s = grade s'
    /\ recommendations s = recommendations s'
    /\ breakdown s = breakdown s'
    /\ Permutation (issues s) (issues s').
Proof.
  apply events_order_irrelevant. apply perm_swap.
Defined.

(** In binary64 the order of the additions shows in the last bit of the
    sum: the same thirteen events give 10.000000000000007 or
    10.000000000000009, a final score of 90.0 or 89.99999999999999, and
    the grade A or B. *)
Lemma binary64_grade_follows_order :
  Permutation events_curves_first events_swerves_second
  /\ Binary64.grade distance_335km_less events_curves_first = "A"
  /\ Binary64.grade distance_335km_less events_swerves_second = "B".
Proof.
  split.
  - unfold events_curves_first, events_swerves_second.
    apply Permutation_app_head, Permutation_app_comm.
  - split; vm_compute; reflexivity.
Qed.

(** ** C9: what the detections are read for *)

(** C9. Two calls whose detections differ only in confidence values and in
    detections whose class is not a speed limit class (one that holds
    [speed_limit_] and ends in an integer) return the same result. *)
Theorem detections_read_for_limit_classes
    (t : TripData) (es : list Event) (ds ds' : list Detection) :
  map sign_class (filter speed_limit_class ds)
  = map sign_class (filter speed_limit_class ds') ->
  score_trip t es ds = score_trip t es ds'.
Proof.
  intros H. apply score_trip_limits.
  rewrite (limits_of_filter ds), (limits_of_filter ds').
  now apply limits_of_classes.
Qed.

Lemma detections_read_for_limit_classes_witness :
  score_trip (trip_of_distance 10000) [event "hard_brake"]
    [detection "speed_limit_60" 0.9; detection "stop" 0.8]
  = score_trip (trip_of_distance 10000) [event "hard_brake"]
      [detection "yield" 0.5; detection "speed_limit_60" 0.2;
       detection "speed_limit_sign" 0.7].
Proof.
  apply detections_read_for_limit_classes. reflexivity.
Defined.

(** Of the 43 class names of [GTSRB_CLASSES], those that the scorer reads a
    limit from are the classes 0 to 8, [end_speed_limit_80] among them, and
    all of them are speed limit signs for [is_speed_limit_sign]. *)
Lemma gtsrb_limit_classes :
  map fst
    (filter (fun entry => speed_limit_class (detection (snd entry) 1))
       SignClasses.GTSRB_CLASSES)
  = [0; 1; 2; 3; 4; 5; 6; 7; 8]%Z
  /\ forallb
       (fun entry =>
          implb (speed_limit_class (detection (snd entry) 1))
            (SignClasses.is_speed_limit_sign (fst entry)))
       SignClasses.GTSRB_CLASSES = true.
Proof. split; vm_compute; reflexivity. Qed.

(** ** C10: the recommendations *)

(** C10. The recommendations are the first three of the messages that the
    rules generate, the rules taken in the order hard brake, harsh
    acceleration, overspeed, unsafe curve, so that the unsafe curve message
    is dropped when all four fire; they are the positive reinforcement
    message alone when no rule generates one; there are between one and
    three of them.  This holds of [_generate_recommendations] for every
    positive distance, and [score_trip] calls it with a distance of 1 km
    or more and returns its list. *)
Theorem recommendations_rules :
  (forall (counts : dict Z) (mo dkm : Q),
      0 < dkm ->
      exists recs,
        _generate_recommendations counts mo dkm = Ok recs
        /\ (1 <= List.length recs <= 3)%nat
        /\ (generated counts mo dkm <> [] ->
            recs = firstn 3 (generated counts mo dkm))
        /\ (generated counts mo dkm = [] -> recs = [MSG_EXCELLENT])
        /\ (forall m1 m2 m3 m4,
              generated counts mo dkm = [m1; m2; m3; m4] ->
              recs = [m1; m2; m3]))
  /\ (forall (t : TripData) (es : list Event) (ds : list Detection),
        exists loc s,
          score_trip_locals t es ds = Ok loc
          /\ score_trip t es ds = Ok s
          /\ 1 <= loc_distance_km loc
          /\ _generate_recommendations (loc_event_counts loc)
               (loc_max_overspeed_kmh loc) (loc_distance_km loc)
             = Ok (recommendations s)).
Proof.
  split.
  - intros counts mo dkm Hd.
    exists (recommendations_spec counts mo dkm).
    split; [now apply generate_recommendations_eq|].
    unfold recommendations_spec.
    set (messages := generated counts mo dkm).
    split; [|split; [|split]].
    + unfold messages, generated, message.
      destruct (rule_hard_brake _ _), (rule_harsh_accel _ _),
        (rule_overspeed _ _), (rule_unsafe_curve _); cbn; lia.
    + destruct messages; [congruence | reflexivity].
    + now intros ->.
    + now intros m1 m2 m3 m4 ->.
  - intros t es ds.
    exists (locals_of t es ds), (result_of (locals_of t es ds)).
    split; [apply score_trip_locals_eq|]. split; [apply score_trip_eq|].
    pose proof (distance_km_ge_1 t) as Hd.
    split; [exact Hd|].
    unfold result_of, locals_of.
    cbn [recommendations loc_recommendations loc_event_counts
         loc_max_overspeed_kmh loc_distance_km].
    apply generate_recommendations_eq. lra.
Qed.

Lemma recommendations_rules_witness :
  exists recs,
    _generate_recommendations
      [("hard_brake", 1%Z); ("harsh_accel", 1%Z); ("overspeed", 1%Z);
       ("unsafe_curve", 1%Z)] 0 1 = Ok recs
    /\ recs
       = [MSG_FOLLOWING_DISTANCE; MSG_SMOOTH_ACCELERATION; MSG_WATCH_SPEED].
Proof.
  destruct (proj1 recommendations_rules
              [("hard_brake", 1%Z); ("harsh_accel", 1%Z); ("overspeed", 1%Z);
               ("unsafe_curve", 1%Z)] 0 1 eq_refl)
    as (recs & Hgen & _ & _ & _ & Hfour).
  exists recs. split; [exact Hgen|].
  exact (Hfour _ _ _ MSG_SLOW_BEFORE_CURVES eq_refl).
Defined.

(** * Further properties of the scorer *)

(** ** Helpers *)

Lemma clamp_fix (x : Q) : 0 <= x <= 100 -> clamp x == x.
Proof.
  intros [H0 H100]. unfold clamp.
  destruct (min_cases 100 x) as [[? ->] | [? ->]].
  - destruct (max_cases 0 x) as [[? ->] | [? ->]]; lra.
  - destruct (max_cases 0 100) as [[? ->] | [? ->]]; lra.
Qed.

Lemma round_ge (n : Z) (x : Q) : inject_Z n <= x -> (n <= Py.round x)%Z.
Proof. intros H. rewrite <- (round_inject_Z n). now apply round_le_compat. Qed.

Lemma round_le (n : Z) (x : Q) : x <= inject_Z n -> (Py.round x <= n)%Z.
Proof. intros H. rewrite <- (round_inject_Z n). now apply round_le_compat. Qed.

(** A value rounded to [n] or more is at least [n - 1/2]. *)
Lemma round_ge_inv (n : Z) (x : Q) :
  (n <= Py.round x)%Z -> inject_Z n - (1 # 2) <= x.
Proof.
  intros H. pose proof (Qfloor_le x) as Hf. pose proof (Qlt_floor x) as Hc.
  unfold Py.round in H.
  destruct (Qlt_bool_spec (x - inject_Z (Qfloor x)) (1 # 2)) as [Hlt | Hge].
  - rewrite Zle_Qle in H. lra.
  - assert (Hn : (n <= Qfloor x + 1)%Z).
    { destruct (Qlt_bool (1 # 2) (x - inject_Z (Qfloor x))); [exact H|].
      destruct (Z.even (Qfloor x)); lia. }
    rewrite Zle_Qle, inject_Z_plus in Hn.
    change (inject_Z 1) with 1 in Hn. lra.
Qed.

(** A value rounded to [n] or less is at most [n + 1/2]. *)
Lemma round_le_inv (n : Z) (x : Q) :
  (Py.round x <= n)%Z -> x <= inject_Z n + (1 # 2).
Proof.
  intros H. pose proof (Qfloor_le x) as Hf. pose proof (Qlt_floor x) as Hc.
  rewrite inject_Z_plus in Hc. change (inject_Z 1) with 1 in Hc.
  unfold Py.round in H.
  destruct (Qlt_bool_spec (x - inject_Z (Qfloor x)) (1 # 2)) as [Hlt | Hge].
  - rewrite Zle_Qle in H. lra.
  - destruct (Qlt_bool_spec (1 # 2) (x - inject_Z (Qfloor x))) as [Hgt | Hle].
    + rewrite Zle_Qle, inject_Z_plus in H. change (inject_Z 1) with 1 in H. lra.
    + assert (Hn : (Qfloor x <= n)%Z) by (destruct (Z.even (Qfloor x)); lia).
      rewrite Zle_Qle in Hn. lra.
Qed.

Lemma final_score_bounds (t : TripData) (es : list Event) (ds : list Detection) :
  40 <= final_score_of t es ds <= 100.
Proof.
  unfold final_score_of. split; [|apply clamp_bounds].
  pose proof (events_part_bounds t es). pose proof (overspeed_part_bounds es).
  assert (0 <= sign_part ds) by (destruct (sign_part_cases ds) as [-> | ->]; lra).
  assert (E : clamp 40 == 40) by (apply clamp_fix; lra).
  rewrite <- E. apply clamp_le_compat. lra.
Qed.

(** The thresholds, greatest first, as the two loops read them. *)
Lemma risk_levels_sorted :
  Py.sorted_desc (Dict.items RISK_THRESHOLDS)
  = [("low", 80); ("medium", 60); ("high", 0)]%Z.
Proof. reflexivity. Qed.

Lemma grade_levels_sorted :
  Py.sorted_desc (Dict.items GRADE_THRESHOLDS)
  = [("A", 90); ("B", 80); ("C", 70); ("D", 60); ("F", 0)]%Z.
Proof. reflexivity. Qed.

Lemma Qle_bool_spec (x y : Q) : reflect (x <= y) (Qle_bool x y).
Proof.
  destruct (Qle_bool x y) eqn:E; constructor.
  - now apply Qle_bool_iff.
  - intros H. apply Qle_bool_iff in H. congruence.
Qed.

(** The grade and the risk level of a final score between 0 and 100. *)
Lemma grade_of_final (fs : Q) :
  0 <= fs ->
  (90 <= fs /\ first_reached fs (Py.sorted_desc (Dict.items GRADE_THRESHOLDS)) "F" = "A")
  \/ (80 <= fs < 90 /\ first_reached fs (Py.sorted_desc (Dict.items GRADE_THRESHOLDS)) "F" = "B")
  \/ (70 <= fs < 80 /\ first_reached fs (Py.sorted_desc (Dict.items GRADE_THRESHOLDS)) "F" = "C")
  \/ (60 <= fs < 70 /\ first_reached fs (Py.sorted_desc (Dict.items GRADE_THRESHOLDS)) "F" = "D")
  \/ (fs < 60 /\ first_reached fs (Py.sorted_desc (Dict.items GRADE_THRESHOLDS)) "F" = "F").
Proof.
  intros H0. rewrite grade_levels_sorted. cbn [first_reached].
  change (inject_Z 90) with 90. change (inject_Z 80) with 80.
  change (inject_Z 70) with 70. change (inject_Z 60) with 60.
  change (inject_Z 0) with 0.
  destruct (Qle_bool_spec 90 fs); [left; split; [lra | reflexivity]|].
  destruct (Qle_bool_spec 80 fs); [right; left; split; [lra | reflexivity]|].
  destruct (Qle_bool_spec 70 fs); [right; right; left; split; [lra | reflexivity]|].
  destruct (Qle_bool_spec 60 fs); [right; right; right; left; split; [lra | reflexivity]|].
  right; right; right; right. split; [lra|].
  destruct (Qle_bool_spec 0 fs); reflexivity.
Qed.

Lemma risk_of_final (fs : Q) :
  0 <= fs ->
  (80 <= fs /\ first_reached fs (Py.sorted_desc (Dict.items RISK_THRESHOLDS)) "high" = "low")
  \/ (60 <= fs < 80 /\ first_reached fs (Py.sorted_desc (Dict.items RISK_THRESHOLDS)) "high" = "medium")
  \/ (fs < 60 /\ first_reached fs (Py.sorted_desc (Dict.items RISK_THRESHOLDS)) "high" = "high").
Proof.
  intros H0. rewrite risk_levels_sorted. cbn [first_reached].
  change (inject_Z 80) with 80. change (inject_Z 60) with 60.
  change (inject_Z 0) with 0.
  destruct (Qle_bool_spec 80 fs); [left; split; [lra | reflexivity]|].
  destruct (Qle_bool_spec 60 fs); [right; left; split; [lra | reflexivity]|].
  right; right. split; [lra|]. destruct (Qle_bool_spec 0 fs); reflexivity.
Qed.

(** ** The range of the score *)

(** X1. The caps leave at least 40 points: the score is between 40 and 100 for
    every input, and 45 or more when a speed limit was read from a
    detection. *)
Theorem score_at_least_40 (t : TripData) (es : list Event) (ds : list Detection) :
  exists s,
    score_trip t es ds = Ok s
    /\ (40 <= score s <= 100)%Z
    /\ (limits_of ds <> [] -> (45 <= score s)%Z).
Proof.
  exists (result_of (locals_of t es ds)).
  split; [apply score_trip_eq|]. rewrite score_of_locals.
  pose proof (final_score_bounds t es ds) as [H40 H100].
  split; [split; [now apply round_ge | now apply round_le]|].
  intros Hl. apply round_ge. unfold final_score_of.
  pose proof (events_part_bounds t es). pose proof (overspeed_part_bounds es).
  assert (Hs : sign_part ds = 5.0)
    by (unfold sign_part; destruct (limits_of ds); [contradiction | reflexivity]).
  rewrite Hs.
  assert (E : clamp 45 == 45) by (apply clamp_fix; lra).
  change (inject_Z 45) with 45. rewrite <- E. apply clamp_le_compat. lra.
Qed.

(** ** Grade and risk level *)

(** X2. The grade is one of A, B, C, D, F and fixes the risk level: low for A
    and B, medium for C and D, high for F. *)
Theorem risk_level_follows_grade
    (t : TripData) (es : list Event) (ds : list Detection) :
  exists s,
    score_trip t es ds = Ok s
    /\ ((grade s = "A" \/ grade s = "B") /\ risk_level s = "low"
        \/ (grade s = "C" \/ grade s = "D") /\ risk_level s = "medium"
        \/ grade s = "F" /\ risk_level s = "high").
Proof.
  exists (result_of (locals_of t es ds)).
  split; [apply score_trip_eq|]. rewrite result_of_locals. cbn [grade risk_level].
  pose proof (final_score_bounds t es ds) as [H40 _].
  assert (H0 : 0 <= final_score_of t es ds) by lra.
  destruct (grade_of_final _ H0) as [[? ->] | [[? ->] | [[? ->] | [[? ->] | [? ->]]]]];
  destruct (risk_of_final _ H0) as [[? ->] | [[? ->] | [? ->]]];
    try lra; auto 6.
Qed.

(** X3. The grade is read from the final score before it is rounded: it is
    A exactly when [final_score] is 90 or more, B exactly from 80 to below
    90, C from 70 to below 80, D from 60 to below 70 and F below 60, while
    the score is the rounding of [final_score].  So a grade has a score at
    or above its threshold and at or below the next one, a score strictly
    between two thresholds has the grade of the lower one, and a score
    that equals a threshold comes with either grade: one hard brake in
    30 km is scored 90 and graded A, one in 29.41 km is scored 90 and
    graded B. *)
Theorem grade_brackets_score :
  (forall (t : TripData) (es : list Event) (ds : list Detection),
     exists loc s,
       score_trip_locals t es ds = Ok loc
       /\ score_trip t es ds = Ok s
       /\ score s = Py.round (loc_final_score loc)
       /\ (grade s = "A" <-> 90 <= loc_final_score loc)
       /\ (grade s = "B" <-> 80 <= loc_final_score loc < 90)
       /\ (grade s = "C" <-> 70 <= loc_final_score loc < 80)
       /\ (grade s = "D" <-> 60 <= loc_final_score loc < 70)
       /\ (grade s = "F" <-> loc_final_score loc < 60)
       /\ (grade s = "A" -> (90 <= score s)%Z)
       /\ (grade s = "B" -> (80 <= score s <= 90)%Z)
       /\ (grade s = "C" -> (70 <= score s <= 80)%Z)
       /\ (grade s = "D" -> (60 <= score s <= 70)%Z)
       /\ (grade s = "F" -> (score s <= 60)%Z)
       /\ ((91 <= score s)%Z -> grade s = "A")
       /\ ((81 <= score s <= 89)%Z -> grade s = "B")
       /\ ((71 <= score s <= 79)%Z -> grade s = "C")
       /\ ((61 <= score s <= 69)%Z -> grade s = "D")
       /\ ((score s <= 59)%Z -> grade s = "F"))
  /\ (exists above below,
        score_trip (trip_of_distance 30000) [event "hard_brake"] [] = Ok above
        /\ score_trip (trip_of_distance 29410) [event "hard_brake"] [] = Ok below
        /\ score above = 90%Z /\ grade above = "A"
        /\ score below = 90%Z /\ grade below = "B").
Proof.
  split.
  2:{ eexists. eexists. split; [vm_compute; reflexivity|].
      split; [vm_compute; reflexivity|]. repeat split. }
  intros t es ds.
  exists (locals_of t es ds), (result_of (locals_of t es ds)).
  split; [apply score_trip_locals_eq|].
  split; [apply score_trip_eq|]. rewrite result_of_locals. cbn [grade score].
  change (loc_final_score (locals_of t es ds)) with (final_score_of t es ds).
  pose proof (final_score_bounds t es ds) as [H40 _].
  set (fs := final_score_of t es ds) in *.
  assert (H0 : 0 <= fs) by lra.
  split; [reflexivity|].
  pose proof (round_ge_inv 91 fs) as G91. pose proof (round_ge_inv 81 fs) as G81.
  pose proof (round_ge_inv 71 fs) as G71. pose proof (round_ge_inv 61 fs) as G61.
  pose proof (round_le_inv 89 fs) as L89. pose proof (round_le_inv 79 fs) as L79.
  pose proof (round_le_inv 69 fs) as L69. pose proof (round_le_inv 59 fs) as L59.
  change (inject_Z 91) with 91 in *. change (inject_Z 81) with 81 in *.
  change (inject_Z 71) with 71 in *. change (inject_Z 61) with 61 in *.
  change (inject_Z 89) with 89 in *. change (inject_Z 79) with 79 in *.
  change (inject_Z 69) with 69 in *. change (inject_Z 59) with 59 in *.
  pose proof (round_ge 90 fs) as R90. pose proof (round_ge 80 fs) as R80.
  pose proof (round_ge 70 fs) as R70. pose proof (round_ge 60 fs) as R60.
  pose proof (round_le 90 fs) as S90. pose proof (round_le 80 fs) as S80.
  pose proof (round_le 70 fs) as S70. pose proof (round_le 60 fs) as S60.
  change (inject_Z 90) with 90 in *. change (inject_Z 80) with 80 in *.
  change (inject_Z 70) with 70 in *. change (inject_Z 60) with 60 in *.
  destruct (grade_of_final _ H0) as [[? ->] | [[? ->] | [[? ->] | [[? ->] | [? ->]]]]];
    repeat split; intros; try discriminate; try reflexivity; try lra;
    try (apply R90; lra); try (apply R80; lra); try (apply R70; lra);
    try (apply R60; lra); try (apply S90; lra); try (apply S80; lra);
    try (apply S70; lra); try (apply S60; lra);
    exfalso;
    try (specialize (G91 ltac:(lia))); try (specialize (G81 ltac:(lia)));
    try (specialize (G71 ltac:(lia))); try (specialize (G61 ltac:(lia)));
    try (specialize (L89 ltac:(lia))); try (specialize (L79 ltac:(lia)));
    try (specialize (L69 ltac:(lia))); try (specialize (L59 ltac:(lia))); lra.
Qed.

(** ** More events, more detections *)

Lemma running_max_snoc_ge (es : list Event) (e : Event) (m : Q) :
  running_max es m <= running_max (es ++ [e]) m.
Proof.
  unfold running_max. rewrite fold_left_app. cbn [fold_left].
  destruct (is_overspeed e); [|lra].
  match goal with |- ?a <= Py.max ?a ?b =>
    destruct (max_cases a b) as [[? ->] | [? ->]]; lra end.
Qed.

Lemma overspeed_part_snoc_le (es : list Event) (e : Event) :
  overspeed_part (es ++ [e]) <= overspeed_part es.
Proof.
  unfold overspeed_part, OVERSPEED_PENALTY_PER_KMH.
  apply Qopp_le_compat, min_le_compat; [|lra].
  pose proof (running_max_snoc_ge es e 0.0). lra.
Qed.

(** X4. Appending an event of any type, at any speed, never increases the
    score. *)
Theorem one_more_event_never_helps
    (t : TripData) (es : list Event) (ds : list Detection) (e : Event) :
  exists s s',
    score_trip t es ds = Ok s
    /\ score_trip t (es ++ [e]) ds = Ok s'
    /\ (score s' <= score s)%Z.
Proof.
  exists (result_of (locals_of t es ds)), (result_of (locals_of t (es ++ [e]) ds)).
  rewrite !score_trip_eq, !score_of_locals. repeat split.
  apply round_le_compat. unfold final_score_of. apply clamp_le_compat.
  pose proof (events_part_snoc t es e). pose proof (overspeed_part_snoc_le es e).
  lra.
Qed.

Lemma sign_part_app_ge (ds ds' : list Detection) :
  sign_part ds <= sign_part (ds ++ ds').
Proof.
  unfold sign_part. rewrite limits_of_app.
  destruct (limits_of ds); cbn [app]; [|lra].
  destruct (limits_of ds'); lra.
Qed.

(** The result depends on the detections through [sign_part] alone. *)
Lemma score_trip_sign_part (t : TripData) (es : list Event) (ds ds' : list Detection) :
  sign_part ds = sign_part ds' -> score_trip t es ds = score_trip t es ds'.
Proof.
  intros H. rewrite !score_trip_eq, !result_of_locals.
  unfold final_score_of. now rewrite H.
Qed.

(** X5. Detections never cost points: with more detections, whatever their
    class and confidence, the score is the same or higher. *)
Theorem detections_never_cost
    (t : TripData) (es : list Event) (ds ds' : list Detection) :
  exists s s',
    score_trip t es ds = Ok s
    /\ score_trip t es (ds ++ ds') = Ok s'
    /\ (score s <= score s')%Z.
Proof.
  exists (result_of (locals_of t es ds)), (result_of (locals_of t es (ds ++ ds'))).
  rewrite !score_trip_eq, !score_of_locals. repeat split.
  apply round_le_compat. unfold final_score_of. apply clamp_le_compat.
  pose proof (sign_part_app_ge ds ds'). lra.
Qed.

(** X6. The bonus is given once: when the detections already hold a speed
    limit class, further detections, before or after, change nothing in
    the result. *)
Theorem sign_bonus_given_once
    (t : TripData) (es : list Event) (ds before after : list Detection) :
  existsb speed_limit_class ds = true ->
  score_trip t es (before ++ ds ++ after) = score_trip t es ds.
Proof.
  intros H. apply score_trip_sign_part. unfold sign_part.
  rewrite !limits_of_app.
  assert (Hl : limits_of ds <> []).
  { apply existsb_exists in H as (d & Hin & Hd).
    unfold speed_limit_class in Hd. unfold limits_of. intros E.
    destruct (limit_of d) as [n|] eqn:El; [|discriminate].
    assert (Hn : In n (flat_map
               (fun d0 => match limit_of d0 with Some n0 => [n0] | None => [] end) ds)).
    { apply in_flat_map. exists d. split; [exact Hin|]. rewrite El. now left. }
    rewrite E in Hn. contradiction. }
  destruct (limits_of ds) as [|n l]; [contradiction|].
  destruct (limits_of before); reflexivity.
Qed.

Lemma sign_bonus_given_once_witness :
  score_trip (trip_of_distance 10000) [event "hard_brake"]
    ([detection "stop" 0.9] ++ [detection "speed_limit_60" 0.4]
     ++ [detection "speed_limit_30" 0.8; detection "speed_limit_x" 0.8])
  = score_trip (trip_of_distance 10000) [event "hard_brake"]
      [detection "speed_limit_60" 0.4].
Proof.
  apply sign_bonus_given_once. reflexivity.
Defined.

(** ** The floor of the distance *)

(** X7. Every trip of less than one kilometre, a negative distance included,
    is scored as a trip whose distance is missing. *)
Theorem short_trips_score_alike
    (d : Q) (dur : field Q) (es : list Event) (ds : list Detection) :
  d < 1000 ->
  score_trip {| distance_m := Val d; duration_seconds := dur |} es ds
  = score_trip {| distance_m := Absent; duration_seconds := dur |} es ds.
Proof.
  intros Hd. rewrite !score_trip_eq. f_equal. f_equal.
  assert (E : forall t, distance_km_of t = 1.0 ->
              locals_of t es ds
              = locals_of {| distance_m := Absent; duration_seconds := duration_seconds t |} es ds).
  { intros t Ht. unfold locals_of, events_part. rewrite Ht. reflexivity. }
  rewrite E; [reflexivity|].
  unfold distance_km_of. cbn [distance_m].
  assert (Hg : Py.get_or_0 (Val d) == d) by apply get_or_0_value.
  destruct (max_cases (Py.get_or_0 (Val d) / 1000) 1.0) as [[_ ->] | [H _]];
    [reflexivity|].
  exfalso. rewrite Hg in H.
  assert (d / 1000 < 1) by (apply Qlt_shift_div_r; lra). lra.
Qed.

Lemma short_trips_score_alike_witness :
  score_trip {| distance_m := Val 10; duration_seconds := Val 60 |}
    [event "hard_brake"] []
  = score_trip {| distance_m := Absent; duration_seconds := Val 60 |}
      [event "hard_brake"] [].
Proof.
  apply short_trips_score_alike. reflexivity.
Defined.

(** ** Issues and recommendations *)

Lemma occurrences_pos_iff (keys : list string) (k : string) :
  (0 < occurrences keys k)%Z <-> In k keys.
Proof.
  unfold occurrences. rewrite (count_occ_In string_dec). lia.
Qed.

(** An entry of [event_counts] is a key that occurs, with the number of
    times it occurs. *)
Lemma tally_entries (keys : list string) (k : string) (v : Z) :
  In (k, v) (tally keys []) <-> In k keys /\ v = occurrences keys k.
Proof.
  rewrite lookup_In by (apply tally_NoDup; constructor).
  rewrite lookup_tally. cbn [Dict.lookup].
  pose proof (occurrences_pos_iff keys k) as Hp.
  pose proof (occurrences_nonneg keys k).
  destruct (occurrences keys k =? 0)%Z eqn:E.
  - apply Z.eqb_eq in E. split; [discriminate|]. intros [Hin _].
    apply Hp in Hin. lia.
  - apply Z.eqb_neq in E. split.
    + intros [= <-]. split; [apply Hp; lia | reflexivity].
    + intros [_ ->]. reflexivity.
Qed.

Lemma issue_of_nil (k : string) (c : Z) :
  issue_of k c = [] <-> unrecognized k = true.
Proof.
  unfold issue_of, unrecognized, EVENT_PENALTIES. cbn [Dict.lookup].
  rewrite !(String.eqb_sym k).
  repeat (destruct (String.eqb _ k); [split; discriminate|]).
  split; reflexivity.
Qed.

Lemma count_issues_incl (d : dict Z) (k : string) (v : Z) :
  In (k, v) d -> (0 < v)%Z -> incl (issue_of k v) (count_issues d).
Proof.
  intros Hin Hv x Hx. unfold count_issues. apply in_flat_map.
  exists (k, v). split; [exact Hin|]. cbn [fst snd].
  apply Z.ltb_lt in Hv. now rewrite Hv.
Qed.

Lemma flat_map_all_nil {A B : Type} (f : A -> list B) (l : list A) :
  (forall x, In x l -> f x = []) -> flat_map f l = [].
Proof.
  induction l as [|a l IH]; intros H; cbn [flat_map]; [reflexivity|].
  rewrite (H a (or_introl eq_refl)), IH; [reflexivity|].
  intros x Hx. apply H. now right.
Qed.

Lemma count_issues_nil (keys : list string) :
  count_issues (tally keys []) = []
  <-> Forall (fun k => unrecognized k = true) keys.
Proof.
  rewrite Forall_forall. split.
  - intros E k Hin.
    pose proof (proj2 (tally_entries keys k _) (conj Hin eq_refl)) as He.
    apply occurrences_pos_iff in Hin.
    pose proof (count_issues_incl _ _ _ He Hin) as Hi. rewrite E in Hi.
    apply issue_of_nil with (c := occurrences keys k).
    destruct (issue_of k (occurrences keys k)) as [|x l]; [reflexivity|].
    destruct (Hi x (or_introl eq_refl)).
  - intros H. unfold count_issues.
    apply flat_map_all_nil.
    intros [k v] Hin. cbn [fst snd]. apply tally_entries in Hin as [Hin _].
    destruct (0 <? v)%Z; [|reflexivity]. apply issue_of_nil. now apply H.
Qed.

Lemma running_max_no_overspeed (es : list Event) (m : Q) :
  Forall (fun e => is_overspeed e = false) es -> running_max es m = m.
Proof.
  intros H. unfold running_max. revert m.
  induction H as [|e es He _ IH]; intros m; cbn [fold_left]; [reflexivity|].
  rewrite He. apply IH.
Qed.

(** X8. No issue is reported exactly when no event has one of the four types
    that [EVENT_PENALTIES] lists. *)
Theorem no_issue_iff_no_known_event
    (t : TripData) (es : list Event) (ds : list Detection) :
  exists s,
    score_trip t es ds = Ok s
    /\ (issues s = []
        <-> Forall (fun e => unrecognized (event_key e) = true) es).
Proof.
  exists (result_of (locals_of t es ds)).
  split; [apply score_trip_eq|]. rewrite result_of_locals. cbn [issues].
  split.
  - intros E. apply app_eq_nil in E as [E _].
    apply count_issues_nil in E. rewrite Forall_map in E. exact E.
  - intros H.
    assert (Hc : count_issues (tally (map event_key es) []) = [])
      by (apply count_issues_nil; rewrite Forall_map; exact H).
    rewrite Hc, running_max_no_overspeed; [reflexivity|].
    eapply Forall_impl; [|exact H]. apply unrecognized_key_not_overspeed.
Qed.

Lemma unit_deductions_unrecognized (dkm : Q) (keys : list string) :
  ~ dkm == 0 ->
  Forall (fun k => unrecognized k = true) keys ->
  unit_deductions dkm keys == 200 * inject_Z (Z.of_nat (List.length keys)) / dkm.
Proof.
  intros Hd. induction 1 as [|k keys Hk _ IH].
  - unfold unit_deductions. cbn. field. exact Hd.
  - rewrite unit_deductions_cons, IH. unfold deduction. cbn [fst snd List.length].
    rewrite (unrecognized_penalty k Hk), Nat2Z.inj_succ, <- Z.add_1_r, inject_Z_plus.
    change (inject_Z 1) with 1. field. exact Hd.
Qed.

Lemma get_tally_unrecognized (keys : list string) (k : string) :
  Forall (fun k' => unrecognized k' = true) keys ->
  unrecognized k = false ->
  Dict.get (tally keys []) k 0%Z = 0%Z.
Proof.
  intros H Hk. rewrite get_tally.
  pose proof (occurrences_pos_iff keys k) as Hp.
  pose proof (occurrences_nonneg keys k).
  destruct (Z.eq_dec (occurrences keys k) 0) as [E | NE]; [exact E|].
  exfalso. assert (Hin : In k keys) by (apply Hp; lia).
  rewrite Forall_forall in H. specialize (H k Hin). congruence.
Qed.

(** X9. Events of types without a penalty of their own cost points and are
    never mentioned: a trip that has only such events is deducted 200 per
    event and kilometre, up to the cap of 40, and is returned without
    issue and with the positive reinforcement message as its only
    recommendation. *)
Theorem unknown_events_cost_silently
    (t : TripData) (es : list Event) (ds : list Detection) :
  Forall (fun e => unrecognized (event_key e) = true) es ->
  exists loc s e,
    score_trip_locals t es ds = Ok loc
    /\ score_trip t es ds = Ok s
    /\ issues s = []
    /\ recommendations s = [MSG_EXCELLENT]
    /\ Dict.lookup (loc_breakdown loc) "events" = Some e
    /\ e == - Qmin (200 * inject_Z (Z.of_nat (List.length es)) / loc_distance_km loc) 40.
Proof.
  intros H.
  assert (Hk : Forall (fun k => unrecognized k = true) (map event_key es))
    by (rewrite Forall_map; exact H).
  pose proof (distance_km_ge_1 t) as Hd.
  exists (locals_of t es ds), (result_of (locals_of t es ds)), (events_part t es).
  split; [apply score_trip_locals_eq|]. split; [apply score_trip_eq|].
  rewrite result_of_locals. cbn [issues recommendations].
  assert (Hm : running_max es 0.0 = 0.0).
  { apply running_max_no_overspeed. eapply Forall_impl; [|exact H].
    apply unrecognized_key_not_overspeed. }
  split; [|split; [|split]].
  - rewrite Hm, (proj2 (count_issues_nil _) Hk). reflexivity.
  - rewrite Hm. unfold recommendations_spec, generated, rule_hard_brake,
      rule_harsh_accel, rule_overspeed, rule_unsafe_curve.
    rewrite !(get_tally_unrecognized _ _ Hk) by reflexivity. reflexivity.
  - reflexivity.
  - unfold events_part, locals_of. cbn [loc_distance_km].
    apply Qopp_comp.
    assert (E : deductions (distance_km_of t) (tally (map event_key es) []) 0.0
                == 200 * inject_Z (Z.of_nat (List.length es)) / distance_km_of t).
    { rewrite deductions_tally by lra.
      rewrite unit_deductions_unrecognized by (try lra; exact Hk).
      rewrite length_map. unfold deductions. cbn [fold_left]. lra. }
    rewrite <- E.
    destruct (min_cases (deductions (distance_km_of t) (tally (map event_key es) []) 0.0) 40)
      as [[? ->] | [? ->]]; symmetry; [apply Q.min_r | apply Q.min_l]; lra.
Qed.

Lemma unknown_events_cost_silently_witness :
  exists loc s e,
    score_trip_locals (trip_of_distance 10000) (repeat (event "swerve") 20) [] = Ok loc
    /\ score_trip (trip_of_distance 10000) (repeat (event "swerve") 20) [] = Ok s
    /\ issues s = []
    /\ recommendations s = [MSG_EXCELLENT]
    /\ Dict.lookup (loc_breakdown loc) "events" = Some e
    /\ e == - Qmin (200 * inject_Z (Z.of_nat (List.length (repeat (event "swerve") 20)))
                    / loc_distance_km loc) 40.
Proof.
  apply unknown_events_cost_silently.
  repeat constructor.
Defined.

(** X10. The counts in the issues are the numbers of events: a type that
    [EVENT_PENALTIES] lists and that occurs [n] times has its issue, with
    [n] in it, among the issues. *)
Theorem issues_report_counts
    (t : TripData) (es : list Event) (ds : list Detection) (k : string) :
  In k (map event_key es) ->
  exists s,
    score_trip t es ds = Ok s
    /\ incl (issue_of k (occurrences (map event_key es) k)) (issues s)
    /\ (unrecognized k = false ->
        issue_of k (occurrences (map event_key es) k) <> []).
Proof.
  intros Hin.
  exists (result_of (locals_of t es ds)).
  split; [apply score_trip_eq|]. rewrite result_of_locals. cbn [issues].
  split.
  - apply incl_appl. apply count_issues_incl.
    + now apply tally_entries.
    + now apply occurrences_pos_iff.
  - intros Hk E. apply issue_of_nil in E. congruence.
Qed.

Lemma issues_report_counts_witness :
  exists s,
    score_trip (trip_of_distance 10000)
      [event "hard_brake"; event "swerve"; event "hard_brake"] [] = Ok s
    /\ incl ["Hard braking: 2 times"] (issues s)
    /\ (unrecognized "hard_brake" = false -> ["Hard braking: 2 times"] <> []).
Proof.
  apply (issues_report_counts (trip_of_distance 10000)
           [event "hard_brake"; event "swerve"; event "hard_brake"] [] "hard_brake").
  left. reflexivity.
Defined.

(** X11. An overspeed event always brings a recommendation on speed, whatever
    else fired: the strong one when [max_overspeed_kmh] is above 20, the
    mild one otherwise, even when the event was under the assumed limit. *)
Theorem overspeed_always_recommends
    (t : TripData) (es : list Event) (ds : list Detection) :
  existsb is_overspeed es = true ->
  exists loc s,
    score_trip_locals t es ds = Ok loc
    /\ score_trip t es ds = Ok s
    /\ (20 < loc_max_overspeed_kmh loc ->
        In MSG_DANGEROUS_SPEED (recommendations s))
    /\ (loc_max_overspeed_kmh loc <= 20 ->
        In MSG_WATCH_SPEED (recommendations s)).
Proof.
  intros H.
  exists (locals_of t es ds), (result_of (locals_of t es ds)).
  split; [apply score_trip_locals_eq|]. split; [apply score_trip_eq|].
  rewrite result_of_locals. unfold locals_of.
  cbn [recommendations loc_max_overspeed_kmh].
  assert (Hc : (0 <? Dict.get (tally (map event_key es) []) "overspeed" 0)%Z = true).
  { rewrite get_tally. apply Z.ltb_lt, occurrences_pos_iff.
    apply existsb_exists in H as (e & He & Ho). apply in_map_iff.
    exists e. split; [|exact He]. unfold is_overspeed in Ho.
    now apply String.eqb_eq in Ho. }
  unfold recommendations_spec, generated, rule_overspeed. rewrite Hc. cbn [orb].
  split; intros Hm.
  - apply Qlt_bool_true in Hm. rewrite Hm.
    destruct (rule_hard_brake _ _), (rule_harsh_accel _ _),
      (rule_unsafe_curve _); cbn; auto.
  - apply Qlt_bool_false in Hm. rewrite Hm.
    destruct (rule_hard_brake _ _), (rule_harsh_accel _ _),
      (rule_unsafe_curve _); cbn; auto.
Qed.

Lemma overspeed_always_recommends_witness :
  exists loc s,
    score_trip_locals (trip_of_distance 10000) [overspeed_at 10] [] = Ok loc
    /\ score_trip (trip_of_distance 10000) [overspeed_at 10] [] = Ok s
    /\ (20 < loc_max_overspeed_kmh loc ->
        In MSG_DANGEROUS_SPEED (recommendations s))
    /\ (loc_max_overspeed_kmh loc <= 20 ->
        In MSG_WATCH_SPEED (recommendations s)).
Proof.
  apply overspeed_always_recommends. reflexivity.
Defined.

(** * Properties of the sign classes *)

Section SignClassFacts.

Import SignClasses SignClassesMore SignClassApi.

Lemma lookup_int_In {V : Type} (d : list (Z * V)) (k : Z) (v : V) :
  lookup_int d k = Some v -> In (k, v) d.
Proof.
  induction d as [|[k' v'] d IH]; cbn [lookup_int]; [discriminate|].
  destruct (Z.eqb_spec k' k) as [-> | NE].
  - intros [= ->]. now left.
  - intros H. right. now apply IH.
Qed.

Lemma lookup_int_None {V : Type} (d : list (Z * V)) (k : Z) :
  lookup_int d k = None <-> ~ In k (map fst d).
Proof.
  induction d as [|[k' v'] d IH]; cbn [lookup_int map fst In]; [tauto|].
  destruct (Z.eqb_spec k' k) as [-> | NE].
  - split; [discriminate | tauto].
  - rewrite IH. tauto.
Qed.

(** The class ids of the data set are the integers from 0 to 42. *)
Lemma gtsrb_ids (class_id : Z) :
  In class_id (map fst GTSRB_CLASSES) <-> (0 <= class_id <= 42)%Z.
Proof.
  split.
  - intros H.
    assert (A : forallb (fun k => (0 <=? k) && (k <=? 42))%Z (map fst GTSRB_CLASSES) = true)
      by (vm_compute; reflexivity).
    rewrite forallb_forall in A. specialize (A _ H). lia.
  - intros H.
    assert (A : forallb (fun n => existsb (Z.eqb (Z.of_nat n)) (map fst GTSRB_CLASSES))
                  (seq 0 43) = true) by (vm_compute; reflexivity).
    rewrite forallb_forall in A.
    specialize (A (Z.to_nat class_id)).
    rewrite Z2Nat.id in A by lia.
    assert (Hn : In (Z.to_nat class_id) (seq 0 43)) by (apply in_seq; lia).
    apply A, existsb_exists in Hn as (k & Hk & E).
    apply Z.eqb_eq in E. now subst k.
Qed.

Lemma gtsrb_lookup (class_id : Z) :
  (0 <= class_id <= 42)%Z <-> lookup_int GTSRB_CLASSES class_id <> None.
Proof.
  rewrite <- gtsrb_ids.
  destruct (lookup_int GTSRB_CLASSES class_id) as [name|] eqn:E.
  - split; [discriminate | intros _].
    apply lookup_int_In in E. now apply (in_map fst) in E.
  - apply lookup_int_None in E. tauto.
Qed.

(** ** The characters of [str(n)] *)

Lemma string_of_uint_chars (d : Decimal.uint) :
  forallb decimal_char (list_ascii_of_string (NilEmpty.string_of_uint d)) = true.
Proof.
  induction d as [|d IH|d IH|d IH|d IH|d IH|d IH|d IH|d IH|d IH|d IH];
    [reflexivity | ..];
    (apply andb_true_intro; split; [reflexivity | exact IH]).
Qed.

Lemma string_of_uint0_chars (d : Decimal.uint) :
  forallb decimal_char (list_ascii_of_string (NilZero.string_of_uint d)) = true.
Proof. destruct d; try reflexivity; apply (string_of_uint_chars (_ d)). Qed.

Lemma str_chars (n : Z) :
  forallb decimal_char (list_ascii_of_string (Py.str n)) = true.
Proof.
  unfold Py.str. destruct (Z.to_int n) as [d | d]; cbn [NilZero.string_of_int].
  - apply string_of_uint0_chars.
  - apply andb_true_intro. split; [reflexivity | apply string_of_uint0_chars].
Qed.

(** A text without the first character of the needle does not hold the
    needle. *)
Lemma contains_without_first (c : ascii) (needle hay : string) :
  forallb (fun x => negb (Ascii.eqb x c)) (list_ascii_of_string hay) = true ->
  Py.contains (String c needle) hay = false.
Proof.
  induction hay as [|x hay IH]; cbn [list_ascii_of_string forallb Py.contains prefix].
  - reflexivity.
  - intros H. apply andb_prop in H as [Hx Hr].
    rewrite (IH Hr), orb_false_r.
    destruct (ascii_dec c x) as [-> | NE].
    + rewrite Ascii.eqb_refl in Hx. discriminate.
    + reflexivity.
Qed.

Lemma list_ascii_app (s1 s2 : string) :
  list_ascii_of_string (s1 ++ s2)
  = (list_ascii_of_string s1 ++ list_ascii_of_string s2)%list.
Proof. induction s1 as [|c s1 IH]; cbn; [reflexivity | now rewrite IH]. Qed.

Lemma unknown_name_no_limit (n : Z) :
  Py.contains "speed_limit_" ("unknown_" ++ Py.str n) = false.
Proof.
  apply contains_without_first.
  rewrite list_ascii_app, forallb_app. apply andb_true_intro. split.
  - reflexivity.
  - pose proof (str_chars n) as H. rewrite forallb_forall in *.
    intros x Hx. specialize (H x Hx). unfold decimal_char in H.
    apply existsb_exists in H as (y & Hy & E). apply Ascii.eqb_eq in E. subst y.
    cbn in Hy. repeat (destruct Hy as [<- | Hy]; [reflexivity|]). destruct Hy.
Qed.

(** ** The scorer and the table of speed limits *)

(** X12. The limit that the scorer reads from the name of a class is the limit
    that [get_speed_limit_value] gives for the class, for every class id
    but 6: for the end of the limit of 80 the table has no limit and the
    scorer reads 80.  A class id outside the data set has neither. *)
Theorem scorer_reads_table_limits (class_id : Z) (conf : field Q) :
  limit_of {| sign_class := Some (get_class_name class_id); confidence := conf |}
  = if (class_id =? 6)%Z then Some 80%Z else get_speed_limit_value class_id.
Proof.
  rewrite (limit_of_class _ (detection (get_class_name class_id) 1)) by reflexivity.
  destruct (lookup_int GTSRB_CLASSES class_id) as [name|] eqn:E.
  - apply lookup_int_In in E.
    assert (A : forallb
                  (fun item =>
                     match limit_of (detection (get_class_name (fst item)) 1),
                           (if (fst item =? 6)%Z then Some 80%Z
                            else get_speed_limit_value (fst item)) with
                     | Some a, Some b => (a =? b)%Z
                     | None, None => true
                     | _, _ => false
                     end) GTSRB_CLASSES = true) by (vm_compute; reflexivity).
    rewrite forallb_forall in A. specialize (A _ E). cbn [fst] in A.
    destruct (limit_of _), (if (class_id =? 6)%Z then _ else _);
      try discriminate; [|reflexivity].
    apply Z.eqb_eq in A. now subst.
  - assert (Hr : ~ (0 <= class_id <= 42)%Z).
    { intros H. apply gtsrb_lookup in H. congruence. }
    replace (class_id =? 6)%Z with false by (symmetry; lia).
    unfold get_class_name. rewrite E.
    unfold limit_of, detection. cbn [sign_class].
    rewrite unknown_name_no_limit.
    unfold get_speed_limit_value.
    destruct (lookup_int SPEED_LIMIT_CLASSES class_id) eqn:El; [|reflexivity].
    exfalso. apply lookup_int_In in El. apply (in_map fst) in El. cbn [fst] in El.
    assert (A : forallb (fun k => (0 <=? k) && (k <=? 42))%Z
                  (map fst SPEED_LIMIT_CLASSES) = true) by (vm_compute; reflexivity).
    rewrite forallb_forall in A. specialize (A _ El). lia.
Qed.

(** ** The class endpoints *)

Lemma category_cases (class_id : Z) :
  (category_of class_id = "speed_limit" <-> is_speed_limit_sign class_id = true)
  /\ (category_of class_id = "warning" <-> is_warning_sign class_id = true)
  /\ (category_of class_id = "regulatory"
      <-> In class_id [9; 10; 15; 16]%Z).
Proof.
  unfold category_of, is_speed_limit_sign, is_warning_sign, SPEED_LIMIT_CLASSES,
    WARNING_CLASSES.
  cbn [existsb lookup_int fst orb].
  repeat match goal with
         | |- context [(?k =? class_id)%Z] =>
             destruct (Z.eqb_spec k class_id) as [<- | ?];
             [cbn; intuition (try discriminate; try lia; auto) |]
         | |- context [(class_id =? ?k)%Z] =>
             destruct (Z.eqb_spec class_id k) as [-> | ?];
             [cbn; intuition (try discriminate; try lia; auto) |]
         end.
  cbn. intuition (try discriminate; try lia).
Qed.

(** X13. [GET /detection/classes/{class_id}] answers for the class ids 0 to 42
    and with 404 for every other integer.  Its answer has the name of the
    table; the category is "speed_limit" exactly for the classes of
    [SPEED_LIMIT_CLASSES], "warning" exactly for those of
    [WARNING_CLASSES] and "regulatory" exactly for 9, 10, 15 and 16 (17,
    which the list of line 72 holds too, is a warning); a class with a
    speed limit value is in the category "speed_limit". *)
Theorem get_sign_class_answers (id : Z) :
  ((0 <= id <= 42)%Z ->
   exists info,
     get_sign_class id = Return info
     /\ class_id info = id
     /\ lookup_int GTSRB_CLASSES id = Some (name info)
     /\ speed_limit_kmh info = get_speed_limit_value id
     /\ (category info = "speed_limit" <-> is_speed_limit_sign id = true)
     /\ (category info = "warning" <-> is_warning_sign id = true)
     /\ (category info = "regulatory" <-> In id [9; 10; 15; 16]%Z)
     /\ (speed_limit_kmh info <> None -> category info = "speed_limit"))
  /\ (~ (0 <= id <= 42)%Z ->
      get_sign_class id
      = Fail (HTTPException 404 ("Class " ++ Py.str id ++ " not found"))).
Proof.
  split.
  - intros Hr. pose proof (proj1 (gtsrb_lookup id) Hr) as Hl.
    unfold get_sign_class, get_class_name.
    destruct (lookup_int GTSRB_CLASSES id) as [nm|] eqn:E; [|congruence].
    unfold new_SignClassInfo.
    replace ((0 <=? id) && (id <=? 42))%Z with true by (symmetry; lia).
    eexists. split; [reflexivity|]. cbn [class_id name category speed_limit_kmh].
    destruct (category_cases id) as (Hs & Hw & Hg).
    repeat split; try tauto.
    intros Hv. apply Hs. unfold get_speed_limit_value in Hv.
    destruct (lookup_int SPEED_LIMIT_CLASSES id) eqn:El; [|congruence].
    apply lookup_int_In in El. unfold is_speed_limit_sign.
    apply existsb_exists. eexists. split; [exact El|]. apply Z.eqb_refl.
  - intros Hr. unfold get_sign_class.
    destruct (lookup_int GTSRB_CLASSES id) eqn:E; [|reflexivity].
    exfalso. apply Hr, gtsrb_lookup. congruence.
Qed.

Lemma get_sign_class_answers_witness :
  (exists info,
     get_sign_class 17 = Return info
     /\ class_id info = 17%Z
     /\ lookup_int GTSRB_CLASSES 17 = Some (name info)
     /\ speed_limit_kmh info = get_speed_limit_value 17
     /\ (category info = "speed_limit" <-> is_speed_limit_sign 17 = true)
     /\ (category info = "warning" <-> is_warning_sign 17 = true)
     /\ (category info = "regulatory" <-> In 17%Z [9; 10; 15; 16]%Z)
     /\ (speed_limit_kmh info <> None -> category info = "speed_limit"))
  /\ get_sign_class 43
     = Fail (HTTPException 404 ("Class " ++ Py.str 43 ++ " not found")).
Proof.
  split.
  - apply (proj1 (get_sign_class_answers 17)). lia.
  - apply (proj2 (get_sign_class_answers 43)). lia.
Defined.

Lemma for_each_map {A B : Type} (f : A -> outcome B) (l : list A) (r : list B) :
  for_each f l = Return r -> map f l = map Return r.
Proof.
  revert r. induction l as [|x l IH]; intros r; cbn [for_each map].
  - intros [= <-]. reflexivity.
  - destruct (f x) as [y|] eqn:Ex; cbn [and_then]; [|discriminate].
    destruct (for_each f l) as [ys|]; cbn [and_then]; [|discriminate].
    intros [= <-]. cbn [map]. now rewrite (IH ys eq_refl).
Qed.

(** X14. [GET /detection/classes] answers with 43 entries, and its entry for a
    class is the answer of [GET /detection/classes/{class_id}], in the
    order of the class ids. *)
Theorem list_sign_classes_agrees :
  exists infos,
    list_sign_classes = Return infos
    /\ List.length infos = 43%nat
    /\ map Return infos
       = map (fun n => get_sign_class (Z.of_nat n)) (seq 0 43).
Proof.
  eexists. split; [vm_compute; reflexivity|].
  split; vm_compute; reflexivity.
Qed.

(** ** The speed limit entries *)

(** X15. [GET /detection/speed-limits] lists exactly the classes for which
    [get_speed_limit_value] has a limit; the name of each is
    [speed_limit_] followed by its limit, and the scorer reads that limit
    from a detection of that name. *)
Theorem speed_limit_entries (id : Z) (e : SpeedLimitEntry) :
  In (id, e) get_speed_limit_classes
  <-> get_speed_limit_value id = Some (speed_kmh e)
      /\ entry_name e = get_class_name id
      /\ entry_name e = "speed_limit_" ++ Py.str (speed_kmh e)
      /\ limit_of (detection (entry_name e) 1) = Some (speed_kmh e).
Proof.
  split.
  - intros H.
    assert (A : forallb
                  (fun item =>
                     let e := snd item in
                     match get_speed_limit_value (fst item) with
                     | Some v => (v =? speed_kmh e)%Z
                     | None => false
                     end
                     && String.eqb (entry_name e) (get_class_name (fst item))
                     && String.eqb (entry_name e)
                          ("speed_limit_" ++ Py.str (speed_kmh e))
                     && match limit_of (detection (entry_name e) 1) with
                        | Some v => (v =? speed_kmh e)%Z
                        | None => false
                        end)
                  get_speed_limit_classes = true) by (vm_compute; reflexivity).
    rewrite forallb_forall in A. specialize (A _ H). cbn [fst snd] in A.
    apply andb_prop in A as [A A4]. apply andb_prop in A as [A A3].
    apply andb_prop in A as [A1 A2].
    apply String.eqb_eq in A2, A3.
    destruct (get_speed_limit_value id); [|discriminate].
    destruct (limit_of _); [|discriminate].
    apply Z.eqb_eq in A1, A4. subst. auto.
  - intros (Hv & Hn & _ & _). unfold get_speed_limit_classes.
    apply in_flat_map. unfold get_speed_limit_value in Hv.
    destruct (lookup_int SPEED_LIMIT_CLASSES id) as [lim|] eqn:El; [|discriminate].
    apply lookup_int_In in El. exists (id, lim). split; [exact El|].
    cbn [fst snd]. rewrite Hv. left. f_equal.
    destruct e as [n v]. cbn [entry_name speed_kmh] in *. now subst.
Qed.

Lemma speed_limit_entries_witness :
  In (3%Z, {| entry_name := "speed_limit_60"; speed_kmh := 60 |})
    get_speed_limit_classes.
Proof.
  apply speed_limit_entries. repeat split.
Defined.

(** ** Names of classes *)

Lemma to_int_not_nil (n : Z) :
  Z.to_int n <> Decimal.Pos Decimal.Nil /\ Z.to_int n <> Decimal.Neg Decimal.Nil.
Proof.
  assert (H : Z.to_int n = Decimal.norm (Z.to_int n))
    by (rewrite <- DecimalZ.to_of, DecimalZ.of_to; reflexivity).
  split; intros E; rewrite E in H; discriminate.
Qed.

Lemma str_inj (n m : Z) : Py.str n = Py.str m -> n = m.
Proof.
  unfold Py.str. intros H.
  destruct (to_int_not_nil n) as [Hn1 Hn2], (to_int_not_nil m) as [Hm1 Hm2].
  apply DecimalZ.to_int_inj.
  pose proof (NilZero.isi _ Hn1 Hn2) as A. pose proof (NilZero.isi _ Hm1 Hm2) as B.
  rewrite H in A. congruence.
Qed.

(** X16. Distinct class ids have distinct names, inside the data set and
    outside of it. *)
Theorem get_class_name_injective (a b : Z) :
  get_class_name a = get_class_name b -> a = b.
Proof.
  unfold get_class_name.
  assert (T : forall k nm, lookup_int GTSRB_CLASSES k = Some nm ->
              forall n, nm <> "unknown_" ++ Py.str n).
  { intros k nm Hk n E. apply lookup_int_In in Hk.
    assert (A : forallb
                  (fun item =>
                     negb (String.eqb (substring 0 8 (snd item)) "unknown_"))
                  GTSRB_CLASSES = true) by (vm_compute; reflexivity).
    rewrite forallb_forall in A. specialize (A _ Hk). cbn [snd] in A.
    rewrite E in A. cbn in A. destruct (Py.str n); discriminate. }
  destruct (lookup_int GTSRB_CLASSES a) as [na|] eqn:Ea,
           (lookup_int GTSRB_CLASSES b) as [nb|] eqn:Eb; intros H.
  - subst nb. apply lookup_int_In in Ea, Eb.
    assert (A : forallb
                  (fun x => forallb
                     (fun y => implb (String.eqb (snd x) (snd y))
                                 (fst x =? fst y)%Z) GTSRB_CLASSES)
                  GTSRB_CLASSES = true) by (vm_compute; reflexivity).
    rewrite forallb_forall in A. specialize (A _ Ea).
    rewrite forallb_forall in A. specialize (A _ Eb). cbn [fst snd] in A.
    rewrite String.eqb_refl in A. now apply Z.eqb_eq in A.
  - exfalso. exact (T _ _ Ea _ H).
  - exfalso. symmetry in H. exact (T _ _ Eb _ H).
  - apply str_inj. cbn in H. repeat injection H as H. exact H.
Qed.

Lemma get_class_name_injective_witness : (-1)%Z = (-1)%Z.
Proof.
  apply get_class_name_injective. reflexivity.
Defined.

End SignClassFacts.

(** * The detector *)

Section DetectorFacts.

Import Detector.

(** ** Loading *)

(** X17. [load] answers what [_loaded] is after it and keeps the path of the
    model; a detector that holds an interpreter once loaded still does
    after it; a failed load leaves the labels and a loaded detector as
    they are; and once [load] has answered [True], every later [load]
    answers [True] and changes nothing, whatever has become of the files
    and of TensorFlow. *)
Theorem load_settles (w : World) (self : SignDetector) :
  let answer := fst (load w self) in
  let after := snd (load w self) in
  _loaded after = answer
  /\ model_path after = model_path self
  /\ (holds_interpreter self -> holds_interpreter after)
  /\ (answer = false -> labels after = labels self /\ _loaded self = false)
  /\ (_loaded self = true -> after = self)
  /\ (answer = true -> forall w', load w' after = (true, after)).
Proof.
  cbv zeta. unfold load, holds_interpreter.
  destruct (_loaded self) eqn:L.
  { cbn [fst snd]. rewrite L. repeat split; auto; try discriminate. }
  destruct (os_path_exists w (model_path self)); cbn [negb].
  2:{ cbn [fst snd]. repeat split; auto; try congruence. }
  destruct (import_tensorflow w); cbn [negb].
  2:{ cbn [fst snd]. repeat split; auto; try congruence. }
  destruct (tf_lite_Interpreter w (model_path self)) as [made|].
  2:{ cbn [fst snd]. repeat split; auto; try congruence. }
  cbn [model_path interpreter labels _loaded].
  destruct (allocate_tensors w made); cbn [negb].
  2:{ cbn [fst snd model_path interpreter labels _loaded].
      repeat split; auto; try congruence. }
  destruct (os_path_exists w (LABELS_PATH w)).
  - destruct (readlines w (LABELS_PATH w)) as [lines|];
      cbn [fst snd model_path interpreter labels _loaded];
      repeat split; auto; try congruence.
  - cbn [fst snd model_path interpreter labels _loaded];
      repeat split; auto; try congruence.
Qed.

(** ** The detections *)

Lemma enumerate_spec {A : Type} (l : list A) (start i : nat) (x : A) :
  In (i, x) (enumerate start l)
  <-> (start <= i)%nat /\ nth_error l (i - start) = Some x.
Proof.
  revert start. induction l as [|y l IH]; intros start; cbn [enumerate In].
  - split; [tauto|]. intros [_ H]. now destruct (i - start)%nat.
  - rewrite IH. split.
    + intros [[= <- <-] | [Hle H]].
      * split; [lia|]. now rewrite Nat.sub_diag.
      * split; [lia|]. replace (i - start)%nat with (S (i - S start)) by lia.
        exact H.
    + intros [Hle H]. destruct (Nat.eq_dec start i) as [<- | Hne].
      * left. rewrite Nat.sub_diag in H. cbn in H. congruence.
      * right. split; [lia|].
        replace (i - start)%nat with (S (i - S start)) in H by lia. exact H.
Qed.

Lemma process_In (w : World) (labels : list string) (t : Q)
    (output : list Q) (d : RawDetection) :
  In d (process w labels t output)
  <-> exists (i : nat) (c : Q),
        nth_error output i = Some c /\ reaches w c t = true
        /\ d = {| class_id := Z.of_nat i; class_name := label labels i;
                  confidence := c |}.
Proof.
  unfold process. rewrite in_flat_map. split.
  - intros [[i c] [Hin Hd]]. apply enumerate_spec in Hin as [_ Hn].
    rewrite Nat.sub_0_r in Hn.
    destruct (reaches w c t) eqn:R; [|contradiction].
    destruct Hd as [<- | []]. now exists i, c.
  - intros (i & c & Hn & R & ->). exists (i, c). split.
    + apply enumerate_spec. split; [lia|]. now rewrite Nat.sub_0_r.
    + rewrite R. now left.
Qed.

Lemma process_ids_from (w : World) (labels : list string) (t : Q)
    (output : list Q) (start : nat) :
  let found :=
    flat_map
      (fun item : nat * Q =>
         let '(class_id, confidence) := item in
         if reaches w confidence t then
           [{| class_id := Z.of_nat class_id;
               class_name := label labels class_id;
               confidence := confidence |}]
         else [])
      (enumerate start output) in
  StronglySorted (fun a b => (class_id a < class_id b)%Z) found
  /\ Forall (fun d => (Z.of_nat start <= class_id d)%Z) found.
Proof.
  cbv zeta. revert start.
  induction output as [|c output IH]; intros start; cbn [enumerate flat_map].
  - split; constructor.
  - destruct (IH (S start)) as [Hs Hf].
    assert (Hf' : Forall (fun d => (Z.of_nat start < class_id d)%Z)
                    (flat_map
                       (fun item : nat * Q =>
                          let '(class_id, confidence) := item in
                          if reaches w confidence t then
                            [{| class_id := Z.of_nat class_id;
                                class_name := label labels class_id;
                                confidence := confidence |}]
                          else [])
                       (enumerate (S start) output))).
    { eapply Forall_impl; [|exact Hf]. cbn beta. intros d Hd. lia. }
    destruct (reaches w c t); cbn [app].
    + split.
      * constructor; [exact Hs|]. exact Hf'.
      * constructor; [cbn; lia|].
        eapply Forall_impl; [|exact Hf']. cbn beta. intros d Hd. lia.
    + split; [exact Hs|].
      eapply Forall_impl; [|exact Hf']. cbn beta. intros d Hd. lia.
Qed.

Lemma insert_desc_Permutation (x : RawDetection) (l : list RawDetection) :
  Permutation (x :: l) (insert_desc x l).
Proof.
  induction l as [|y l IH]; cbn [insert_desc]; [reflexivity|].
  destruct (Qle_bool (confidence y) (confidence x)); [reflexivity|].
  rewrite perm_swap. now constructor.
Qed.

Lemma sort_desc_Permutation (l : list RawDetection) :
  Permutation l (sort_desc l).
Proof.
  induction l as [|x l IH]; cbn [sort_desc fold_right]; [reflexivity|].
  rewrite <- insert_desc_Permutation. now constructor.
Qed.

Lemma ranks_before_le (a b : RawDetection) :
  ranks_before a b -> confidence b <= confidence a.
Proof.
  intros [H | [H _]]; [now apply Qlt_le_weak|]. rewrite H. apply Qle_refl.
Qed.

Lemma insert_desc_sorted (x : RawDetection) (l : list RawDetection) :
  StronglySorted ranks_before l ->
  Forall (fun y => (class_id x < class_id y)%Z) l ->
  StronglySorted ranks_before (insert_desc x l).
Proof.
  induction l as [|y l IH]; intros Hs Hid; cbn [insert_desc].
  - constructor; constructor.
  - inversion Hs as [|? ? Hs' Hy]; subst. inversion Hid as [|? ? Hxy Hid']; subst.
    destruct (Qle_bool (confidence y) (confidence x)) eqn:E.
    + apply Qle_bool_iff in E. constructor; [exact Hs|].
      assert (A : forall z, confidence z <= confidence x ->
                    (class_id x < class_id z)%Z -> ranks_before x z).
      { intros z Hz Hi. destruct (Qlt_le_dec (confidence z) (confidence x)) as [Hlt | Hge].
        - now left.
        - right. split; [now apply Qle_antisym|exact Hi]. }
      constructor; [now apply A|].
      rewrite Forall_forall in Hy, Hid' |- *. intros z Hz.
      apply A; [|now apply Hid'].
      apply Qle_trans with (confidence y); [|exact E].
      apply ranks_before_le. now apply Hy.
    + constructor.
      * now apply IH.
      * assert (Hyx : ranks_before y x).
        { left. apply Qnot_le_lt. intros H. apply Qle_bool_iff in H. congruence. }
        rewrite Forall_forall in Hy |- *. intros z Hz.
        apply (Permutation_in _ (Permutation_sym (insert_desc_Permutation x l))) in Hz.
        destruct Hz as [<- | Hz]; [exact Hyx | now apply Hy].
Qed.

Lemma sort_desc_sorted (l : list RawDetection) :
  StronglySorted (fun a b => (class_id a < class_id b)%Z) l ->
  StronglySorted ranks_before (sort_desc l).
Proof.
  induction l as [|x l IH]; intros Hs; cbn [sort_desc fold_right].
  - constructor.
  - inversion Hs as [|? ? Hs' Hx]; subst. apply insert_desc_sorted.
    + now apply IH.
    + rewrite Forall_forall in Hx |- *. intros y Hy. apply Hx.
      now apply (Permutation_in _ (Permutation_sym (sort_desc_Permutation l))).
Qed.

Lemma detect_cases (w : World) (self : SignDetector) (image_bytes : list Byte.byte)
    (t : Q) :
  fst (detect w self image_bytes t) = []
  \/ exists output,
       fst (detect w self image_bytes t)
       = sort_desc
           (process w (labels (snd (detect w self image_bytes t))) t output)
       /\ exists loaded,
            interpreter (snd (detect w self image_bytes t)) = Some loaded
            /\ first_output_row w loaded image_bytes = Some output.
Proof.
  unfold detect.
  destruct (if _loaded self then (true, self) else load w self) as [ready self'].
  destruct ready; cbn [negb]; [|now left].
  destruct (interpreter self') as [loaded|] eqn:I; [|now left].
  destruct (first_output_row w loaded image_bytes) as [output|] eqn:O; [|now left].
  right. exists output. cbn [fst snd]. split; [reflexivity|].
  exists loaded. now split.
Qed.

Lemma binary32_round_nonneg (x r : Q) :
  0 <= x -> Binary32.round x = Some r -> 0 <= r.
Proof.
  intros Hx. unfold Binary32.round.
  destruct (Qeq_bool x 0); [now intros [= <-]|].
  destruct (Qlt_bool_spec x 0) as [Hlt | _]; [lra|].
  unfold Binary32.round_positive. cbv zeta.
  destruct (Qle_bool _ _); [discriminate|]. intros [= <-].
  pose proof (Qpower_0_lt 2 (Binary32.ulp_exponent x) ltac:(lra)) as Hp.
  apply Qmult_le_0_compat; [|lra].
  change 0 with (inject_Z 0). rewrite <- Zle_Qle. apply round_ge.
  change (inject_Z 0) with 0. apply Qle_shift_div_l; lra.
Qed.

(** What a detection that has reached the threshold has for sure: a
    confidence that is not negative when the threshold is not, and a
    confidence of the threshold or more where the threshold is compared
    as it is, which is so before NumPy 2 and for a threshold that
    binary32 holds. *)
Lemma reaches_bounds (w : World) (c t : Q) :
  reaches w c t = true ->
  (0 <= t -> 0 <= c)
  /\ (weak_scalars w = false
      \/ (exists r, Binary32.round t = Some r /\ r == t) ->
      t <= c).
Proof.
  unfold reaches. intros R. split.
  - intros Ht. destruct (weak_scalars w).
    + destruct (Binary32.round t) as [r|] eqn:E.
      * apply Qle_bool_iff in R.
        pose proof (binary32_round_nonneg t r Ht E). lra.
      * destruct (Qlt_bool_spec t 0); [lra | discriminate].
    + apply Qle_bool_iff in R. lra.
  - intros [Hw | (r & E & Hr)].
    + rewrite Hw in R. now apply Qle_bool_iff in R.
    + destruct (weak_scalars w).
      * rewrite E in R. apply Qle_bool_iff in R. lra.
      * now apply Qle_bool_iff in R.
Qed.

Lemma detect_sorted (w : World) (self : SignDetector)
    (image_bytes : list Byte.byte) (confidence_threshold : Q) :
  StronglySorted ranks_before
    (fst (detect w self image_bytes confidence_threshold)).
Proof.
  destruct (detect_cases w self image_bytes confidence_threshold)
    as [-> | (output & -> & _)]; [constructor|].
  apply sort_desc_sorted.
  exact (proj1 (process_ids_from w _ confidence_threshold output 0)).
Qed.


(** X18. What [detect] returns is in the order of the confidences, the greatest
    first and equal ones by class; no class is given twice; each detection
    has reached the threshold as NumPy compares the two: its confidence
    is the threshold or more before NumPy 2 and for a threshold that
    binary32 holds, the rounding of the threshold to binary32 or more
    with NumPy 2, and not negative when the threshold is not; its class
    is not negative and its name is the label of the class, or [class_]
    and the class where the labels end before it. *)
Theorem detect_ranks_detections (w : World) (self : SignDetector)
    (image_bytes : list Byte.byte) (confidence_threshold : Q) :
  let found := fst (detect w self image_bytes confidence_threshold) in
  let after := snd (detect w self image_bytes confidence_threshold) in
  StronglySorted ranks_before found
  /\ NoDup (map class_id found)
  /\ Forall
       (fun d =>
          reaches w (confidence d) confidence_threshold = true
          /\ (weak_scalars w = false ->
              confidence_threshold <= confidence d)
          /\ (weak_scalars w = true ->
              forall rounded,
                Binary32.round confidence_threshold = Some rounded ->
                rounded <= confidence d)
          /\ (0 <= confidence_threshold -> 0 <= confidence d)
          /\ (0 <= class_id d)%Z
          /\ class_name d = label (labels after) (Z.to_nat (class_id d)))
       found.
Proof.
  cbv zeta.
  destruct (detect_cases w self image_bytes confidence_threshold)
    as [-> | (output & -> & _)].
  { repeat split; constructor. }
  set (lbls := labels (snd (detect w self image_bytes confidence_threshold))).
  pose proof (process_ids_from w lbls confidence_threshold output 0) as [Hs _].
  fold (process w lbls confidence_threshold output) in Hs.
  split; [now apply sort_desc_sorted|]. split.
  - apply (Permutation_NoDup
             (Permutation_map class_id (sort_desc_Permutation _))).
    induction Hs as [|d l Hs IH Hd]; cbn [map]; constructor; auto.
    intros Hin. apply in_map_iff in Hin as (d' & E & Hin).
    rewrite Forall_forall in Hd. specialize (Hd _ Hin). lia.
  - apply Forall_forall. intros d Hd.
    apply (Permutation_in _ (Permutation_sym (sort_desc_Permutation _))) in Hd.
    apply process_In in Hd as (i & c & _ & R & ->).
    cbn [confidence class_id class_name]. rewrite Nat2Z.id.
    destruct (reaches_bounds w c confidence_threshold R) as [H0 Hx].
    split; [exact R|]. split; [intros Hw; apply Hx; now left|].
    split.
    { intros Hw r E. unfold reaches in R. rewrite Hw, E in R.
      now apply Qle_bool_iff in R. }
    split; [exact H0|]. split; [lia | reflexivity].
Qed.

(** X19. A loaded detector whose model gives an output row returns one
    detection for each class of the row that has reached the threshold as
    NumPy compares the two, and nothing else; the detector is as before.
    With NumPy 2 an output of the binary32 number nearest to 0.7 is
    returned for the threshold 0.7, which it is below. *)
Theorem detect_finds_all (w : World) (self : SignDetector)
    (loaded : Interpreter) (image_bytes : list Byte.byte)
    (confidence_threshold : Q) (output : list Q) :
  _loaded self = true ->
  interpreter self = Some loaded ->
  first_output_row w loaded image_bytes = Some output ->
  snd (detect w self image_bytes confidence_threshold) = self
  /\ (List.length (fst (detect w self image_bytes confidence_threshold))
      <= List.length output)%nat
  /\ forall d,
       In d (fst (detect w self image_bytes confidence_threshold))
       <-> exists (i : nat) (c : Q),
             nth_error output i = Some c
             /\ reaches w c confidence_threshold = true
             /\ d = {| class_id := Z.of_nat i;
                       class_name := label (labels self) i;
                       confidence := c |}.
Proof.
  intros L I O. unfold detect. rewrite L. cbn [negb]. rewrite I, O.
  cbn [fst snd]. split; [reflexivity|]. split.
  - rewrite <- (Permutation_length (sort_desc_Permutation _)).
    unfold process. clear O. generalize 0%nat.
    induction output as [|c output IH]; intros start; cbn [enumerate flat_map];
      [apply Nat.le_refl|].
    rewrite length_app. specialize (IH (S start)).
    destruct (reaches w c confidence_threshold); cbn [List.length]; lia.
  - intros d. rewrite <- process_In. split; intros H.
    + now apply (Permutation_in _ (Permutation_sym (sort_desc_Permutation _))).
    + now apply (Permutation_in _ (sort_desc_Permutation _)).
Qed.

End DetectorFacts.

Lemma detect_finds_all_witness :
  let w := world_of true [11744051 # 16777216; 0.9; 0.2] in
  let self := snd (Detector.load w (Detector.__init__ w None)) in
  (11744051 # 16777216) < 0.7
  /\ In {| Detector.class_id := 0; Detector.class_name := "class_0";
           Detector.confidence := 11744051 # 16777216 |}
       (fst (Detector.detect w self [] 0.7)).
Proof.
  cbv zeta. split; [reflexivity|].
  apply (detect_finds_all (world_of true [11744051 # 16777216; 0.9; 0.2])
           (snd (Detector.load
                   (world_of true [11744051 # 16777216; 0.9; 0.2])
                   (Detector.__init__
                      (world_of true [11744051 # 16777216; 0.9; 0.2]) None)))
           {| Detector.interpreter_model_path :=
                "/app/ml/models/traffic_signs.tflite" |} [] 0.7
           [11744051 # 16777216; 0.9; 0.2] eq_refl eq_refl eq_refl).
  exists 0%nat, (11744051 # 16777216). repeat split.
Defined.

(** * Detection in an image *)

Section DetectApiFacts.

Import SignClasses SignClassesMore DetectApi.


Lemma for_each_results (raw : list Detector.RawDetection)
    (detections : list DetectionResult) :
  for_each
    (fun d =>
       new_DetectionResult (Detector.class_id d) (Detector.class_name d)
         (Detector.confidence d) None) raw
  = Return detections ->
  detections
  = map (fun d => {| class_id := Detector.class_id d;
                     class_name := Detector.class_name d;
                     confidence := Detector.confidence d;
                     bbox := None |}) raw.
Proof.
  revert detections. induction raw as [|d raw IH]; intros detections;
    cbn [for_each map].
  - now intros [= <-].
  - unfold new_DetectionResult at 1.
    destruct (Qle_bool 0 (Detector.confidence d)
              && Qle_bool (Detector.confidence d) 1);
      cbn [and_then]; [|discriminate].
    destruct (for_each _ raw) as [rest|]; cbn [and_then]; [|discriminate].
    intros [= <-]. now rewrite (IH rest eq_refl).
Qed.


Lemma results_sorted (raw : list Detector.RawDetection) :
  StronglySorted ranks_before raw ->
  StronglySorted (fun a b => confidence b <= confidence a)
    (map (fun d => {| class_id := Detector.class_id d;
                      class_name := Detector.class_name d;
                      confidence := Detector.confidence d; bbox := None |})
       raw).
Proof.
  induction 1 as [|d l Hs IH Hd]; cbn [map]; constructor; [exact IH|].
  rewrite Forall_forall in Hd |- *. intros x Hx.
  apply in_map_iff in Hx as (y & <- & Hy). cbn [confidence].
  apply ranks_before_le. now apply Hd.
Qed.

Lemma find_speed_limit_first (detections : list DetectionResult) :
  match find_speed_limit detections with
  | None =>
      Forall (fun d => get_speed_limit_value (class_id d) = None) detections
  | Some limit =>
      exists before d after,
        detections = (before ++ d :: after)%list
        /\ get_speed_limit_value (class_id d) = Some limit
        /\ Forall (fun d => get_speed_limit_value (class_id d) = None) before
  end.
Proof.
  induction detections as [|d rest IH]; cbn [find_speed_limit]; [constructor|].
  destruct (get_speed_limit_value (class_id d)) as [limit|] eqn:E.
  - exists [], d, rest. repeat split; [exact E | constructor].
  - destruct (find_speed_limit rest) as [limit|].
    + destruct IH as (before & d' & after & -> & Hl & Hb).
      exists (d :: before), d', after. repeat split; [exact Hl|].
      now constructor.
    + now constructor.
Qed.

Lemma detect_signs_cases (w : Detector.World)
    (_detector : option Detector.SignDetector) (content_type : option string)
    (image_bytes : list Byte.byte) (confidence_threshold : option Q)
    (start_time end_time : Q) :
  let detector := fst (Detector.get_detector w _detector) in
  match query_confidence_threshold confidence_threshold with
  | Fail f => fst (detect_signs w _detector content_type image_bytes
                     confidence_threshold start_time end_time) = Fail f
  | Return t =>
      if not_an_image content_type then
        fst (detect_signs w _detector content_type image_bytes
               confidence_threshold start_time end_time)
        = Fail (HTTPException 400 "File must be an image")
      else if negb (Detector.is_available w detector) then
        fst (detect_signs w _detector content_type image_bytes
               confidence_threshold start_time end_time)
        = Fail (HTTPException 503 "Sign detection model not available")
      else
        fst (detect_signs w _detector content_type image_bytes
               confidence_threshold start_time end_time)
        = and_then
            (for_each
               (fun d =>
                  new_DetectionResult (Detector.class_id d)
                    (Detector.class_name d) (Detector.confidence d) None)
               (fst (Detector.detect w detector image_bytes t)))
            (fun detections =>
               Return {| detections := detections;
                         speed_limit := find_speed_limit detections;
                         processing_time_ms :=
                           (end_time - start_time) * 1000 |})
  end.
Proof.
  cbv zeta. unfold detect_signs.
  destruct (query_confidence_threshold confidence_threshold) as [t|f];
    [|reflexivity].
  destruct (not_an_image content_type); [reflexivity|].
  destruct (Detector.get_detector w _detector) as [detector g]. cbn [fst].
  destruct (negb (Detector.is_available w detector)); [reflexivity|].
  destruct (Detector.detect w detector image_bytes t) as [raw detector'].
  reflexivity.
Qed.

(** X20. The speed limit of the response is that of a detection which no
    detection with a speed limit exceeds in confidence; there is none
    exactly when no detection has a speed limit.  The detections of the
    response are in the order of their confidence and carry no box. *)
Theorem speed_limit_of_most_confident (w : Detector.World)
    (_detector : option Detector.SignDetector) (content_type : option string)
    (image_bytes : list Byte.byte) (confidence_threshold : option Q)
    (start_time end_time : Q) (response : DetectionResponse) :
  fst (detect_signs w _detector content_type image_bytes confidence_threshold
         start_time end_time) = Return response ->
  StronglySorted (fun a b => confidence b <= confidence a)
    (detections response)
  /\ Forall (fun d => bbox d = None) (detections response)
  /\ match speed_limit response with
     | None =>
         Forall (fun d => get_speed_limit_value (class_id d) = None)
           (detections response)
     | Some limit =>
         exists d,
           In d (detections response)
           /\ get_speed_limit_value (class_id d) = Some limit
           /\ forall d',
                In d' (detections response) ->
                get_speed_limit_value (class_id d') <> None ->
                confidence d' <= confidence d
     end.
Proof.
  intros H.
  pose proof (detect_signs_cases w _detector content_type image_bytes
                confidence_threshold start_time end_time) as C.
  cbv zeta in C. rewrite H in C.
  destruct (query_confidence_threshold confidence_threshold) as [t|f];
    [|discriminate].
  destruct (not_an_image content_type); [discriminate|].
  destruct (negb (Detector.is_available w _)); [discriminate|].
  set (detector := fst (Detector.get_detector w _detector)) in C.
  destruct (for_each _ (fst (Detector.detect w detector image_bytes t)))
    as [dets|] eqn:F; cbn [and_then] in C; [|discriminate].
  injection C as ->. cbn [detections speed_limit].
  pose proof (for_each_results _ _ F) as ->.
  pose proof (detect_sorted w detector image_bytes t) as Hs.
  set (raw := fst (Detector.detect w detector image_bytes t)) in *.
  set (conv := fun d : Detector.RawDetection =>
                 {| class_id := Detector.class_id d;
                    class_name := Detector.class_name d;
                    confidence := Detector.confidence d; bbox := None |}).
  assert (S : StronglySorted (fun a b => confidence b <= confidence a)
                (map conv raw)).
  { apply results_sorted. exact Hs. }
  split; [exact S|]. split.
  { apply Forall_forall. intros x Hx. now apply in_map_iff in Hx as (y & <- & _). }
  pose proof (find_speed_limit_first (map conv raw)) as Hfirst.
  destruct (find_speed_limit (map conv raw)) as [limit|]; [|exact Hfirst].
  destruct Hfirst as (before & d & after & E & Hl & Hb).
  exists d. split; [rewrite E; apply in_elt|]. split; [exact Hl|].
  intros d' Hin Hd'. rewrite E in Hin, S.
  apply in_app_or in Hin as [Hin | [<- | Hin]].
  - rewrite Forall_forall in Hb. now specialize (Hb _ Hin).
  - apply Qle_refl.
  - clear - S Hin. induction before as [|b before IH]; cbn [app] in S.
    + inversion S as [|? ? _ Hd]; subst. rewrite Forall_forall in Hd.
      now apply Hd.
    + inversion S; subst. now apply IH.
Qed.

Lemma speed_limit_of_most_confident_witness :
  exists response,
    fst (detect_signs (world_of true [0.1; 0.9; 0.6]) None (Some "image/png")
           [] None 0 1) = Return response
    /\ speed_limit response = Some 30%Z
    /\ StronglySorted (fun a b => confidence b <= confidence a)
         (detections response).
Proof.
  eexists. split; [reflexivity|]. split; [reflexivity|].
  apply (speed_limit_of_most_confident (world_of true [0.1; 0.9; 0.6]) None
           (Some "image/png") [] None 0 1). reflexivity.
Defined.




(** X22. When the detector is available and yet its model cannot be loaded, or
    gives no output for the image, the request succeeds with no detection
    and no speed limit. *)
Theorem failing_model_answers_empty (w : Detector.World)
    (_detector : option Detector.SignDetector) (content_type : option string)
    (image_bytes : list Byte.byte) (confidence_threshold : option Q)
    (start_time end_time : Q) (t : Q) :
  let detector := fst (Detector.get_detector w _detector) in
  query_confidence_threshold confidence_threshold = Return t ->
  not_an_image content_type = false ->
  Detector.is_available w detector = true ->
  fst (Detector.load w detector) = false
  \/ (forall loaded, Detector.first_output_row w loaded image_bytes = None) ->
  fst (detect_signs w _detector content_type image_bytes confidence_threshold
         start_time end_time)
  = Return {| detections := []; speed_limit := None;
              processing_time_ms := (end_time - start_time) * 1000 |}.
Proof.
  cbv zeta. intros Q N A H.
  pose proof (detect_signs_cases w _detector content_type image_bytes
                confidence_threshold start_time end_time) as C.
  cbv zeta in C. rewrite Q, N, A in C. cbn [negb] in C. rewrite C.
  set (detector := fst (Detector.get_detector w _detector)) in *.
  assert (E : fst (Detector.detect w detector image_bytes t) = []).
  { destruct H as [H | H].
    - unfold Detector.detect.
      destruct (Detector._loaded detector) eqn:L.
      + unfold Detector.load in H. rewrite L in H. discriminate.
      + destruct (Detector.load w detector) as [ready d']. cbn [fst] in H.
        now subst ready.
    - destruct (detect_cases w detector image_bytes t)
        as [E | (output & _ & loaded & _ & O)]; [exact E|].
      rewrite H in O. discriminate. }
  rewrite E. reflexivity.
Qed.

Lemma failing_model_answers_empty_witness :
  fst (detect_signs (world_of false [0.9]) None (Some "image/jpeg") []
         (Some 0.25) 10 12)
  = Return {| detections := []; speed_limit := None;
              processing_time_ms := (12 - 10) * 1000 |}.
Proof.
  apply (failing_model_answers_empty (world_of false [0.9]) None
           (Some "image/jpeg") [] (Some 0.25) 10 12 0.25);
    try reflexivity.
  left. reflexivity.
Defined.

End DetectApiFacts.

(** * The trips *)

Section TripsFacts.

Import Trips.

(** ** Reading a trip *)




(** ** The report *)

Lemma score_trip_data_eq (t : TripData) (es : list Event) (ds : list Detection) :
  score_trip_data t es ds = score_trip t es ds.
Proof.
  unfold score_trip_data. destruct (score_trip t es ds) as [[? ? ? ? ? ?]|];
    reflexivity.
Qed.

Lemma score_in_range (t : TripData) (es : list Event) (ds : list Detection) :
  (40 <= score (result_of (locals_of t es ds)) <= 100)%Z.
Proof.
  rewrite score_of_locals.
  pose proof (final_score_bounds t es ds) as [H40 H100].
  split; [now apply round_ge | now apply round_le].
Qed.

Lemma report_of_loaded (trip : LoadedTrip) :
  let scored :=
    result_of (locals_of (trip_data_of trip) (events_data_of trip)
                 (detections_data_of trip)) in
  and_then
    (uncaught
       (score_trip_data (trip_data_of trip) (events_data_of trip)
          (detections_data_of trip)))
    (fun scoring_result =>
       TripReport.new trip (summary_of trip) (recommendations scoring_result)
         (score scoring_result) (risk_level scoring_result)
         (grade scoring_result) (issues scoring_result)
         (breakdown scoring_result))
  = Return {| TripReport.trip := trip;
              TripReport.summary := summary_of trip;
              TripReport.recommendations := recommendations scored;
              TripReport.safety_score := score scored;
              TripReport.risk_level := risk_level scored;
              TripReport.grade := grade scored;
              TripReport.issues := issues scored;
              TripReport.score_breakdown := breakdown scored |}.
Proof.
  cbv zeta. rewrite score_trip_data_eq, score_trip_eq. cbn [uncaught and_then].
  unfold TripReport.new.
  pose proof (score_in_range (trip_data_of trip) (events_data_of trip)
                (detections_data_of trip)) as H.
  replace ((0 <=? score _) && (score _ <=? 100))%Z with true
    by (symmetry; apply andb_true_intro; split; lia).
  reflexivity.
Qed.


(** ** The summary *)

Lemma count_types_tally (rows : list TripEvent.row) :
  count_types rows = tally (map TripEvent.event_type rows) [].
Proof.
  unfold count_types, tally. generalize (@nil (string * Z)).
  induction rows as [|e rows IH]; intros d; cbn [map fold_left]; [reflexivity|].
  apply IH.
Qed.

Lemma events_data_keys (trip : LoadedTrip) :
  map event_key (events_data_of trip) = map TripEvent.event_type (events trip).
Proof.
  unfold events_data_of. rewrite map_map. reflexivity.
Qed.

Lemma set_total (d : dict Z) (k : string) :
  fold_right Z.add 0%Z (map snd (Dict.set d k (Dict.get d k 0 + 1)%Z))
  = (fold_right Z.add 0%Z (map snd d) + 1)%Z.
Proof.
  unfold Dict.get.
  induction d as [|[k0 v0] d IH]; cbn [Dict.set Dict.lookup map snd fold_right].
  - lia.
  - destruct (String.eqb k0 k); cbn [map snd fold_right]; lia.
Qed.

Lemma tally_total (keys : list string) (d : dict Z) :
  fold_right Z.add 0%Z (map snd (tally keys d))
  = (fold_right Z.add 0%Z (map snd d) + Z.of_nat (List.length keys))%Z.
Proof.
  revert d. induction keys as [|k keys IH]; intros d.
  - cbn. lia.
  - rewrite tally_cons, IH, set_total. cbn [List.length]. lia.
Qed.

Lemma Return_inj {A : Type} (a b : A) : Return a = Return b -> a = b.
Proof. now intros [= ->]. Qed.

Lemma Fail_not_Return {A : Type} (f : failure) (a : A) : Fail f <> Return a.
Proof. discriminate. Qed.

Lemma get_trip_report_inv (db : Db.Database) (current_user_id trip_id : Z)
    (report : TripReport.t) :
  get_trip_report db current_user_id trip_id = Return report ->
  TripReport.summary report = summary_of (TripReport.trip report).
Proof.
  unfold get_trip_report.
  destruct (scalar_one_or_none _) as [[trip|]|]; cbn [and_then].
  - cbv zeta. rewrite report_of_loaded. intros H.
    apply Return_inj in H. subst report. reflexivity.
  - intros H. exfalso. exact (Fail_not_Return _ _ H).
  - intros H. exfalso. exact (Fail_not_Return _ _ H).
Qed.

(** X24. The summary of a report counts the events as the scorer does: the
    entries of [events_by_type] are the scorer's [event_counts], one for
    each type that occurs and in the order of the first occurrences, and
    they add up to [total_events]. *)
Theorem summary_counts_as_scorer (db : Db.Database)
    (current_user_id trip_id : Z) (report : TripReport.t) :
  get_trip_report db current_user_id trip_id = Return report ->
  let trip := TripReport.trip report in
  let summary := TripReport.summary report in
  score_trip_locals (trip_data_of trip) (events_data_of trip)
    (detections_data_of trip)
  = Ok (locals_of (trip_data_of trip) (events_data_of trip)
          (detections_data_of trip))
  /\ events_by_type summary
     = loc_event_counts
         (locals_of (trip_data_of trip) (events_data_of trip)
            (detections_data_of trip))
  /\ NoDup (map fst (events_by_type summary))
  /\ (forall type,
        Dict.get (events_by_type summary) type 0%Z
        = occurrences (map TripEvent.event_type (events trip)) type)
  /\ fold_right Z.add 0%Z (map snd (events_by_type summary))
     = total_events summary
  /\ signs_detected summary
     = Z.of_nat (List.length (detections_data_of trip)).
Proof.
  intros H. cbv zeta. rewrite (get_trip_report_inv _ _ _ _ H).
  set (trip := TripReport.trip report).
  cbn [summary_of events_by_type total_events signs_detected].
  split; [apply score_trip_locals_eq|].
  split.
  { unfold locals_of. cbn [loc_event_counts].
    now rewrite count_types_tally, events_data_keys. }
  rewrite count_types_tally. split; [apply tally_NoDup; constructor|].
  split; [intros type; apply get_tally|]. split.
  - rewrite tally_total, length_map. cbn. lia.
  - unfold detections_data_of. now rewrite length_map.
Qed.


Lemma summary_counts_as_scorer_witness :
  exists report,
    get_trip_report tables_of_one_trip 7 1 = Return report
    /\ events_by_type (TripReport.summary report)
       = [("hard_brake", 2%Z); ("overspeed", 1%Z)]
    /\ fold_right Z.add 0%Z
         (map snd (events_by_type (TripReport.summary report)))
       = total_events (TripReport.summary report).
Proof.
  eexists. split; [vm_compute; reflexivity|]. split; [reflexivity|].
  apply (summary_counts_as_scorer tables_of_one_trip 7 1).
  vm_compute. reflexivity.
Defined.

(** ** Uploading a trip *)


(** A column [String(5)]: a text of five characters, one with spaces
    after them, one with a sixth character, one with the character NUL,
    and five characters of two bytes each. *)
Example varchar_of_five :
  Db.varchar 5 "swerv" = Some "swerv"
  /\ Db.varchar 5 "swerv  " = Some "swerv"
  /\ Db.varchar 5 "swerve" = None
  /\ Db.varchar 5 (String Ascii.zero "") = None
  /\ Db.varchar 5
       (string_of_list_ascii
          (map ascii_of_nat
             [195; 169; 195; 169; 195; 169; 195; 169; 195; 169; 32]%nat))
     = Some (string_of_list_ascii
               (map ascii_of_nat
                  [195; 169; 195; 169; 195; 169; 195; 169; 195; 169]%nat)).
Proof. vm_compute. repeat split; reflexivity. Qed.

(** An event type of 51 characters, or a duration that [Integer] does
    not hold, and the upload is refused. *)
Example upload_refused :
  Trips.upload_trip tables_of_one_trip (verdict_of_key 2) 8
    upload_of_long_type 3000%Z
  = (Fail DBAPIError, tables_of_one_trip)
  /\ Trips.upload_trip tables_of_one_trip (verdict_of_key 2) 8
       {| TripUpload.start_time := 2000%Z; TripUpload.end_time := 2600%Z;
          TripUpload.duration_seconds := Some (2 ^ 31)%Z;
          TripUpload.distance_m := None;
          TripUpload.avg_speed_m_s := None; TripUpload.max_speed_m_s := None;
          TripUpload.events := []; TripUpload.sign_detections := [] |}
       3000%Z
     = (Fail DBAPIError, tables_of_one_trip).
Proof. vm_compute. split; reflexivity. Qed.










End TripsFacts.
